(** * ProfitLens: the profit aggregation engine

    A shallow embedding of the Cloud Functions that compute a shop's daily
    net profit ([functions/src/profit/calculator.js]) together with the
    helpers they call: gateway fees ([costs/gatewayFees.js], [config.js]),
    fixed costs ([costs/fixedCosts.js]), order metrics ([shopify/orders.js]),
    the COGS lookup ([cogs/manual.js]) and the date validator
    ([utils/validators.js]).

    JavaScript numbers are IEEE 754 binary64 values, so they are embedded as
    Rocq's primitive floats: [+], [-], [*] and [/] are the same correctly
    rounded operations.  [Number.prototype.toFixed] and [parseFloat] are
    written out from ECMA-262 over the exact value of a double.  Strings are
    sequences of code units below 256.  Array lengths and the counters
    bounded by them are natural numbers; order and variant ids are integers
    below 2^53, which a double holds exactly.

    Firestore, the clock, the token decryption and the Shopify orders API are
    the world the functions run in: a function is a computation that takes a
    world, returns a value or throws, and leaves a world.  Every request to
    the store is logged, and the world says which requests fail. *)

From Stdlib Require Import ZArith List Ascii String Bool Lia.
From Stdlib Require Import Floats.
From Stdlib Require Import DecimalString.
From Stdlib Require Import Sorted Permutation.
From Stdlib Require DecimalN DecimalPos.
From stdpp Require Import gmap strings.

Set Warnings "-inexact-float".

Import ListNotations.
Local Open Scope list_scope.
Local Open Scope string_scope.

(** ** JavaScript numbers and their string conversions *)

Module JS.

Abbreviation number := float.

(** The double nearest to an integer, ties to even. *)
Definition ofZ (z : Z) : number :=
  SF2Prim (binary_normalize prec emax z 0 false).

Definition ofNat (n : nat) : number := ofZ (Z.of_nat n).

(** The double nearest to [sign * d / 10^k] ([d], [k] >= 0), ties to even:
    the value of a decimal literal with digits [d] and [k] fraction digits. *)
Definition ofDecimal (neg : bool) (d : Z) (e10 : Z) : number :=
  match d with
  | Zpos _ =>
      if (0 <=? e10)%Z
      then SF2Prim (binary_normalize prec emax
                      ((if neg then Z.opp d else d) * 10 ^ e10) 0 false)
      else
        let '(q, e, l) :=
          SFdiv_core_binary prec emax d 0 (10 ^ (- e10)) 0 in
        SF2Prim (binary_round_aux prec emax neg q e l)
  | _ => if neg then neg_zero else zero
  end.

(** ToBoolean on a number: [0], [-0] and [NaN] are falsy. *)
Definition truthy (x : number) : bool :=
  negb (PrimFloat.eqb x 0 || is_nan x).

(** [x || 0] *)
Definition orZero (x : number) : number := if truthy x then x else zero.

Definition gt (x y : number) : bool := PrimFloat.ltb y x.
Definition lt (x y : number) : bool := PrimFloat.ltb x y.
Definition ge (x y : number) : bool := PrimFloat.leb y x.

(** *** Decimal digits *)

Definition digitsOfZ (z : Z) : string :=
  NilZero.string_of_uint (N.to_uint (Z.to_N z)).

Fixpoint zeros (n : nat) : string :=
  match n with
  | O => ""
  | S n => String "0" (zeros n)
  end.

(** The digits of [n >= 0] with a point before the last [fd] digits, padded
    with zeros on the left to at least [fd + 1] digits (step 10 of
    [Number.prototype.toFixed]). *)
Definition fixedDigits (fd : nat) (n : Z) : string :=
  let m := digitsOfZ n in
  let k := String.length m in
  let m := if (k <=? fd)%nat then zeros (S fd - k) ++ m else m in
  let k := String.length m in
  match fd with
  | O => m
  | _ => substring 0 (k - fd) m ++ "." ++ substring (k - fd) fd m
  end.

(** The integer [n] for which [n / 10^fd - m * 2^e] is closest to zero, the
    larger one on a tie. *)
Definition roundHalfUp (fd : nat) (m : positive) (e : Z) : Z :=
  let s := (Zpos m * 10 ^ Z.of_nat fd)%Z in
  match e with
  | Zneg p => ((2 * s + 2 ^ Zpos p) / 2 ^ (Zpos p + 1))%Z
  | _ => (s * 2 ^ e)%Z
  end.

(** *** Number::toString for a finite double of magnitude at least 10^21

    Such a double is an integer [x].  The result has the fewest digits [k]
    for which some [s * 10^(n-k)] rounds back to the double; among those the
    one closest to [x], and it is written in exponent notation. *)

Fixpoint stripZeros (rev_digits : list ascii) : list ascii :=
  match rev_digits with
  | "0"%char :: r => stripZeros r
  | _ => rev_digits
  end.

Definition expNotation (c : Z) : string :=
  let ds := digitsOfZ c in
  let n := String.length ds in
  let sig := rev (stripZeros (rev (list_ascii_of_string ds))) in
  let mant :=
    match sig with
    | [] => "0"
    | [d] => String d ""
    | d :: r => String d ("." ++ string_of_list_ascii r)
    end in
  mant ++ "e+" ++ digitsOfZ (Z.of_nat (n - 1)).

Definition roundTrips (c : Z) (x : Z) : bool :=
  match SFcompare (binary_normalize prec emax c 0 false)
                  (binary_normalize prec emax x 0 false) with
  | Some Eq => true
  | _ => false
  end.

Fixpoint shortest (fuel : nat) (k : nat) (nd : nat) (x : Z) : Z :=
  match fuel with
  | O => x
  | S fuel =>
      let p := (10 ^ Z.of_nat (nd - k))%Z in
      let lo := (x / p * p)%Z in
      let hi := (lo + p)%Z in
      let okLo := roundTrips lo x in
      let okHi := roundTrips hi x in
      if okLo && okHi then
        match Z.compare (x - lo) (hi - x) with
        | Lt => lo
        | Gt => hi
        | Eq => if Z.even (x / p) then lo else hi
        end
      else if okLo then lo
      else if okHi then hi
      else shortest fuel (S k) nd x
  end.

Definition bigToString (x : Z) : string :=
  let nd := String.length (digitsOfZ x) in
  expNotation (shortest nd 1 nd x).

(** *** Number.prototype.toFixed(fd) *)

Definition toFixed (fd : nat) (x : number) : string :=
  match Prim2SF x with
  | S754_nan => "NaN"
  | S754_infinity s => if s then "-Infinity" else "Infinity"
  | S754_zero _ => fixedDigits fd 0
  | S754_finite s m e =>
      let sign := if s then "-" else "" in
      if (0 <=? e)%Z && (10 ^ 21 <=? Zpos m * 2 ^ e)%Z
      then sign ++ bigToString (Zpos m * 2 ^ e)
      else sign ++ fixedDigits fd (roundHalfUp fd m e)
  end.

(** *** parseFloat *)

Definition isDigit (c : ascii) : bool :=
  let n := nat_of_ascii c in (48 <=? n)%nat && (n <=? 57)%nat.

Definition digitVal (c : ascii) : Z := Z.of_nat (nat_of_ascii c - 48).

(** White space and line terminators among the code units below 256. *)
Definition isSpace (c : ascii) : bool :=
  let n := nat_of_ascii c in
  ((9 <=? n)%nat && (n <=? 13)%nat) || (n =? 32)%nat || (n =? 160)%nat.

Fixpoint trimStart (s : string) : string :=
  match s with
  | String c r => if isSpace c then trimStart r else s
  | EmptyString => s
  end.

(** Reads a run of digits: their value on top of [acc], how many there were,
    and the rest of the string. *)
Fixpoint readDigits (s : string) (acc : Z) (cnt : nat) : Z * nat * string :=
  match s with
  | String c r =>
      if isDigit c then readDigits r (acc * 10 + digitVal c)%Z (S cnt)
      else (acc, cnt, s)
  | EmptyString => (acc, cnt, s)
  end.

(** The exponent part [e], [e+] or [e-] followed by digits; [0] when the
    text does not continue with one. *)
Definition readExponent (s : string) : Z :=
  match s with
  | String c r =>
      if (c =? "e")%char || (c =? "E")%char then
        match r with
        | String "+" r' =>
            let '(v, n, _) := readDigits r' 0 0 in
            if (n =? 0)%nat then 0%Z else v
        | String "-" r' =>
            let '(v, n, _) := readDigits r' 0 0 in
            if (n =? 0)%nat then 0%Z else (- v)%Z
        | _ =>
            let '(v, n, _) := readDigits r 0 0 in
            if (n =? 0)%nat then 0%Z else v
        end
      else 0%Z
  | EmptyString => 0%Z
  end.

(** The longest prefix that is a StrDecimalLiteral without sign. *)
Definition parseUnsigned (neg : bool) (s : string) : number :=
  if String.prefix "Infinity" s then (if neg then neg_infinity else infinity)
  else
    let '(ip, ni, r1) := readDigits s 0 0 in
    match r1 with
    | String "." r2 =>
        let '(v, nf, r3) := readDigits r2 ip 0 in
        if (ni =? 0)%nat && (nf =? 0)%nat then nan
        else ofDecimal neg v (readExponent r3 - Z.of_nat nf)
    | _ =>
        if (ni =? 0)%nat then nan
        else ofDecimal neg ip (readExponent r1)
    end.

Definition parseFloat (s : string) : number :=
  match trimStart s with
  | String "-" r => parseUnsigned true r
  | String "+" r => parseUnsigned false r
  | r => parseUnsigned false r
  end.

(** [parseFloat(v)] for a field that may be absent: ToString(undefined) is
    not a number. *)
Definition parseFloatOpt (v : option string) : number :=
  match v with
  | Some s => parseFloat s
  | None => nan
  end.

End JS.

(** ** Values, exceptions and results *)

(** The JavaScript values a gateway name can be: absent, a string, or a
    built-in object reached through [Object.prototype] (named by its path). *)
Inductive value :=
  | VUndefined
  | VString (s : string)
  | VBuiltin (name : string).

Inductive exn :=
  | TypeError (message : string)
  | Error (message : string)
  | HttpsError (code message : string).

(** [error.message] *)
Definition exnMessage (e : exn) : string :=
  match e with
  | TypeError m | Error m | HttpsError _ m => m
  end.

Inductive result (A : Type) :=
  | Ok (a : A)
  | Throw (e : exn).
Arguments Ok {A} a.
Arguments Throw {A} e.

#[global] Instance result_ret : MRet result := fun A a => Ok a.
#[global] Instance result_bind : MBind result := fun A B f m =>
  match m with
  | Ok a => f a
  | Throw e => Throw e
  end.
#[global] Instance result_fmap : FMap result := fun A B f m =>
  match m with
  | Ok a => Ok (f a)
  | Throw e => Throw e
  end.

(** ToBoolean *)
Definition truthyValue (v : value) : bool :=
  match v with
  | VUndefined => false
  | VString s => negb (s =? "")
  | VBuiltin _ => true
  end.

(** ToPropertyKey: a function is keyed by its source text. *)
Definition propertyKey (v : value) : string :=
  match v with
  | VUndefined => "undefined"
  | VString s => s
  | VBuiltin name => "function " ++ name ++ "() { [native code] }"
  end.

(** The properties every object literal inherits from [Object.prototype]. *)
Definition objectPrototype (key : string) : option value :=
  if key =? "constructor" then Some (VBuiltin "Object")
  else if existsb (String.eqb key)
            ["hasOwnProperty"; "isPrototypeOf"; "propertyIsEnumerable";
             "toLocaleString"; "toString"; "valueOf";
             "__defineGetter__"; "__defineSetter__";
             "__lookupGetter__"; "__lookupSetter__"]
       then Some (VBuiltin key)
  else if key =? "__proto__" then Some (VBuiltin "Object.prototype")
  else None.

(** Own properties of an object literal, in insertion order. *)
Fixpoint ownProperty {A} (obj : list (string * A)) (key : string) : option A :=
  match obj with
  | [] => None
  | (k, v) :: rest => if k =? key then Some v else ownProperty rest key
  end.

(** [obj[key]] on an object literal of strings: an own property, else an
    inherited one, else undefined. *)
Definition getProperty (obj : list (string * string)) (key : string) : value :=
  match ownProperty obj key with
  | Some s => VString s
  | None =>
      match objectPrototype key with
      | Some v => v
      | None => VUndefined
      end
  end.

(** [obj[key] = v]: an existing key keeps its place. *)
Fixpoint setProperty {A} (obj : list (string * A)) (key : string) (v : A)
  : list (string * A) :=
  match obj with
  | [] => [(key, v)]
  | (k, w) :: rest =>
      if k =? key then (k, v) :: rest else (k, w) :: setProperty rest key v
  end.

(** ** Strings *)

Definition lowerChar (c : ascii) : ascii :=
  let n := nat_of_ascii c in
  if ((65 <=? n)%nat && (n <=? 90)%nat)
     || ((192 <=? n)%nat && (n <=? 222)%nat && negb (n =? 215)%nat)
  then ascii_of_nat (n + 32) else c.

Fixpoint toLowerCase (s : string) : string :=
  match s with
  | EmptyString => EmptyString
  | String c r => String (lowerChar c) (toLowerCase r)
  end.

Definition isLowerLetter (c : ascii) : bool :=
  let n := nat_of_ascii c in (97 <=? n)%nat && (n <=? 122)%nat.

(** [s.replace(/[^a-z]/g, '')] *)
Fixpoint stripNonLetters (s : string) : string :=
  match s with
  | EmptyString => EmptyString
  | String c r =>
      if isLowerLetter c then String c (stripNonLetters r)
      else stripNonLetters r
  end.

(** ** Orders ([shopify/orders.js]) *)

Module Orders.
Import JS.

(** A line item and an order as the Shopify Admin API returns them: money
    amounts are decimal strings, any field may be missing. *)
Record ApiLineItem := {
  variant_id : option N;
  product_id : option N;
  sku : option string;
  title : string;
  quantity : number;
  price : option string;
}.

Record Order := {
  id : N;
  total_price : option string;
  total_tax : option string;
  total_shipping : option string;   (* total_shipping_price_set?.shop_money?.amount *)
  total_discounts : option string;
  gateway : option string;
  payment_gateway_names : option (list string);
  line_items : option (list ApiLineItem);
}.

(** [order.line_items || []] *)
Definition lineItemsOf (order : Order) : list ApiLineItem :=
  match line_items order with
  | Some items => items
  | None => []
  end.

Record OrderMetrics := {
  orderCount : nat;
  totalRevenue : string;
  totalTax : string;
  totalShipping : string;
  totalDiscounts : string;
  itemsSold : number;
  averageOrderValue : string;
}.

(** The running sums of [calculateOrderMetrics]'s loop. *)
Record Sums := {
  sumRevenue : number;
  sumTax : number;
  sumShipping : number;
  sumDiscounts : number;
  sumItems : number;
}.

Definition countItems (items : list ApiLineItem) (itemsSold : number) : number :=
  fold_left (fun acc item => (acc + orZero (quantity item))%float) items itemsSold.

Definition metricsStep (acc : Sums) (order : Order) : Sums :=
  {| sumRevenue := (sumRevenue acc + orZero (parseFloatOpt (total_price order)))%float;
     sumTax := (sumTax acc + orZero (parseFloatOpt (total_tax order)))%float;
     sumShipping := (sumShipping acc + orZero (parseFloatOpt (total_shipping order)))%float;
     sumDiscounts := (sumDiscounts acc + orZero (parseFloatOpt (total_discounts order)))%float;
     sumItems := countItems (lineItemsOf order) (sumItems acc) |}.

Definition calculateOrderMetrics (orders : list Order) : OrderMetrics :=
  let t := fold_left metricsStep orders
             {| sumRevenue := 0; sumTax := 0; sumShipping := 0;
                sumDiscounts := 0; sumItems := 0 |} in
  {| orderCount := List.length orders;
     totalRevenue := toFixed 2 (sumRevenue t);
     totalTax := toFixed 2 (sumTax t);
     totalShipping := toFixed 2 (sumShipping t);
     totalDiscounts := toFixed 2 (sumDiscounts t);
     itemsSold := sumItems t;
     averageOrderValue :=
       if (0 <? List.length orders)%nat
       then toFixed 2 (sumRevenue t / ofNat (List.length orders))%float
       else "0.00" |}.

Record LineItem := {
  orderId : N;
  variantId : option N;
  productId : option N;
  itemSku : option string;
  itemTitle : string;
  itemQuantity : number;
  itemPrice : number;
  totalPrice : number;
}.

Definition extractItem (order : Order) (item : ApiLineItem) : LineItem :=
  {| orderId := id order;
     variantId := variant_id item;
     productId := product_id item;
     itemSku := sku item;
     itemTitle := title item;
     itemQuantity := quantity item;
     itemPrice := orZero (parseFloatOpt (price item));
     totalPrice :=
       (orZero (parseFloatOpt (price item))
        * (if truthy (quantity item) then quantity item else 1))%float |}.

Definition extractLineItems (orders : list Order) : list LineItem :=
  flat_map (fun order => List.map (extractItem order) (lineItemsOf order)) orders.

End Orders.

(** ** Gateway fees ([costs/gatewayFees.js], [config.js]) *)

Module GatewayFees.
Import JS Orders.

Record FeeModel := { percentage : number; fixed : number }.

(** [getConfig().gatewayFees] *)
Definition gatewayFees : list (string * FeeModel) :=
  [ ("shopify_payments", {| percentage := 0.029; fixed := 0.30 |});
    ("stripe", {| percentage := 0.029; fixed := 0.30 |});
    ("paypal", {| percentage := 0.0349; fixed := 0.49 |});
    ("mercadopago", {| percentage := 0.0499; fixed := 0.00 |}) ].

Definition defaultFees : FeeModel := {| percentage := 0.029; fixed := 0.30 |}.

Definition mappings : list (string * string) :=
  [ ("shopifypayments", "shopify_payments");
    ("shopify_payments", "shopify_payments");
    ("stripe", "stripe");
    ("paypal", "paypal");
    ("paypalexpress", "paypal");
    ("paypalcommerce", "paypal");
    ("mercadopago", "mercadopago");
    ("mercadopagobasic", "mercadopago") ].

Definition normalizeGatewayName (gateway : value) : result value :=
  if negb (truthyValue gateway) then Ok (VString "unknown")
  else
    match gateway with
    | VString g =>
        let lower := stripNonLetters (toLowerCase g) in
        let hit := getProperty mappings lower in
        Ok (if truthyValue hit then hit else VString "shopify_payments")
    | _ => Throw (TypeError "gateway.toLowerCase is not a function")
    end.

(** [config.gatewayFees[normalizedGateway] || { percentage: 0.029, fixed: 0.30 }].
    The keys [normalizeGatewayName] yields are canonical names, "unknown" or
    the text of a function, none of which names an inherited property. *)
Definition getGatewayFees (gateway : value) : result FeeModel :=
  normalizedGateway ← normalizeGatewayName gateway;
  mret (match ownProperty gatewayFees (propertyKey normalizedGateway) with
        | Some fees => fees
        | None => defaultFees
        end).

Definition calculateOrderFee (orderTotal : number) (gateway : value)
  : result number :=
  fees ← getGatewayFees gateway;
  let fee := (orderTotal * percentage fees + fixed fees)%float in
  mret (parseFloat (toFixed 2 fee)).

(** [order.gateway || order.payment_gateway_names?.[0] || 'shopify_payments'] *)
Definition orderGateway (order : Order) : value :=
  let first :=
    match gateway order with
    | Some g => VString g
    | None => VUndefined
    end in
  if truthyValue first then first
  else
    let second :=
      match payment_gateway_names order with
      | Some (name :: _) => VString name
      | _ => VUndefined
      end in
    if truthyValue second then second else VString "shopify_payments".

Record GatewayStats := { count : nat; orderTotal : number; fees : number }.

Definition Breakdown := list (string * GatewayStats).

(** One turn of [calculateTotalFees]'s loop.  A key of [breakdown] is a
    canonical name or the text of a function, never an inherited property. *)
Definition feesStep (acc : Breakdown * number) (order : Order)
  : result (Breakdown * number) :=
  let '(breakdown, totalFees) := acc in
  let gateway := orderGateway order in
  let total := orZero (parseFloatOpt (total_price order)) in
  fee ← calculateOrderFee total gateway;
  normalizedGateway ← normalizeGatewayName gateway;
  let key := propertyKey normalizedGateway in
  let entry :=
    match ownProperty breakdown key with
    | Some e => e
    | None => {| count := 0; orderTotal := 0; fees := 0 |}
    end in
  let entry :=
    {| count := S (count entry);
       orderTotal := (orderTotal entry + total)%float;
       fees := (fees entry + fee)%float |} in
  mret (setProperty breakdown key entry, (totalFees + fee)%float).

Fixpoint feesLoop (orders : list Order) (acc : Breakdown * number)
  : result (Breakdown * number) :=
  match orders with
  | [] => mret acc
  | order :: rest => acc' ← feesStep acc order; feesLoop rest acc'
  end.

Definition roundStats (e : GatewayStats) : GatewayStats :=
  {| count := count e;
     orderTotal := parseFloat (toFixed 2 (orderTotal e));
     fees := parseFloat (toFixed 2 (fees e)) |}.

Record TotalFees := { totalFees : number; breakdown : Breakdown }.

Definition calculateTotalFees (orders : list Order) : result TotalFees :=
  '(bd, total) ← feesLoop orders ([], 0%float);
  mret {| totalFees := parseFloat (toFixed 2 total);
          breakdown := List.map (fun '(g, e) => (g, roundStats e)) bd |}.

End GatewayFees.

(** ** Fixed costs ([costs/fixedCosts.js]) *)

Module FixedCosts.
Import JS.

Record FixedCost := {
  description : string;
  amount : number;
  frequency : string;
  active : bool;
}.

Record Totals := { daily : number; monthly : number; yearly : number }.

(** One turn of [calculateTotals]'s loop: the [continue] on an inactive
    entry, then the [switch], which has no default case. *)
Definition totalsStep (totals : Totals) (cost : FixedCost) : Totals :=
  if negb (active cost) then totals
  else
    let amount := orZero (amount cost) in
    if frequency cost =? "daily" then
      {| daily := (daily totals + amount)%float;
         monthly := (monthly totals + amount * 30)%float;
         yearly := (yearly totals + amount * 365)%float |}
    else if frequency cost =? "weekly" then
      {| daily := (daily totals + amount / 7)%float;
         monthly := (monthly totals + amount * 4.33)%float;
         yearly := (yearly totals + amount * 52)%float |}
    else if frequency cost =? "monthly" then
      {| daily := (daily totals + amount / 30)%float;
         monthly := (monthly totals + amount)%float;
         yearly := (yearly totals + amount * 12)%float |}
    else if frequency cost =? "yearly" then
      {| daily := (daily totals + amount / 365)%float;
         monthly := (monthly totals + amount / 12)%float;
         yearly := (yearly totals + amount)%float |}
    else totals.

Definition calculateTotals (costs : list FixedCost) : Totals :=
  let totals := fold_left totalsStep costs
                  {| daily := 0; monthly := 0; yearly := 0 |} in
  {| daily := parseFloat (toFixed 2 (daily totals));
     monthly := parseFloat (toFixed 2 (monthly totals));
     yearly := parseFloat (toFixed 2 (yearly totals)) |}.

End FixedCosts.

(** ** Validators ([utils/validators.js]) *)

Module Validators.
Import JS.

Definition twoDigits (a b : ascii) : nat :=
  (nat_of_ascii a - 48) * 10 + (nat_of_ascii b - 48).

(** [/^\d{4}-\d{2}-\d{2}$/] and a [Date] that parses: the engine takes a
    month from 1 to 12 and a day from 1 to 31. *)
Definition isValidDate (date : string) : bool :=
  match list_ascii_of_string date with
  | [y1; y2; y3; y4; "-"%char; m1; m2; "-"%char; d1; d2] =>
      forallb isDigit [y1; y2; y3; y4; m1; m2; d1; d2]
      && (1 <=? twoDigits m1 m2)%nat && (twoDigits m1 m2 <=? 12)%nat
      && (1 <=? twoDigits d1 d2)%nat && (twoDigits d1 d2 <=? 31)%nat
  | _ => false
  end.

(** [isValidDate] on a request field that may be absent. *)
Definition isValidDateOpt (date : option string) : bool :=
  match date with
  | Some d => isValidDate d
  | None => false
  end.

Definition dropProtocol (s : string) : string :=
  if String.prefix "http://" s then substring 7 (String.length s - 7) s
  else if String.prefix "https://" s then substring 8 (String.length s - 8) s
  else s.

Fixpoint dropTrailingSlash (s : string) : string :=
  match s with
  | EmptyString => EmptyString
  | String c EmptyString => if (c =? "/")%char then EmptyString else s
  | String c r => String c (dropTrailingSlash r)
  end.

Definition trim (s : string) : string :=
  let l := list_ascii_of_string (trimStart s) in
  string_of_list_ascii
    (rev (list_ascii_of_string
            (trimStart (string_of_list_ascii (rev l))))).

Definition sanitizeShopDomain (shop : string) : string :=
  if shop =? "" then ""
  else trim (dropTrailingSlash (dropProtocol (toLowerCase shop))).

End Validators.

(** ** Alerts ([generateAlerts] of [profit/calculator.js]) *)

Module Alerts.
Import JS.

Record Alert := { type : string; message : string; action : string }.

Record Metrics := {
  cogsMissingItems : nat;
  cogsMatchedItems : nat;
  lineItems : nat;
  profitMargin : number;
  adSpend : number;
  revenue : number;
}.

Definition coverageAlert (metrics : Metrics) : list Alert :=
  if (0 <? lineItems metrics)%nat then
    let coverage :=
      (ofNat (cogsMatchedItems metrics) / ofNat (lineItems metrics) * 100)%float in
    if lt coverage 50 then
      [ {| type := "warning";
           message := "Only " ++ toFixed 0 coverage
                      ++ "% of products have COGS configured";
           action := "Add product costs for accurate profit calculation" |} ]
    else []
  else [].

Definition losingMoney : Alert :=
  {| type := "error";
     message := "You are losing money today";
     action := "Review your costs and pricing strategy" |}.

Definition negativeProfitAlert (metrics : Metrics) : list Alert :=
  if lt (profitMargin metrics) 0 then [losingMoney] else [].

Definition adSpendAlert (metrics : Metrics) : list Alert :=
  if gt (revenue metrics) 0 then
    let adRatio := (adSpend metrics / revenue metrics * 100)%float in
    if gt adRatio 30 then
      [ {| type := "warning";
           message := "Ad spend is " ++ toFixed 0 adRatio ++ "% of revenue";
           action := "Consider optimizing your ad campaigns" |} ]
    else []
  else [].

Definition lowMarginAlert (metrics : Metrics) : list Alert :=
  if gt (profitMargin metrics) 0 && lt (profitMargin metrics) 10 then
    [ {| type := "info";
         message := "Profit margin is below 10%";
         action := "Consider increasing prices or reducing costs" |} ]
  else [].

Definition generateAlerts (metrics : Metrics) : list Alert :=
  (coverageAlert metrics ++ negativeProfitAlert metrics
   ++ adSpendAlert metrics ++ lowMarginAlert metrics)%list.

End Alerts.

(** ** The documents of the store *)

Module Store.
Import JS.

Record ProfitReport := {
  date : string;
  currency : string;
  revenue : string;
  orderCount : nat;
  itemsSold : number;
  averageOrderValue : string;
  cogs : string;
  cogsMatchRate : string;
  adSpend : string;
  adSpendByPlatform : list (string * number);
  fees : string;
  feeBreakdown : GatewayFees.Breakdown;
  fixedCosts : string;
  grossProfit : string;
  grossMargin : string;
  netProfit : string;
  profitMargin : string;
  isProfitable : bool;
  alerts : list Alerts.Alert;
}.

(** A document of [dailyMetrics/{shop}/days]: the report and the server
    time of the write. *)
Record DayDoc := { report : ProfitReport; calculatedAt : N }.

Record ShopDoc := { accessToken : string; shopCurrency : option string }.
Record CostDoc := { docCogs : number }.
Record AdSpendDoc := { adDate : string; platform : string; spend : number }.

(** Collections are keyed by shop, then by document id; a list holds the
    documents of a collection in the order a query returns them. *)
Record Firestore := {
  shops : gmap string ShopDoc;
  productCosts : gmap string (gmap string CostDoc);
  adSpendDocs : gmap string (list AdSpendDoc);
  fixedCostDocs : gmap string (list FixedCosts.FixedCost);
  dailyMetrics : gmap string (gmap string DayDoc);
}.

Definition setDailyMetrics (db : Firestore) (m : gmap string (gmap string DayDoc))
  : Firestore :=
  {| shops := shops db; productCosts := productCosts db;
     adSpendDocs := adSpendDocs db; fixedCostDocs := fixedCostDocs db;
     dailyMetrics := m |}.

(** The requests the functions send to the store. *)
Inductive DbOp :=
  | GetShop (shop : string)
  | QueryProductCosts (shop : string) (ids : list string)
  | QueryAdSpend (shop date : string)
  | QueryFixedCosts (shop : string)
  | SetDay (shop date : string)
  | QueryDays (shop startDate endDate : string).

(** What a function runs against: the store, the clock, and the outside
    services, each either answering or failing with a message. *)
Record World := {
  db : Firestore;
  today : string;                         (* new Date().toISOString().split('T')[0] *)
  clock : N;                              (* FieldValue.serverTimestamp() *)
  decrypt : string -> option string;      (* utils/encryption; None: it throws *)
  shopify : string -> string -> string -> string + list Orders.Order;
                                          (* the paged GET of orders.json for
                                             (shop, token, date), or the
                                             message of the request error *)
  dbFault : DbOp -> option string;        (* the requests the store rejects *)
  log : list DbOp;                        (* the requests sent so far *)
}.

Definition setLog (w : World) (l : list DbOp) : World :=
  {| db := db w; today := today w; clock := clock w; decrypt := decrypt w;
     shopify := shopify w; dbFault := dbFault w; log := l |}.

Definition setDb (w : World) (d : Firestore) : World :=
  {| db := d; today := today w; clock := clock w; decrypt := decrypt w;
     shopify := shopify w; dbFault := dbFault w; log := log w |}.

(** *** Computations over the world that may throw *)

Definition M (A : Type) : Type := World -> result A * World.

#[global] Instance M_ret : MRet M := fun A a w => (Ok a, w).
#[global] Instance M_bind : MBind M := fun A B f m w =>
  match m w with
  | (Ok a, w') => f a w'
  | (Throw e, w') => (Throw e, w')
  end.

Definition throw {A} (e : exn) : M A := fun w => (Throw e, w).

Definition liftR {A} (r : result A) : M A := fun w => (r, w).

Definition tryCatch {A} (body : M A) (handler : exn -> M A) : M A := fun w =>
  match body w with
  | (Ok a, w') => (Ok a, w')
  | (Throw e, w') => handler e w'
  end.

Definition gets {A} (f : World -> A) : M A := fun w => (Ok (f w), w).

(** Sends a request to the store: it is logged, and throws if rejected. *)
Definition request (op : DbOp) : M unit := fun w =>
  let w' := setLog w (log w ++ [op])%list in
  match dbFault w op with
  | Some msg => (Throw (Error msg), w')
  | None => (Ok tt, w')
  end.

Definition modifyDb (f : Firestore -> Firestore) : M unit := fun w =>
  (Ok tt, setDb w (f (db w))).

End Store.

(** ** The collaborators of the calculator *)

Module Collaborators.
Import JS Store.

(** [verifyShop] of [shopify/auth.js].  The result spreads the shop document
    after the decrypted token, so the document's own fields win. *)
Record ShopData := { shop : string; shopToken : string; shopDataCurrency : option string }.

Definition verifyShop (shopDomain : string) : M (option ShopData) :=
  let sanitizedShop := Validators.sanitizeShopDomain shopDomain in
  _ ← request (GetShop sanitizedShop);
  shopDoc ← gets (fun w => shops (db w) !! sanitizedShop);
  match shopDoc with
  | None => mret None
  | Some shopData =>
      decrypted ← gets (fun w => decrypt w (accessToken shopData));
      match decrypted with
      | None => mret None
      | Some _ =>
          mret (Some {| shop := sanitizedShop;
                        shopToken := accessToken shopData;
                        shopDataCurrency := shopCurrency shopData |})
      end
  end.

(** [fetchOrdersForDate] of [shopify/orders.js]: every request error is
    rethrown as "Failed to fetch orders: ...". *)
Definition fetchOrdersForDate (shopDomain accessToken date : string)
  : M (list Orders.Order) :=
  answer ← gets (fun w => shopify w shopDomain accessToken date);
  match answer with
  | inr allOrders => mret allOrders
  | inl msg => throw (Error ("Failed to fetch orders: " ++ msg))
  end.

(** [variantIds.slice(i, i + 10)] for [i = 0, 10, 20, ...] *)
Fixpoint slices {A} (fuel : nat) (l : list A) : list (list A) :=
  match fuel, l with
  | S fuel, _ :: _ => firstn 10 l :: slices fuel (skipn 10 l)
  | _, _ => []
  end.

Definition batchesOf {A} (variantIds : list A) : list (list A) :=
  slices (List.length variantIds) variantIds.

(** [String(id)] for an integer id below 2^53. *)
Definition idString (n : N) : string := digitsOfZ (Z.of_N n).

Definition CogsMap := gmap string number.

(** One batch of [getCogsMap]: the documents whose id is in the batch, and
    [cogsMap[doc.id] = doc.data().cogs || 0] for each. *)
Definition cogsBatch (shopDomain : string) (cogsMap : CogsMap) (batch : list N)
  : M CogsMap :=
  let ids := List.map idString batch in
  _ ← request (QueryProductCosts shopDomain ids);
  products ← gets (fun w => default ∅ (productCosts (db w) !! shopDomain));
  let docs := omap (fun i => (fun d => (i, d)) <$> (products : gmap string CostDoc) !! i) ids in
  mret (fold_left (fun (m : CogsMap) '(i, d) => <[i := orZero (docCogs d)]> m)
          docs cogsMap).

Fixpoint cogsBatches (shopDomain : string) (batches : list (list N))
    (cogsMap : CogsMap) : M CogsMap :=
  match batches with
  | [] => mret cogsMap
  | batch :: rest =>
      cogsMap' ← cogsBatch shopDomain cogsMap batch;
      cogsBatches shopDomain rest cogsMap'
  end.

(** [getCogsMap] of [cogs/manual.js] *)
Definition getCogsMap (shopDomain : string) (variantIds : list N) : M CogsMap :=
  cogsBatches shopDomain (batchesOf variantIds) ∅.

(** [getDailyFixedCost] of [costs/fixedCosts.js] *)
Definition getDailyFixedCost (shopDomain : string) : M number :=
  _ ← request (QueryFixedCosts shopDomain);
  docs ← gets (fun w => default [] (fixedCostDocs (db w) !! shopDomain));
  let costs := List.filter FixedCosts.active docs in
  mret (FixedCosts.daily (FixedCosts.calculateTotals costs)).

End Collaborators.

(** ** The calculator ([profit/calculator.js]) *)

Module Calculator.
Import JS Store Collaborators.

Record Context := { auth : option string }.   (* context.auth.token.shop *)
Record ProfitRequest := { reqDate : option string }.
Record RangeRequest := { reqStart : option string; reqEnd : option string }.

(** [[...new Set(ids.filter(Boolean))]]: the truthy ids, first occurrences. *)
Fixpoint uniqueTruthy (seen : list N) (ids : list (option N)) : list N :=
  match ids with
  | [] => []
  | Some n :: rest =>
      if (n =? 0)%N || existsb (N.eqb n) seen then uniqueTruthy seen rest
      else n :: uniqueTruthy (n :: seen) rest
  | None :: rest => uniqueTruthy seen rest
  end.

(** [item.variantId?.toString()] as a property key *)
Definition variantKey (variantId : option N) : string :=
  match variantId with
  | Some n => idString n
  | None => "undefined"
  end.

(** [cogsMap[item.variantId?.toString()] || 0] *)
Definition lookupCogs (cogsMap : CogsMap) (item : Orders.LineItem) : number :=
  match cogsMap !! variantKey (Orders.variantId item) with
  | Some c => orZero c
  | None => 0%float
  end.

Record CogsTotals := {
  totalCogs : number;
  cogsMatchedItems : nat;
  cogsMissingItems : nat;
}.

Definition cogsStep (cogsMap : CogsMap) (acc : CogsTotals) (item : Orders.LineItem)
  : CogsTotals :=
  let itemCogs := lookupCogs cogsMap item in
  if gt itemCogs 0 then
    {| totalCogs := (totalCogs acc + itemCogs * Orders.itemQuantity item)%float;
       cogsMatchedItems := S (cogsMatchedItems acc);
       cogsMissingItems := cogsMissingItems acc |}
  else
    {| totalCogs := totalCogs acc;
       cogsMatchedItems := cogsMatchedItems acc;
       cogsMissingItems := S (cogsMissingItems acc) |}.

Definition matchCogs (cogsMap : CogsMap) (lineItems : list Orders.LineItem)
  : CogsTotals :=
  fold_left (cogsStep cogsMap) lineItems
    {| totalCogs := 0; cogsMatchedItems := 0; cogsMissingItems := 0 |}.

(** [cogsMatchRate] of the report *)
Definition matchRate (matched total : nat) : string :=
  if (0 <? total)%nat
  then toFixed 1 (ofNat matched / ofNat total * 100)%float
  else "100".

Definition adSpendStep (acc : list (string * number) * number) (doc : AdSpendDoc)
  : list (string * number) * number :=
  (setProperty (fst acc) (platform doc) (spend doc),
   (snd acc + orZero (spend doc))%float).

Definition sumAdSpend (docs : list AdSpendDoc) : list (string * number) * number :=
  fold_left adSpendStep docs ([], 0%float).

(** Steps 6 and 7: the report from the five figures. *)
Definition buildReport (targetDate : string) (shopData : ShopData)
    (orders : list Orders.Order) (orderMetrics : Orders.OrderMetrics)
    (lineItems : list Orders.LineItem) (c : CogsTotals)
    (adSpendByPlatform : list (string * number)) (totalAdSpend : number)
    (fees : GatewayFees.TotalFees) (dailyFixedCosts : number) : ProfitReport :=
  let totalFees := GatewayFees.totalFees fees in
  let revenue := parseFloat (Orders.totalRevenue orderMetrics) in
  let grossProfit := (revenue - totalCogs c)%float in
  let netProfit := (grossProfit - totalAdSpend - totalFees - dailyFixedCosts)%float in
  let profitMargin := if gt revenue 0 then (netProfit / revenue * 100)%float else 0%float in
  let grossMargin := if gt revenue 0 then (grossProfit / revenue * 100)%float else 0%float in
  {| date := targetDate;
     currency := match shopDataCurrency shopData with
                 | Some cur => if cur =? "" then "USD" else cur
                 | None => "USD"
                 end;
     revenue := toFixed 2 revenue;
     orderCount := List.length orders;
     itemsSold := Orders.itemsSold orderMetrics;
     averageOrderValue := Orders.averageOrderValue orderMetrics;
     cogs := toFixed 2 (totalCogs c);
     cogsMatchRate := matchRate (cogsMatchedItems c) (List.length lineItems);
     adSpend := toFixed 2 totalAdSpend;
     Store.adSpendByPlatform := adSpendByPlatform;
     fees := toFixed 2 totalFees;
     feeBreakdown := GatewayFees.breakdown fees;
     fixedCosts := toFixed 2 dailyFixedCosts;
     grossProfit := toFixed 2 grossProfit;
     grossMargin := toFixed 1 grossMargin;
     netProfit := toFixed 2 netProfit;
     profitMargin := toFixed 1 profitMargin;
     isProfitable := ge netProfit 0;
     alerts := Alerts.generateAlerts
                 {| Alerts.cogsMissingItems := cogsMissingItems c;
                    Alerts.cogsMatchedItems := cogsMatchedItems c;
                    Alerts.lineItems := List.length lineItems;
                    Alerts.profitMargin := profitMargin;
                    Alerts.adSpend := totalAdSpend;
                    Alerts.revenue := revenue |} |}.

(** [set(data, { merge: true })]: the fields given replace the stored ones;
    a stored map keeps the keys the new one lacks, unless the new one is
    empty, which replaces it. *)
Definition mergeMap {A} (old new : list (string * A)) : list (string * A) :=
  match new with
  | [] => []
  | _ :: _ => fold_left (fun acc '(k, v) => setProperty acc k v) new old
  end.

Definition mergeReport (old : option DayDoc) (r : ProfitReport) : ProfitReport :=
  match old with
  | None => r
  | Some d =>
      {| date := date r; currency := currency r; revenue := revenue r;
         orderCount := orderCount r; itemsSold := itemsSold r;
         averageOrderValue := averageOrderValue r; cogs := cogs r;
         cogsMatchRate := cogsMatchRate r; adSpend := adSpend r;
         adSpendByPlatform :=
           mergeMap (Store.adSpendByPlatform (report d)) (Store.adSpendByPlatform r);
         fees := fees r;
         feeBreakdown := mergeMap (feeBreakdown (report d)) (feeBreakdown r);
         fixedCosts := fixedCosts r; grossProfit := grossProfit r;
         grossMargin := grossMargin r; netProfit := netProfit r;
         profitMargin := profitMargin r; isProfitable := isProfitable r;
         alerts := alerts r |}
  end.

Definition daysOf (fs : Firestore) (shopDomain : string) : gmap string DayDoc :=
  default ∅ (dailyMetrics fs !! shopDomain).

Definition writeDay (shopDomain targetDate : string) (r : ProfitReport) (now : N)
    (fs : Firestore) : Firestore :=
  let days := daysOf fs shopDomain in
  let doc := {| report := mergeReport (days !! targetDate) r; calculatedAt := now |} in
  setDailyMetrics fs (<[shopDomain := <[targetDate := doc]> days]> (dailyMetrics fs)).

(** Step 8 *)
Definition cacheResult (shopDomain targetDate : string) (r : ProfitReport) : M unit :=
  _ ← request (SetDay shopDomain targetDate);
  now ← gets clock;
  modifyDb (writeDay shopDomain targetDate r now).

Definition queryAdSpend (shopDomain targetDate : string) : M (list AdSpendDoc) :=
  _ ← request (QueryAdSpend shopDomain targetDate);
  docs ← gets (fun w => default [] (adSpendDocs (db w) !! shopDomain));
  mret (List.filter (fun d => adDate d =? targetDate) docs).

Definition calculateProfit (data : ProfitRequest) (context : Context)
  : M ProfitReport :=
  match auth context with
  | None => throw (HttpsError "unauthenticated" "Must be authenticated")
  | Some shopDomain =>
      now ← gets today;
      let targetDate :=
        match reqDate data with
        | Some d => if d =? "" then now else d
        | None => now
        end in
      if negb (Validators.isValidDate targetDate) then
        throw (HttpsError "invalid-argument" "Invalid date format. Use YYYY-MM-DD")
      else
        tryCatch
          (shopData ← verifyShop shopDomain;
           match shopData with
           | None =>
               throw (HttpsError "not-found" "Shop not found or not authenticated")
           | Some shopData =>
               (* 1. Fetch orders for the date *)
               orders ← fetchOrdersForDate shopDomain (shopToken shopData) targetDate;
               let orderMetrics := Orders.calculateOrderMetrics orders in
               (* 2. Calculate COGS *)
               let lineItems := Orders.extractLineItems orders in
               let variantIds := uniqueTruthy [] (List.map Orders.variantId lineItems) in
               cogsMap ← getCogsMap shopDomain variantIds;
               let c := matchCogs cogsMap lineItems in
               (* 3. Get ad spend *)
               adSpendSnapshot ← queryAdSpend shopDomain targetDate;
               let '(adSpendByPlatform, totalAdSpend) := sumAdSpend adSpendSnapshot in
               (* 4. Calculate gateway fees *)
               fees ← liftR (GatewayFees.calculateTotalFees orders);
               (* 5. Get daily fixed costs *)
               dailyFixedCosts ← getDailyFixedCost shopDomain;
               (* 6, 7. Calculate profit, prepare result *)
               let result :=
                 buildReport targetDate shopData orders orderMetrics lineItems c
                   adSpendByPlatform totalAdSpend fees dailyFixedCosts in
               (* 8. Cache the result in dailyMetrics *)
               _ ← cacheResult shopDomain targetDate result;
               mret result
           end)
          (fun error =>
             throw (HttpsError "internal"
                      ("Calculation failed: " ++ exnMessage error)))
  end.

(** *** The range roll-up *)

Record Running := {
  accRevenue : number;
  accCogs : number;
  accAdSpend : number;
  accFees : number;
  accFixedCosts : number;
  accNetProfit : number;
  accOrderCount : number;
}.

Definition rangeStep (totals : Running) (day : DayDoc) : Running :=
  let r := report day in
  {| accRevenue := (accRevenue totals + orZero (parseFloat (revenue r)))%float;
     accCogs := (accCogs totals + orZero (parseFloat (cogs r)))%float;
     accAdSpend := (accAdSpend totals + orZero (parseFloat (adSpend r)))%float;
     accFees := (accFees totals + orZero (parseFloat (fees r)))%float;
     accFixedCosts := (accFixedCosts totals + orZero (parseFloat (fixedCosts r)))%float;
     accNetProfit := (accNetProfit totals + orZero (parseFloat (netProfit r)))%float;
     accOrderCount := (accOrderCount totals + orZero (ofNat (orderCount r)))%float |}.

(** The [totals] of the answer, under the names the source gives them. *)
Module RangeTotals.
Record t := {
  revenue : string;
  cogs : string;
  adSpend : string;
  fees : string;
  fixedCosts : string;
  netProfit : string;
  profitMargin : string;
  orderCount : number;
  isProfitable : bool;
}.
End RangeTotals.

Record RangeSummary := {
  startDate : string;
  endDate : string;
  daysCount : nat;
  days : list DayDoc;
  totals : RangeTotals.t;
}.

(** The order of [orderBy('date', 'asc')]: by date, then by document id. *)
Definition dayLe (a b : string * DayDoc) : bool :=
  match String.compare (date (report (snd a))) (date (report (snd b))) with
  | Lt => true
  | Gt => false
  | Eq => String.leb (fst a) (fst b)
  end.

Fixpoint insertDay (x : string * DayDoc) (l : list (string * DayDoc))
  : list (string * DayDoc) :=
  match l with
  | [] => [x]
  | y :: rest => if dayLe x y then x :: l else y :: insertDay x rest
  end.

Definition inRange (startDate endDate : string) (d : string * DayDoc) : bool :=
  String.leb startDate (date (report (snd d)))
  && String.leb (date (report (snd d))) endDate.

(** [where('date', '>=', startDate).where('date', '<=', endDate).orderBy('date', 'asc')] *)
Definition queryDays (shopDomain startDate endDate : string) : M (list DayDoc) :=
  _ ← request (QueryDays shopDomain startDate endDate);
  docs ← gets (fun w => map_to_list (daysOf (db w) shopDomain));
  mret (List.map snd
          (fold_right insertDay []
             (List.filter (inRange startDate endDate) docs))).

Definition aggregate (startDate endDate : string) (days : list DayDoc)
  : RangeSummary :=
  let totals := fold_left rangeStep days
      {| accRevenue := 0; accCogs := 0; accAdSpend := 0; accFees := 0;
         accFixedCosts := 0; accNetProfit := 0; accOrderCount := 0 |} in
  let profitMargin :=
    if gt (accRevenue totals) 0
    then (accNetProfit totals / accRevenue totals * 100)%float
    else 0%float in
  {| startDate := startDate;
     endDate := endDate;
     daysCount := List.length days;
     days := days;
     totals :=
       {| RangeTotals.revenue := toFixed 2 (accRevenue totals);
          RangeTotals.cogs := toFixed 2 (accCogs totals);
          RangeTotals.adSpend := toFixed 2 (accAdSpend totals);
          RangeTotals.fees := toFixed 2 (accFees totals);
          RangeTotals.fixedCosts := toFixed 2 (accFixedCosts totals);
          RangeTotals.netProfit := toFixed 2 (accNetProfit totals);
          RangeTotals.profitMargin := toFixed 1 profitMargin;
          RangeTotals.orderCount := accOrderCount totals;
          RangeTotals.isProfitable := ge (accNetProfit totals) 0 |} |}.

Definition calculateProfitRange (data : RangeRequest) (context : Context)
  : M RangeSummary :=
  match auth context with
  | None => throw (HttpsError "unauthenticated" "Must be authenticated")
  | Some shopDomain =>
      if negb (Validators.isValidDateOpt (reqStart data))
         || negb (Validators.isValidDateOpt (reqEnd data))
      then throw (HttpsError "invalid-argument" "Invalid date format")
      else
        let startDate := default "" (reqStart data) in
        let endDate := default "" (reqEnd data) in
        tryCatch
          (days ← queryDays shopDomain startDate endDate;
           mret (aggregate startDate endDate days))
          (fun error => throw (HttpsError "internal" (exnMessage error)))
  end.

End Calculator.

(** ** What the specification says, in its own words

    Each definition here follows a sentence of the specification; the
    theorems below compare it with the function of the source. *)

Module Spec.
Import JS Collaborators Calculator.

(** The COGS lookup of the specification: a cost for some of the variant
    ids. *)
Definition Lookup := gmap N number.

(** The lookup as the object the calculator reads, which holds one property
    per variant id, named by the document id of its cost: the id in decimal
    digits. *)
Definition lookupObject (lookup : Lookup) : CogsMap := kmap idString lookup.

(** The cost the lookup yields for the variant id of the item; none for an
    item that has no variant id. *)
Definition costOf (lookup : Lookup) (item : Orders.LineItem) : option number :=
  match Orders.variantId item with
  | Some id => lookup !! id
  | None => None
  end.

(** A cost is found for the item and is greater than zero. *)
Definition hasCost (lookup : Lookup) (item : Orders.LineItem) : bool :=
  match costOf lookup item with
  | Some cost => PrimFloat.ltb 0 cost
  | None => false
  end.

(** The unit cost the lookup holds for the item. *)
Definition unitCost (lookup : Lookup) (item : Orders.LineItem) : number :=
  default 0%float (costOf lookup item).

(** The matched total: [cost * quantity] summed over the matched items. *)
Definition matchedTotal (lookup : Lookup) (lineItems : list Orders.LineItem)
  : number :=
  fold_left
    (fun acc item => (acc + unitCost lookup item * Orders.itemQuantity item)%float)
    (List.filter (hasCost lookup) lineItems) 0%float.

(** The conversion table of the cost normalizer: what one entry of the
    given frequency adds to the daily, monthly and yearly totals; nothing
    for a frequency outside the table. *)
Definition conversion (frequency : string) (amount : number)
  : option (number * number * number) :=
  if frequency =? "daily" then Some (amount, amount * 30, amount * 365)%float
  else if frequency =? "weekly" then Some (amount / 7, amount * 4.33, amount * 52)%float
  else if frequency =? "monthly" then Some (amount / 30, amount, amount * 12)%float
  else if frequency =? "yearly" then Some (amount / 365, amount / 12, amount)%float
  else None.

(** The entries that count: active, with a frequency of the table. *)
Definition contributions (costs : list FixedCosts.FixedCost)
  : list (number * number * number) :=
  omap (fun cost =>
          if FixedCosts.active cost
          then conversion (FixedCosts.frequency cost) (orZero (FixedCosts.amount cost))
          else None)
       costs.

(** Rounding to two fraction digits. *)
Definition round2 (x : number) : number := parseFloat (toFixed 2 x).

(** Sum across entries, then round each total. *)
Definition normalizeCosts (costs : list FixedCosts.FixedCost) : FixedCosts.Totals :=
  let '(d, m, y) :=
    fold_left (fun '(d, m, y) '(a, b, c) => (d + a, m + b, y + c)%float)
      (contributions costs) (0, 0, 0)%float in
  {| FixedCosts.daily := round2 d;
     FixedCosts.monthly := round2 m;
     FixedCosts.yearly := round2 y |}.

(** The canonical gateways and the fee model of each. *)
Inductive Canonical := ShopifyPayments | Stripe | Paypal | MercadoPago.

Definition feeModel (g : Canonical) : GatewayFees.FeeModel :=
  match g with
  | ShopifyPayments | Stripe =>
      {| GatewayFees.percentage := 0.029; GatewayFees.fixed := 0.30 |}
  | Paypal => {| GatewayFees.percentage := 0.0349; GatewayFees.fixed := 0.49 |}
  | MercadoPago => {| GatewayFees.percentage := 0.0499; GatewayFees.fixed := 0.00 |}
  end.

Definition canonicalName (g : Canonical) : string :=
  match g with
  | ShopifyPayments => "shopify_payments"
  | Stripe => "stripe"
  | Paypal => "paypal"
  | MercadoPago => "mercadopago"
  end.

(** The alias table, read on the lower-cased letters of a name; any other
    name falls to the platform's own processor. *)
Definition canonicalOf (name : string) : Canonical :=
  let letters := stripNonLetters (toLowerCase name) in
  if letters =? "stripe" then Stripe
  else if existsb (String.eqb letters) ["paypal"; "paypalexpress"; "paypalcommerce"]
  then Paypal
  else if existsb (String.eqb letters) ["mercadopago"; "mercadopagobasic"]
  then MercadoPago
  else ShopifyPayments.

(** A gateway name as a value: a string, or absent. *)
Definition nameValue (name : option string) : value :=
  match name with
  | Some s => VString s
  | None => VUndefined
  end.

(** The lower-cased letters of the name are a key of the alias table. *)
Definition isKnownAlias (name : string) : bool :=
  match ownProperty GatewayFees.mappings (stripNonLetters (toLowerCase name)) with
  | Some _ => true
  | None => false
  end.

(** The inputs of a daily computation: everything of the world but the
    stored reports, the clock and the log of requests. *)
Definition sameInputs (w w' : Store.World) : Prop :=
  Store.shops (Store.db w) = Store.shops (Store.db w')
  /\ Store.productCosts (Store.db w) = Store.productCosts (Store.db w')
  /\ Store.adSpendDocs (Store.db w) = Store.adSpendDocs (Store.db w')
  /\ Store.fixedCostDocs (Store.db w) = Store.fixedCostDocs (Store.db w')
  /\ Store.today w = Store.today w'
  /\ Store.decrypt w = Store.decrypt w'
  /\ Store.shopify w = Store.shopify w'
  /\ Store.dbFault w = Store.dbFault w'.

(** A computation whose result is a function of the inputs alone, and
    which hands the same inputs on. *)
Definition respects {A} (m : Store.M A) : Prop :=
  forall w w', sameInputs w w' ->
    fst (m w) = fst (m w') /\ sameInputs (snd (m w)) (snd (m w')).

(** A computation that leaves the inputs as they are. *)
Definition keepsInputs {A} (m : Store.M A) : Prop :=
  forall w, sameInputs w (snd (m w)).

(** A computation that does not write to the store. *)
Definition readOnly {A} (m : Store.M A) : Prop :=
  forall w, Store.db (snd (m w)) = Store.db w.

(** A computation that leaves the store as it is whenever it throws. *)
Definition writesOnSuccess {A} (m : Store.M A) : Prop :=
  forall w e, fst (m w) = Throw e -> Store.db (snd (m w)) = Store.db w.

(** The date a daily request is about: [date || today]. *)
Definition targetDateOf (data : Calculator.ProfitRequest) (w : Store.World) : string :=
  match Calculator.reqDate data with
  | Some d => if d =? "" then Store.today w else d
  | None => Store.today w
  end.

End Spec.

(** ** A shop to run the functions on *)

Module Example.
Import JS Store Calculator.

Definition shopName : string := "lens-demo.myshopify.com".

Definition mug : Orders.ApiLineItem :=
  {| Orders.variant_id := Some 41001%N; Orders.product_id := Some 7001%N;
     Orders.sku := Some "MUG-01"; Orders.title := "Mug";
     Orders.quantity := 2; Orders.price := Some "30.00" |}.

Definition poster : Orders.ApiLineItem :=
  {| Orders.variant_id := Some 41002%N; Orders.product_id := Some 7002%N;
     Orders.sku := None; Orders.title := "Poster";
     Orders.quantity := 1; Orders.price := Some "40.00" |}.

(** An item that has no variant. *)
Definition giftWrap : Orders.ApiLineItem :=
  {| Orders.variant_id := None; Orders.product_id := None;
     Orders.sku := None; Orders.title := "Gift wrap";
     Orders.quantity := 1; Orders.price := Some "5.00" |}.

Definition order1 : Orders.Order :=
  {| Orders.id := 9001; Orders.total_price := Some "100.00";
     Orders.total_tax := Some "8.00"; Orders.total_shipping := Some "5.00";
     Orders.total_discounts := None; Orders.gateway := Some "stripe";
     Orders.payment_gateway_names := Some ["stripe"];
     Orders.line_items := Some [mug; poster] |}.

Definition rent : FixedCosts.FixedCost :=
  {| FixedCosts.description := "Rent"; FixedCosts.amount := 300;
     FixedCosts.frequency := "monthly"; FixedCosts.active := true |}.

Definition store : Firestore :=
  {| shops := {[ shopName := {| accessToken := "3f9a"; shopCurrency := Some "BRL" |} ]};
     productCosts := {[ shopName := {[ "41001" := {| docCogs := 10 |} ]} ]};
     adSpendDocs :=
       {[ shopName := [ {| adDate := "2024-03-01"; platform := "facebook";
                           spend := 12.5 |} ] ]};
     fixedCostDocs := {[ shopName := [rent] ]};
     dailyMetrics := ∅ |}.

(** One paid order on 1 March 2024, none on any other day. *)
Definition world : World :=
  {| db := store;
     today := "2024-03-02";
     clock := 1709337600;
     decrypt := fun _ => Some "shpat";
     shopify := fun _ _ d => if d =? "2024-03-01" then inr [order1] else inr [];
     dbFault := fun _ => None;
     log := [] |}.

(** The same shop later on: a report of 1 March is stored, the clock has
    moved and requests have been logged. *)
Definition worldLater : World :=
  {| db := setDailyMetrics store
             {[ shopName :=
                  {[ "2024-03-01" :=
                       {| report :=
                            {| date := "2024-03-01"; currency := "BRL";
                               revenue := "80.00"; Store.orderCount := 1;
                               Store.itemsSold := 1;
                               Store.averageOrderValue := "80.00";
                               cogs := "0.00"; cogsMatchRate := "0.0";
                               adSpend := "0.00"; adSpendByPlatform := [];
                               fees := "2.62"; feeBreakdown := [];
                               fixedCosts := "10.00"; grossProfit := "80.00";
                               grossMargin := "100.0"; netProfit := "67.38";
                               profitMargin := "84.2"; isProfitable := true;
                               alerts := [] |};
                          calculatedAt := 1709300000 |} ]} ]};
     today := "2024-03-02";
     clock := 1709340000;
     decrypt := fun _ => Some "shpat";
     shopify := fun _ _ d => if d =? "2024-03-01" then inr [order1] else inr [];
     dbFault := fun _ => None;
     log := [GetShop shopName] |}.

(** The same shop while the orders API answers with an error. *)
Definition worldOrdersDown : World :=
  {| db := store;
     today := "2024-03-02";
     clock := 1709337600;
     decrypt := fun _ => Some "shpat";
     shopify := fun _ _ _ => inl "Request failed with status code 503";
     dbFault := fun _ => None;
     log := [] |}.

(** A stored report with the given date and figures. *)
Definition storedDay (day revenue cogs adSpend fees fixedCosts grossProfit
    grossMargin netProfit profitMargin : string) (profitable : bool) : DayDoc :=
  {| report :=
       {| date := day; currency := "BRL"; revenue := revenue;
          Store.orderCount := 1; Store.itemsSold := 1;
          Store.averageOrderValue := revenue;
          cogs := cogs; cogsMatchRate := "100.0"; adSpend := adSpend;
          adSpendByPlatform := []; fees := fees; feeBreakdown := [];
          fixedCosts := fixedCosts; grossProfit := grossProfit;
          grossMargin := grossMargin; netProfit := netProfit;
          profitMargin := profitMargin; isProfitable := profitable;
          alerts := [] |};
     calculatedAt := 1709337600 |}.

Definition day1 : DayDoc :=
  storedDay "2024-03-01" "100.00" "50.00" "20.00" "3.20" "16.80" "50.00" "50.0"
    "10.00" "10.0" true.

Definition day3 : DayDoc :=
  storedDay "2024-03-03" "200.00" "150.00" "40.00" "6.10" "8.90" "50.00" "25.0"
    "-5.00" "-2.5" false.

(** The shop with two stored reports, of 1 and 3 March 2024, and nothing
    stored for 2 March. *)
Definition worldTwoDays : World :=
  {| db := setDailyMetrics store
             {[ shopName := {[ "2024-03-01" := day1; "2024-03-03" := day3 ]} ]};
     today := "2024-03-04";
     clock := 1709510400;
     decrypt := fun _ => Some "shpat";
     shopify := fun _ _ _ => inr [];
     dbFault := fun _ => None;
     log := [] |}.

(** The same shop with two more stored reports, of 28 February and of
    5 March, outside the window from 1 to 3 March. *)
Definition dayBefore : DayDoc :=
  storedDay "2024-02-28" "1000.00" "400.00" "100.00" "29.30" "10.00" "600.00"
    "60.0" "460.70" "46.1" true.

Definition dayAfter : DayDoc :=
  storedDay "2024-03-05" "50.00" "40.00" "30.00" "1.75" "10.00" "10.00" "20.0"
    "-31.75" "-63.5" false.

Definition worldFourDays : World :=
  {| db := setDailyMetrics store
             {[ shopName := {[ "2024-02-28" := dayBefore; "2024-03-01" := day1;
                               "2024-03-03" := day3; "2024-03-05" := dayAfter ]} ]};
     today := "2024-03-06";
     clock := 1709683200;
     decrypt := fun _ => Some "shpat";
     shopify := fun _ _ _ => inr [];
     dbFault := fun _ => None;
     log := [] |}.

Definition threeDays : RangeRequest :=
  {| reqStart := Some "2024-03-01"; reqEnd := Some "2024-03-03" |}.

Definition inverted : RangeRequest :=
  {| reqStart := Some "2024-03-10"; reqEnd := Some "2024-03-01" |}.

Definition caller : Context := {| auth := Some shopName |}.
Definition march1 : ProfitRequest := {| reqDate := Some "2024-03-01" |}.
Definition march2 : ProfitRequest := {| reqDate := None |}.

End Example.


(** ** The dashboard roll-up ([aggregateDays] of [profit/calculator.js]) *)

Module Dashboard.
Import JS Store.

(** The [totals] object of the loop. *)
Record Running := {
  runRevenue : number;
  runCogs : number;
  runAdSpend : number;
  runFees : number;
  runFixedCosts : number;
  runNetProfit : number;
  runOrderCount : number;
}.

Definition aggregateStep (totals : Running) (day : DayDoc) : Running :=
  {| runRevenue := (runRevenue totals + orZero (parseFloat (revenue (report day))))%float;
     runCogs := (runCogs totals + orZero (parseFloat (cogs (report day))))%float;
     runAdSpend := (runAdSpend totals + orZero (parseFloat (adSpend (report day))))%float;
     runFees := (runFees totals + orZero (parseFloat (fees (report day))))%float;
     runFixedCosts :=
       (runFixedCosts totals + orZero (parseFloat (fixedCosts (report day))))%float;
     runNetProfit :=
       (runNetProfit totals + orZero (parseFloat (netProfit (report day))))%float;
     runOrderCount :=
       (runOrderCount totals + orZero (ofNat (orderCount (report day))))%float |}.

Module Summary.
Record t := {
  daysCount : nat;
  revenue : string;
  cogs : string;
  adSpend : string;
  fees : string;
  fixedCosts : string;
  netProfit : string;
  profitMargin : string;
  orderCount : number;
  isProfitable : bool;
}.
End Summary.

Definition aggregateDays (days : list DayDoc) : Summary.t :=
  let totals := fold_left aggregateStep days
      {| runRevenue := 0; runCogs := 0; runAdSpend := 0; runFees := 0;
         runFixedCosts := 0; runNetProfit := 0; runOrderCount := 0 |} in
  let profitMargin :=
    if gt (runRevenue totals) 0
    then (runNetProfit totals / runRevenue totals * 100)%float
    else 0%float in
  {| Summary.daysCount := List.length days;
     Summary.revenue := toFixed 2 (runRevenue totals);
     Summary.cogs := toFixed 2 (runCogs totals);
     Summary.adSpend := toFixed 2 (runAdSpend totals);
     Summary.fees := toFixed 2 (runFees totals);
     Summary.fixedCosts := toFixed 2 (runFixedCosts totals);
     Summary.netProfit := toFixed 2 (runNetProfit totals);
     Summary.profitMargin := toFixed 1 profitMargin;
     Summary.orderCount := runOrderCount totals;
     Summary.isProfitable := ge (runNetProfit totals) 0 |}.

End Dashboard.

(** ** The daily computation as the callable runtime invokes it *)

Module Callable.
Import JS Store Calculator.

(** [calculateProfit] with the payload as the runtime hands it over: [null]
    when the client sent none.  The check of [context.auth] comes first;
    then [const { date } = data], which stands before the [try] block,
    throws a [TypeError] on [null]. *)
Definition calculateProfit (data : option ProfitRequest) (context : Context)
  : M ProfitReport :=
  match auth context with
  | None => throw (HttpsError "unauthenticated" "Must be authenticated")
  | Some _ =>
      match data with
      | None =>
          throw (TypeError "Cannot destructure property 'date' of 'data' as it is null.")
      | Some data => Calculator.calculateProfit data context
      end
  end.

End Callable.

(** ** Shop domains and amounts ([utils/validators.js]) *)

Module ShopDomain.
Import JS.

Definition isAlnum (c : ascii) : bool :=
  let n := nat_of_ascii c in
  ((48 <=? n)%nat && (n <=? 57)%nat)
  || ((65 <=? n)%nat && (n <=? 90)%nat)
  || ((97 <=? n)%nat && (n <=? 122)%nat).

Definition isLabelChar (c : ascii) : bool := isAlnum c || (c =? "-")%char.

Definition suffix : string := ".myshopify.com".

(** [/^[a-zA-Z0-9][a-zA-Z0-9-]*\.myshopify\.com$/]: the text ends with the
    suffix, and what stands before it is a letter or digit followed by
    letters, digits and hyphens. *)
Definition isValidShopDomain (shop : string) : bool :=
  let n := String.length shop in
  let k := String.length suffix in
  (k <? n)%nat
  && (substring (n - k) k shop =? suffix)
  && match substring 0 (n - k) shop with
     | String c rest =>
         isAlnum c && forallb isLabelChar (list_ascii_of_string rest)
     | EmptyString => false
     end.

(** [typeof value === 'number' && !isNaN(value) && value >= 0] on a number *)
Definition isPositiveNumber (value : number) : bool :=
  negb (is_nan value) && ge value 0.

End ShopDomain.

(** ** Further notions the properties are stated with *)

Module Facts.
Import JS Store Collaborators Calculator Spec.

(** The year, month and day a date string of the form YYYY-MM-DD spells,
    and the number yyyymmdd that orders dates as the calendar does. *)
Definition digitAt (i : nat) (s : string) : Z :=
  match String.get i s with
  | Some c => Z.of_nat (nat_of_ascii c) - 48
  | None => 0
  end.

Definition yearOf (date : string) : Z :=
  digitAt 0 date * 1000 + digitAt 1 date * 100 + digitAt 2 date * 10 + digitAt 3 date.
Definition monthOf (date : string) : Z := digitAt 5 date * 10 + digitAt 6 date.
Definition dayOf (date : string) : Z := digitAt 8 date * 10 + digitAt 9 date.

Definition dateNumber (date : string) : Z :=
  yearOf date * 10000 + monthOf date * 100 + dayOf date.

(** The gateway an order is charged under: its own, else the first of its
    gateway names, else the platform's, skipping empty names. *)
Definition gatewayName (order : Orders.Order) : string :=
  match Orders.gateway order with
  | Some g => if g =? "" then
                match Orders.payment_gateway_names order with
                | Some (n :: _) => if n =? "" then "shopify_payments" else n
                | _ => "shopify_payments"
                end
              else g
  | None =>
      match Orders.payment_gateway_names order with
      | Some (n :: _) => if n =? "" then "shopify_payments" else n
      | _ => "shopify_payments"
      end
  end.

(** The key of the breakdown an order falls under. *)
Definition bucketOf (order : Orders.Order) : string :=
  let letters := stripNonLetters (toLowerCase (gatewayName order)) in
  if letters =? "constructor" then propertyKey (VBuiltin "Object")
  else canonicalName (canonicalOf (gatewayName order)).

(** The amount and the fee of one order. *)
Definition amountOf (order : Orders.Order) : number :=
  orZero (parseFloatOpt (Orders.total_price order)).

Definition feeOf (order : Orders.Order) : number :=
  let model := feeModel (canonicalOf (gatewayName order)) in
  round2 (amountOf order * GatewayFees.percentage model + GatewayFees.fixed model)%float.

(** The entry of a bucket after its orders, in order, before rounding. *)
Definition addOrder (key : string) (entry : option GatewayFees.GatewayStats)
    (order : Orders.Order) : option GatewayFees.GatewayStats :=
  if bucketOf order =? key then
    let e := default {| GatewayFees.count := 0; GatewayFees.orderTotal := 0;
                        GatewayFees.fees := 0 |} entry in
    Some {| GatewayFees.count := S (GatewayFees.count e);
            GatewayFees.orderTotal := (GatewayFees.orderTotal e + amountOf order)%float;
            GatewayFees.fees := (GatewayFees.fees e + feeOf order)%float |}
  else entry.

(** One turn of the loop of [calculateTotalFees], without the exceptions
    it cannot raise. *)
Definition feesTurn (acc : GatewayFees.Breakdown * number) (order : Orders.Order)
  : GatewayFees.Breakdown * number :=
  let entry :=
    match ownProperty (fst acc) (bucketOf order) with
    | Some e => e
    | None => {| GatewayFees.count := 0; GatewayFees.orderTotal := 0;
                 GatewayFees.fees := 0 |}
    end in
  (setProperty (fst acc) (bucketOf order)
     {| GatewayFees.count := S (GatewayFees.count entry);
        GatewayFees.orderTotal := (GatewayFees.orderTotal entry + amountOf order)%float;
        GatewayFees.fees := (GatewayFees.fees entry + feeOf order)%float |},
   (snd acc + feeOf order)%float).

(** The orders a breakdown counts. *)
Fixpoint sumCounts (bd : GatewayFees.Breakdown) : nat :=
  match bd with
  | [] => 0
  | (_, e) :: rest => GatewayFees.count e + sumCounts rest
  end.

(** A computation that leaves the store and the clock as they are. *)
Definition quiet {A} (m : M A) : Prop :=
  forall w, db (snd (m w)) = db w /\ clock (snd (m w)) = clock w.

(** A computation that, when it returns a report, has stored it under the
    shop and the date with the time of the call, and done nothing else to
    the store. *)
Definition storesReport (shopDomain targetDate : string) (m : M ProfitReport)
  : Prop :=
  forall w r w',
    m w = (Ok r, w') ->
    db w' = writeDay shopDomain targetDate r (clock w) (db w).

(** The codes a caller of the daily computation can receive. *)
Definition callerError (e : exn) : bool :=
  match e with
  | HttpsError code _ =>
      (code =? "unauthenticated") || (code =? "invalid-argument")
      || (code =? "internal")
  | _ => false
  end.

(** The error alert and the notice of a low margin. *)
Definition isErrorAlert (a : Alerts.Alert) : bool := Alerts.type a =? "error".
Definition isInfoAlert (a : Alerts.Alert) : bool := Alerts.type a =? "info".

(** The running sum of item quantities. *)
Definition sumQuantities (items : list Orders.LineItem) (start : number) : number :=
  fold_left (fun acc item => (acc + orZero (Orders.itemQuantity item))%float)
    items start.

(** The stored reports of a shop whose date lies in the window. *)
Definition storedInWindow (fs : Firestore) (shopDomain startDate endDate : string)
  : list (string * DayDoc) :=
  List.filter (inRange startDate endDate) (map_to_list (daysOf fs shopDomain)).

(** The running sums of the range roll-up, read as those of the dashboard
    roll-up. *)
Definition asRunning (t : Calculator.Running) : Dashboard.Running :=
  {| Dashboard.runRevenue := accRevenue t;
     Dashboard.runCogs := accCogs t;
     Dashboard.runAdSpend := accAdSpend t;
     Dashboard.runFees := accFees t;
     Dashboard.runFixedCosts := accFixedCosts t;
     Dashboard.runNetProfit := accNetProfit t;
     Dashboard.runOrderCount := accOrderCount t |}.

(** The totals of a range answer, read as a dashboard summary of as many
    days. *)
Definition asSummary (s : RangeSummary) : Dashboard.Summary.t :=
  {| Dashboard.Summary.daysCount := daysCount s;
     Dashboard.Summary.revenue := RangeTotals.revenue (totals s);
     Dashboard.Summary.cogs := RangeTotals.cogs (totals s);
     Dashboard.Summary.adSpend := RangeTotals.adSpend (totals s);
     Dashboard.Summary.fees := RangeTotals.fees (totals s);
     Dashboard.Summary.fixedCosts := RangeTotals.fixedCosts (totals s);
     Dashboard.Summary.netProfit := RangeTotals.netProfit (totals s);
     Dashboard.Summary.profitMargin := RangeTotals.profitMargin (totals s);
     Dashboard.Summary.orderCount := RangeTotals.orderCount (totals s);
     Dashboard.Summary.isProfitable := RangeTotals.isProfitable (totals s) |}.

(** The characters a valid shop domain is made of. *)
Definition domainChar (c : ascii) : bool :=
  ShopDomain.isLabelChar c || (c =? ".")%char.

(** A computation whose report, when it returns one, bears the date. *)
Definition returnsDated (targetDate : string) (m : M ProfitReport) : Prop :=
  forall w r w', m w = (Ok r, w') -> date r = targetDate.

(** The date of the first report is not after the date of the second. *)
Definition notAfter (x y : DayDoc) : Prop :=
  String.leb (date (report x)) (date (report y)) = true.

(** The date of the report lies in the window. *)
Definition inWindow (startDate endDate : string) (d : DayDoc) : Prop :=
  String.leb startDate (date (report d)) = true
  /\ String.leb (date (report d)) endDate = true.

End Facts.
(** * Properties *)

(** ** Numbers *)

Section NumberFacts.
Import JS.

(** A number that is zero or not a number is not greater than zero. *)
Lemma falsy_not_positive (x : number) :
  truthy x = false -> PrimFloat.ltb 0 x = false.
Proof.
  unfold truthy, is_nan.
  rewrite FloatAxioms.ltb_spec, !FloatAxioms.eqb_spec.
  change (Prim2SF 0) with (S754_zero false).
  destruct (Prim2SF x) as [s | s | | s m e]; try destruct s; cbn;
    rewrite ?Z.compare_refl, ?Pos.compare_cont_refl; cbn; congruence.
Qed.

Lemma gt_orZero (x : number) : gt (orZero x) 0 = gt x 0.
Proof.
  unfold gt, orZero.
  destruct (truthy x) eqn:E; [reflexivity|].
  rewrite (falsy_not_positive x E). reflexivity.
Qed.

Lemma positive_truthy (x : number) : gt x 0 = true -> orZero x = x.
Proof.
  unfold gt, orZero. intros H.
  destruct (truthy x) eqn:E; [reflexivity|].
  rewrite (falsy_not_positive x E) in H. discriminate.
Qed.

(** The integer [toFixed] prints for a double [m * 2^(-p)] is the nearest one
    to [m * 2^(-p) * 10^fd], the upper one on a tie. *)
Lemma roundHalfUp_nearest (fd : nat) (m p : positive) :
  let n := roundHalfUp fd m (Zneg p) in
  let s := (Zpos m * 10 ^ Z.of_nat fd)%Z in
  (- 2 ^ Zpos p < 2 * (n * 2 ^ Zpos p - s) <= 2 ^ Zpos p)%Z.
Proof.
  intros n s. subst n. unfold roundHalfUp. fold s.
  assert (HP : (0 < 2 ^ Zpos p)%Z) by (apply Z.pow_pos_nonneg; lia).
  replace (2 ^ (Zpos p + 1))%Z with (2 * 2 ^ Zpos p)%Z
    by (rewrite Z.pow_add_r by lia; lia).
  set (P := (2 ^ Zpos p)%Z) in *.
  pose proof (Z.div_mod (2 * s + P) (2 * P) ltac:(lia)) as D.
  pose proof (Z.mod_pos_bound (2 * s + P) (2 * P) ltac:(lia)) as B.
  nia.
Qed.

End NumberFacts.

(** ** COGS matching *)

Section CogsMatching.
Import JS Collaborators Calculator Spec.

(** Distinct ids have distinct document ids. *)
Lemma idString_inj : Inj (=) (=) idString.
Proof.
  intros a b H. unfold idString, digitsOfZ in H. rewrite !N2Z.id in H.
  assert (Hnil : forall n, N.to_uint n <> Decimal.Nil).
  { intros [|p]; [discriminate | apply DecimalPos.Unsigned.to_uint_nonnil]. }
  pose proof (NilZero.usu _ (Hnil a)) as Ha.
  pose proof (NilZero.usu _ (Hnil b)) as Hb.
  rewrite H, Hb in Ha. injection Ha as Ha.
  apply DecimalN.Unsigned.to_uint_inj. symmetry. exact Ha.
Qed.

(** A document id is made of digits: none is the text "undefined". *)
Lemma idString_digits (n : N) : idString n <> "undefined".
Proof.
  unfold idString, digitsOfZ. rewrite N2Z.id. intros H.
  assert (Hnil : N.to_uint n <> Decimal.Nil).
  { destruct n as [|p]; [discriminate | apply DecimalPos.Unsigned.to_uint_nonnil]. }
  pose proof (NilZero.usu _ Hnil) as Hu. rewrite H in Hu. discriminate.
Qed.

(** Reading the object under the key of an item is asking the lookup for
    the variant id of the item. *)
Lemma lookupObject_key (lookup : Lookup) (item : Orders.LineItem) :
  lookupObject lookup !! variantKey (Orders.variantId item) = costOf lookup item.
Proof.
  pose proof idString_inj as Hinj.
  unfold lookupObject, costOf, variantKey.
  destruct (Orders.variantId item) as [id|].
  - apply (lookup_kmap idString).
  - apply (lookup_kmap_None idString). intros i Hi.
    symmetry in Hi. destruct (idString_digits i Hi).
Qed.

Lemma gt_lookupCogs lookup item :
  gt (lookupCogs (lookupObject lookup) item) 0 = hasCost lookup item.
Proof.
  unfold lookupCogs, hasCost. rewrite lookupObject_key.
  destruct (costOf lookup item) as [c|].
  - apply gt_orZero.
  - reflexivity.
Qed.

Lemma lookupCogs_matched lookup item :
  hasCost lookup item = true ->
  lookupCogs (lookupObject lookup) item = unitCost lookup item.
Proof.
  unfold lookupCogs, hasCost, unitCost. rewrite lookupObject_key.
  destruct (costOf lookup item) as [c|]; cbn.
  - apply positive_truthy.
  - discriminate.
Qed.

(** The loop, started from any totals, adds the matched items to them. *)
Lemma matchCogs_from lookup lineItems acc :
  let c := fold_left (cogsStep (lookupObject lookup)) lineItems acc in
  cogsMatchedItems c
    = (cogsMatchedItems acc + List.length (List.filter (hasCost lookup) lineItems))%nat
  /\ cogsMissingItems c
    = (cogsMissingItems acc
       + List.length (List.filter (fun i => negb (hasCost lookup i)) lineItems))%nat
  /\ totalCogs c
    = fold_left
        (fun t item => (t + unitCost lookup item * Orders.itemQuantity item)%float)
        (List.filter (hasCost lookup) lineItems) (totalCogs acc).
Proof.
  revert acc. induction lineItems as [|item rest IH]; intros acc; cbn.
  - repeat split; lia.
  - specialize (IH (cogsStep (lookupObject lookup) acc item)). cbn in IH.
    destruct IH as (IHm & IHx & IHt).
    unfold cogsStep in IHm, IHx, IHt |- *.
    rewrite gt_lookupCogs in *.
    destruct (hasCost lookup item) eqn:E; cbn in *.
    + rewrite (lookupCogs_matched _ _ E) in *.
      rewrite IHm, IHx, IHt. repeat split; lia.
    + rewrite IHm, IHx, IHt. repeat split; lia.
Qed.

(** C5, as the source has it.  For every list of line items and every COGS
    lookup, read by the loop as the object that holds each cost under the
    document id of its variant: the loop counts an item as matched exactly
    when the lookup yields a cost greater than zero for the variant id of
    the item, so an item without a variant id, an id without a cost and a
    cost of zero all count as missing.  It counts the matched and the
    missing items, adds [cost * quantity] of each matched item to the COGS
    total, and the match rate of the report is matched / total * 100
    written with one fraction digit, or "100" when there is no line item. *)
Theorem cogs_matching (lookup : Lookup) (lineItems : list Orders.LineItem) :
  let cogsMap := lookupObject lookup in
  let c := matchCogs cogsMap lineItems in
  let matched := List.filter (hasCost lookup) lineItems in
  (forall item,
      gt (lookupCogs cogsMap item) 0
      = match Orders.variantId item with
        | Some id =>
            match lookup !! id with
            | Some cost => PrimFloat.ltb 0 cost
            | None => false
            end
        | None => false
        end)
  /\ (forall item id,
        Orders.variantId item = Some id -> lookup !! id = Some 0%float ->
        gt (lookupCogs cogsMap item) 0 = false)
  /\ cogsMatchedItems c = List.length matched
  /\ (cogsMatchedItems c + cogsMissingItems c = List.length lineItems)%nat
  /\ totalCogs c = matchedTotal lookup lineItems
  /\ matchRate (cogsMatchedItems c) (List.length lineItems)
     = match lineItems with
       | [] => "100"
       | _ => toFixed 1 (ofNat (List.length matched)
                         / ofNat (List.length lineItems) * 100)%float
       end.
Proof.
  intros cogsMap c matched. subst cogsMap.
  destruct (matchCogs_from lookup lineItems
              {| totalCogs := 0; cogsMatchedItems := 0; cogsMissingItems := 0 |})
    as (Hm & Hx & Ht).
  fold (matchCogs (lookupObject lookup) lineItems) in Hm, Hx, Ht.
  fold c in Hm, Hx, Ht. cbn in Hm, Hx, Ht.
  assert (Htest : forall item,
             gt (lookupCogs (lookupObject lookup) item) 0
             = match Orders.variantId item with
               | Some id =>
                   match lookup !! id with
                   | Some cost => PrimFloat.ltb 0 cost
                   | None => false
                   end
               | None => false
               end).
  { intros item. rewrite gt_lookupCogs. unfold hasCost, costOf.
    destruct (Orders.variantId item); reflexivity. }
  split; [exact Htest|]. split.
  { intros item id Hid Hzero. rewrite Htest, Hid, Hzero. reflexivity. }
  split; [exact Hm|]. split.
  { rewrite Hm, Hx.
    clear. induction lineItems as [|i r IH]; cbn; [reflexivity|].
    destruct (hasCost lookup i); cbn; lia. }
  split; [exact Ht|].
  rewrite Hm. fold matched. unfold matchRate.
  destruct lineItems; reflexivity.
Qed.

Lemma cogs_matching_witness :
  let lineItems :=
    List.map (Orders.extractItem Example.order1)
      [Example.mug; Example.poster; Example.giftWrap] in
  let c :=
    matchCogs (lookupObject {[ 41001%N := 10%float; 41002%N := 0%float ]})
      lineItems in
  cogsMatchedItems c = 1%nat
  /\ cogsMissingItems c = 2%nat
  /\ totalCogs c = 20%float
  /\ matchRate (cogsMatchedItems c) (List.length lineItems) = "33.3".
Proof.
  pose proof (cogs_matching {[ 41001%N := 10%float; 41002%N := 0%float ]}
                (List.map (Orders.extractItem Example.order1)
                   [Example.mug; Example.poster; Example.giftWrap])) as H.
  cbv zeta in H |- *. destruct H as (_ & _ & Hm & Hsum & Ht & Hr).
  assert (H1 : List.length
                 (List.filter
                    (hasCost {[ 41001%N := 10%float; 41002%N := 0%float ]})
                    (List.map (Orders.extractItem Example.order1)
                       [Example.mug; Example.poster; Example.giftWrap]))
               = 1%nat) by (vm_compute; reflexivity).
  rewrite H1 in Hm. rewrite Hm in Hsum.
  split; [|split; [|split]].
  - exact Hm.
  - rewrite List.length_map in Hsum. cbn [List.length] in Hsum. lia.
  - rewrite Ht. vm_compute. reflexivity.
  - rewrite Hr. vm_compute. reflexivity.
Defined.

(** C5, as the specification has it, fails on the rate.  Of the three items
    of an order, a mug that costs 10, a poster without a cost and a gift
    wrap without a variant, one is matched; the COGS total is the cost of
    the two mugs, and the rate is written "33.3", which is not the number
    1 / 3 * 100. *)
Lemma match_rate_one_digit :
  (let lineItems :=
     List.map (Orders.extractItem Example.order1)
       [Example.mug; Example.poster; Example.giftWrap] in
   let c := matchCogs (lookupObject {[ 41001%N := 10%float ]}) lineItems in
   (cogsMatchedItems c, cogsMissingItems c, toFixed 2 (totalCogs c),
    matchRate (cogsMatchedItems c) (List.length lineItems)))
  = (1%nat, 2%nat, "20.00", "33.3")
  /\ PrimFloat.eqb (parseFloat "33.3") (1 / 3 * 100) = false
  /\ toFixed 2 (1 / 3 * 100) = "33.33".
Proof. repeat split; vm_compute; reflexivity. Qed.

End CogsMatching.

(** ** Fixed costs *)

Section FixedCostFacts.
Import JS FixedCosts Spec.

(** The loop and the table agree, from any running totals. *)
Lemma totals_loop_table (costs : list FixedCost) (t : Totals) :
  let t' := fold_left totalsStep costs t in
  fold_left (fun '(d, m, y) '(a, b, c) => (d + a, m + b, y + c)%float)
    (contributions costs) (daily t, monthly t, yearly t)
  = (daily t', monthly t', yearly t').
Proof.
  revert t. induction costs as [|cost rest IH]; intros t; cbn; [reflexivity|].
  unfold contributions in *. cbn.
  rewrite <- (IH (totalsStep t cost)). clear IH.
  unfold totalsStep, conversion.
  destruct (active cost); cbn; [|reflexivity].
  destruct (frequency cost =? "daily"); [reflexivity|].
  destruct (frequency cost =? "weekly"); [reflexivity|].
  destruct (frequency cost =? "monthly"); [reflexivity|].
  destruct (frequency cost =? "yearly"); reflexivity.
Qed.

(** C6.  The normalizer returns the three totals obtained by converting each
    active entry with the table, summing across entries at full precision
    and rounding each total to two fraction digits at the end; an entry with
    a frequency outside the table adds nothing.  One active monthly entry of
    300 gives daily 10.00, monthly 300.00 and yearly 3600.00. *)
Theorem calculateTotals_normalizes :
  (forall costs, calculateTotals costs = normalizeCosts costs)
  /\ (forall cost before after,
        calculateTotals (before ++ cost :: after)%list
        = if active cost
             && existsb (String.eqb (frequency cost))
                  ["daily"; "weekly"; "monthly"; "yearly"]
          then calculateTotals (before ++ cost :: after)%list
          else calculateTotals (before ++ after)%list)
  /\ (forall description,
        let entry := {| description := description; amount := 300;
                        frequency := "monthly"; active := true |} in
        calculateTotals [entry]
        = {| daily := 10; monthly := 300; yearly := 3600 |}
        /\ toFixed 2 (daily (calculateTotals [entry])) = "10.00"
        /\ toFixed 2 (monthly (calculateTotals [entry])) = "300.00"
        /\ toFixed 2 (yearly (calculateTotals [entry])) = "3600.00").
Proof.
  assert (Hn : forall costs, calculateTotals costs = normalizeCosts costs).
  { intros costs. unfold calculateTotals, normalizeCosts.
    pose proof (totals_loop_table costs {| daily := 0; monthly := 0; yearly := 0 |}) as H.
    cbn in H. rewrite H. reflexivity. }
  split; [exact Hn|]. split.
  - intros cost before after.
    destruct (active cost && _) eqn:Hin; [reflexivity|].
    rewrite !Hn.
    unfold normalizeCosts, contributions. rewrite !omap_app. cbn.
    destruct (active cost); [|reflexivity].
    cbn in Hin. unfold conversion.
    destruct (frequency cost =? "daily"); [discriminate|].
    destruct (frequency cost =? "weekly"); [discriminate|].
    destruct (frequency cost =? "monthly"); [discriminate|].
    destruct (frequency cost =? "yearly"); [discriminate|].
    reflexivity.
  - intros description entry. repeat split; vm_compute; reflexivity.
Qed.

End FixedCostFacts.

(** ** Gateway names and fees *)

Section GatewayFacts.
Import JS GatewayFees Spec.

Lemma stripNonLetters_letters (s : string) :
  forallb isLowerLetter (list_ascii_of_string (stripNonLetters s)) = true.
Proof.
  induction s as [|c r IH]; cbn; [reflexivity|].
  destruct (isLowerLetter c) eqn:E; cbn; [rewrite E|]; exact IH.
Qed.

(** Among the names [Object.prototype] defines, only "constructor" is made
    of lower-case letters alone. *)
Lemma inherited_letters (s : string) :
  objectPrototype (stripNonLetters s)
  = if stripNonLetters s =? "constructor" then Some (VBuiltin "Object") else None.
Proof.
  pose proof (stripNonLetters_letters s) as H.
  unfold objectPrototype.
  destruct (stripNonLetters s =? "constructor"); [reflexivity|].
  cbn [existsb].
  repeat match goal with
  | |- context [String.eqb (stripNonLetters s) ?k] =>
      destruct (String.eqb_spec (stripNonLetters s) k) as [E|_];
      [rewrite E in H; vm_compute in H; discriminate|]
  end.
  reflexivity.
Qed.

(** What [normalizeGatewayName] computes on a non-empty string. *)
Lemma normalize_string (g : string) :
  g <> "" ->
  normalizeGatewayName (VString g)
  = Ok (match ownProperty mappings (stripNonLetters (toLowerCase g)) with
        | Some canonical => VString canonical
        | None =>
            if stripNonLetters (toLowerCase g) =? "constructor"
            then VBuiltin "Object"
            else VString "shopify_payments"
        end).
Proof.
  intros Hg. unfold normalizeGatewayName. cbn [truthyValue].
  apply String.eqb_neq in Hg. rewrite Hg. cbn [negb].
  unfold getProperty. rewrite inherited_letters.
  set (lower := stripNonLetters (toLowerCase g)).
  unfold mappings. cbn [ownProperty].
  repeat match goal with
  | |- context [String.eqb ?k lower] =>
      destruct (String.eqb_spec k lower) as [_|_]; [reflexivity|]
  end.
  destruct (lower =? "constructor"); reflexivity.
Qed.

Lemma normalize_falsy (name : option string) :
  default "" name = "" ->
  normalizeGatewayName (nameValue name) = Ok (VString "unknown").
Proof. destruct name as [s|]; cbn; [intros ->|]; reflexivity. Qed.

(** The fee model of any name, a string or absent. *)
Lemma getGatewayFees_model (name : option string) :
  getGatewayFees (nameValue name) = Ok (feeModel (canonicalOf (default "" name))).
Proof.
  unfold getGatewayFees.
  destruct (String.eqb_spec (default "" name) "") as [E|E].
  - rewrite (normalize_falsy name E), E. reflexivity.
  - destruct name as [g|]; [|contradiction].
    change (default "" (Some g)) with g in *. cbn [nameValue].
    rewrite (normalize_string g E).
    unfold canonicalOf.
    set (lower := stripNonLetters (toLowerCase g)).
    unfold mappings. cbn [ownProperty existsb].
    repeat match goal with
    | |- context [String.eqb ?k lower] =>
        destruct (String.eqb_spec k lower) as [<-|?]; [reflexivity|]
    end.
    repeat match goal with
    | |- context [String.eqb lower ?k] =>
        destruct (String.eqb_spec lower k) as [->|?]; [try reflexivity; congruence|]
    end.
    reflexivity.
Qed.

(** C7.  The fee of an order is total * percentage + fixed of the gateway's
    fee model, rounded to two fraction digits; an order of 100.00 paid
    through "stripe" costs exactly 3.20. *)
Theorem calculateOrderFee_formula :
  (forall (orderTotal : number) (name : option string),
      let model := feeModel (canonicalOf (default "" name)) in
      calculateOrderFee orderTotal (nameValue name)
      = Ok (round2 (orderTotal * percentage model + fixed model)%float))
  /\ calculateOrderFee (parseFloat "100.00") (VString "stripe") = Ok 3.2%float
  /\ toFixed 2 (parseFloat "100.00" * 0.029 + 0.30)%float = "3.20".
Proof.
  split; [|split; vm_compute; reflexivity].
  intros orderTotal name model. unfold calculateOrderFee.
  rewrite getGatewayFees_model. reflexivity.
Qed.

(** Away from the name spelling "constructor", a non-empty name normalizes
    to the canonical name the alias table gives it. *)
Lemma normalize_canonical (g : string) :
  g <> "" ->
  stripNonLetters (toLowerCase g) <> "constructor" ->
  normalizeGatewayName (VString g)
  = Ok (VString (canonicalName (canonicalOf g))).
Proof.
  intros Hg Hc. rewrite (normalize_string g Hg).
  apply String.eqb_neq in Hc. rewrite Hc.
  unfold canonicalOf.
  set (lower := stripNonLetters (toLowerCase g)).
  unfold mappings. cbn [ownProperty existsb].
  repeat match goal with
  | |- context [String.eqb ?k lower] =>
      destruct (String.eqb_spec k lower) as [<-|?]; [reflexivity|]
  end.
  repeat match goal with
  | |- context [String.eqb lower ?k] =>
      destruct (String.eqb_spec lower k) as [->|?]; [try reflexivity; congruence|]
  end.
  reflexivity.
Qed.

(** Away from the name spelling "constructor", normalizing twice is
    normalizing once. *)
Lemma normalize_idempotent_elsewhere (g : string) :
  g <> "" ->
  stripNonLetters (toLowerCase g) <> "constructor" ->
  (normalizeGatewayName (VString g) ≫= normalizeGatewayName)
  = normalizeGatewayName (VString g).
Proof.
  intros Hg Hc. rewrite (normalize_string g Hg).
  apply String.eqb_neq in Hc. rewrite Hc.
  set (lower := stripNonLetters (toLowerCase g)).
  unfold mappings. cbn [ownProperty].
  repeat match goal with
  | |- context [String.eqb ?k lower] =>
      destruct (String.eqb_spec k lower) as [_|_]; [reflexivity|]
  end.
  reflexivity.
Qed.

(** C8, as the source has it.  A name whose lower-cased letters are not a
    key of the alias table (and do not spell "constructor") normalizes to
    "shopify_payments" when it is not empty, and to "unknown" when it is
    empty or absent. *)
Theorem normalize_unrecognized (name : option string) :
  isKnownAlias (default "" name) = false ->
  stripNonLetters (toLowerCase (default "" name)) <> "constructor" ->
  normalizeGatewayName (nameValue name)
  = Ok (VString (if default "" name =? "" then "unknown" else "shopify_payments")).
Proof.
  intros Halias Hc.
  destruct (String.eqb_spec (default "" name) "") as [E|E].
  - apply normalize_falsy, E.
  - destruct name as [g|]; [|contradiction].
    change (default "" (Some g)) with g in *. cbn [nameValue].
    rewrite (normalize_string g E).
    unfold isKnownAlias in Halias.
    destruct (ownProperty mappings (stripNonLetters (toLowerCase g)));
      [discriminate|].
    apply String.eqb_neq in Hc. rewrite Hc. reflexivity.
Qed.

Lemma normalize_unrecognized_witness :
  normalizeGatewayName (VString "Cash on Delivery (COD)")
  = Ok (VString "shopify_payments").
Proof.
  apply (normalize_unrecognized (Some "Cash on Delivery (COD)")).
  - reflexivity.
  - vm_compute. discriminate.
Defined.

(** C8, as the specification has it, fails on the empty and on the absent
    name: neither is an alias, and both normalize to "unknown". *)
Lemma normalize_empty_unknown :
  isKnownAlias "" = false
  /\ normalizeGatewayName (VString "") = Ok (VString "unknown")
  /\ normalizeGatewayName VUndefined = Ok (VString "unknown").
Proof. repeat split. Qed.

(** C10 at the name "constructor".  The alias table is an object literal, so
    looking the name up finds the inherited [Object.prototype.constructor],
    which is truthy and is returned as it is; normalizing that function
    throws.  The four canonical names do normalize to themselves. *)
Theorem normalize_constructor :
  normalizeGatewayName (VString "constructor") = Ok (VBuiltin "Object")
  /\ (normalizeGatewayName (VString "constructor") ≫= normalizeGatewayName)
     = Throw (TypeError "gateway.toLowerCase is not a function")
  /\ List.map (fun g => normalizeGatewayName (VString g))
       ["shopify_payments"; "stripe"; "paypal"; "mercadopago"]
     = List.map (fun g => Ok (VString g))
         ["shopify_payments"; "stripe"; "paypal"; "mercadopago"].
Proof. repeat split. Qed.

End GatewayFacts.

(** ** Computations over the world *)

Section WorldFacts.
Import JS Store Collaborators Calculator Spec.

Lemma sameInputs_refl w : sameInputs w w.
Proof. repeat split. Qed.

Lemma sameInputs_sym w w' : sameInputs w w' -> sameInputs w' w.
Proof. unfold sameInputs. intuition congruence. Qed.

Lemma sameInputs_trans w1 w2 w3 :
  sameInputs w1 w2 -> sameInputs w2 w3 -> sameInputs w1 w3.
Proof. unfold sameInputs. intuition congruence. Qed.

Lemma bind_run {A B} (m : M A) (f : A -> M B) (w : World) :
  (m ≫= f) w
  = match m w with
    | (Ok a, w') => f a w'
    | (Throw e, w') => (Throw e, w')
    end.
Proof. reflexivity. Qed.

(** *** Results depend on the inputs only *)

Lemma respects_ret {A} (a : A) : respects (mret a : M A).
Proof. intros w w' H. split; [reflexivity | exact H]. Qed.

Lemma respects_throw {A} (e : exn) : respects (throw e : M A).
Proof. intros w w' H. split; [reflexivity | exact H]. Qed.

Lemma respects_liftR {A} (r : result A) : respects (liftR r).
Proof. intros w w' H. split; [reflexivity | exact H]. Qed.

Lemma respects_bind {A B} (m : M A) (f : A -> M B) :
  respects m -> (forall a, respects (f a)) -> respects (m ≫= f).
Proof.
  intros Hm Hf w w' H. rewrite !bind_run.
  destruct (Hm w w' H) as [E S].
  destruct (m w) as [[a|e] w1], (m w') as [[a'|e'] w1']; cbn in E, S;
    try discriminate; inversion E; subst.
  - apply Hf, S.
  - split; [reflexivity | exact S].
Qed.

Lemma respects_tryCatch {A} (m : M A) (h : exn -> M A) :
  respects m -> (forall e, respects (h e)) -> respects (tryCatch m h).
Proof.
  intros Hm Hh w w' H. unfold tryCatch.
  destruct (Hm w w' H) as [E S].
  destruct (m w) as [[a|e] w1], (m w') as [[a'|e'] w1']; cbn in E, S;
    try discriminate; inversion E; subst.
  - split; [reflexivity | exact S].
  - apply Hh, S.
Qed.

Lemma respects_gets {A} (f : World -> A) :
  (forall w w', sameInputs w w' -> f w = f w') -> respects (gets f).
Proof. intros Hf w w' H. split; [cbn; f_equal; apply Hf, H | exact H]. Qed.

Lemma respects_request (op : DbOp) : respects (request op).
Proof.
  intros w w' H. unfold request.
  assert (E : dbFault w op = dbFault w' op)
    by (destruct H as (_ & _ & _ & _ & _ & _ & _ & ->); reflexivity).
  rewrite E. destruct (dbFault w' op); (split; [reflexivity | exact H]).
Qed.

Lemma respects_cacheResult shopDomain targetDate r :
  respects (cacheResult shopDomain targetDate r).
Proof.
  intros w w' H. unfold cacheResult. rewrite !bind_run.
  destruct (respects_request (SetDay shopDomain targetDate) w w' H) as [E S].
  destruct (request _ w) as [[[]|e] w1], (request _ w') as [[[]|e'] w1'];
    cbn in E, S; try discriminate; inversion E; subst.
  - split; [reflexivity | exact S].
  - split; [reflexivity | exact S].
Qed.

(** *** The inputs are handed on *)

Lemma keeps_ret {A} (a : A) : keepsInputs (mret a : M A).
Proof. intros w. apply sameInputs_refl. Qed.

Lemma keeps_throw {A} (e : exn) : keepsInputs (throw e : M A).
Proof. intros w. apply sameInputs_refl. Qed.

Lemma keeps_liftR {A} (r : result A) : keepsInputs (liftR r).
Proof. intros w. apply sameInputs_refl. Qed.

Lemma keeps_gets {A} (f : World -> A) : keepsInputs (gets f).
Proof. intros w. apply sameInputs_refl. Qed.

Lemma keeps_request (op : DbOp) : keepsInputs (request op).
Proof. intros w. unfold request. destruct (dbFault w op); repeat split. Qed.

Lemma keeps_bind {A B} (m : M A) (f : A -> M B) :
  keepsInputs m -> (forall a, keepsInputs (f a)) -> keepsInputs (m ≫= f).
Proof.
  intros Hm Hf w. rewrite bind_run. specialize (Hm w).
  destruct (m w) as [[a|e] w1]; cbn in Hm |- *; [|exact Hm].
  eapply sameInputs_trans; [exact Hm | apply Hf].
Qed.

Lemma keeps_tryCatch {A} (m : M A) (h : exn -> M A) :
  keepsInputs m -> (forall e, keepsInputs (h e)) -> keepsInputs (tryCatch m h).
Proof.
  intros Hm Hh w. unfold tryCatch. specialize (Hm w).
  destruct (m w) as [[a|e] w1]; cbn in Hm |- *; [exact Hm|].
  eapply sameInputs_trans; [exact Hm | apply Hh].
Qed.

Lemma keeps_cacheResult shopDomain targetDate r :
  keepsInputs (cacheResult shopDomain targetDate r).
Proof.
  intros w. unfold cacheResult. rewrite !bind_run. unfold request.
  destruct (dbFault w _); repeat split.
Qed.

(** *** Reads and writes *)

Lemma readOnly_ret {A} (a : A) : readOnly (mret a : M A).
Proof. intros w. reflexivity. Qed.

Lemma readOnly_throw {A} (e : exn) : readOnly (throw e : M A).
Proof. intros w. reflexivity. Qed.

Lemma readOnly_liftR {A} (r : result A) : readOnly (liftR r).
Proof. intros w. reflexivity. Qed.

Lemma readOnly_gets {A} (f : World -> A) : readOnly (gets f).
Proof. intros w. reflexivity. Qed.

Lemma readOnly_request (op : DbOp) : readOnly (request op).
Proof. intros w. unfold request. destruct (dbFault w op); reflexivity. Qed.

Lemma readOnly_bind {A B} (m : M A) (f : A -> M B) :
  readOnly m -> (forall a, readOnly (f a)) -> readOnly (m ≫= f).
Proof.
  intros Hm Hf w. rewrite bind_run. specialize (Hm w).
  destruct (m w) as [[a|e] w1]; cbn in Hm |- *; [|exact Hm].
  rewrite Hf. exact Hm.
Qed.

Lemma writesOnSuccess_readOnly {A} (m : M A) : readOnly m -> writesOnSuccess m.
Proof. intros H w e _. apply H. Qed.

Lemma writesOnSuccess_bind {A B} (m : M A) (f : A -> M B) :
  readOnly m -> (forall a, writesOnSuccess (f a)) -> writesOnSuccess (m ≫= f).
Proof.
  intros Hm Hf w e. rewrite bind_run. specialize (Hm w).
  destruct (m w) as [[a|e'] w1]; cbn in Hm |- *.
  - intros H. rewrite (Hf a w1 e H). exact Hm.
  - intros _. exact Hm.
Qed.

Lemma writesOnSuccess_tryCatch {A} (m : M A) (h : exn -> M A) :
  writesOnSuccess m -> (forall e, readOnly (h e)) -> writesOnSuccess (tryCatch m h).
Proof.
  intros Hm Hh w e. unfold tryCatch. specialize (Hm w).
  destruct (m w) as [[a|e'] w1]; cbn in Hm |- *; [discriminate|].
  intros _. rewrite Hh. apply (Hm e'). reflexivity.
Qed.

(** Step 8 writes only after the store has accepted the request, and the
    write itself does not throw. *)
Lemma writesOnSuccess_cache {A} shopDomain targetDate r (a : A) :
  writesOnSuccess (cacheResult shopDomain targetDate r ≫= fun _ => mret a).
Proof.
  intros w e. unfold cacheResult. rewrite !bind_run. unfold request.
  destruct (dbFault w _); cbn; [reflexivity | discriminate].
Qed.

End WorldFacts.

(** ** The daily computation as a whole *)

Section DailyFacts.
Import JS Store Collaborators Calculator Spec.

Ltac split_cases P :=
  match goal with
  | |- P _ (match ?x with _ => _ end) => destruct x
  | |- P _ (if ?b then _ else _) => destruct b
  end.

Ltac respects_tac :=
  repeat first
    [ apply respects_ret | apply respects_throw | apply respects_liftR
    | apply respects_request | apply respects_cacheResult
    | apply respects_bind; [ | intros ? ]
    | apply respects_tryCatch; [ | intros ? ]
    | apply respects_gets; intros ? ? (?&?&?&?&?&?&?&?); congruence
    | split_cases (@respects) ].

Ltac keeps_tac :=
  repeat first
    [ apply keeps_ret | apply keeps_throw | apply keeps_liftR
    | apply keeps_request | apply keeps_cacheResult | apply keeps_gets
    | apply keeps_bind; [ | intros ? ]
    | apply keeps_tryCatch; [ | intros ? ]
    | split_cases (@keepsInputs) ].

Ltac readOnly_tac :=
  repeat first
    [ apply readOnly_ret | apply readOnly_throw | apply readOnly_liftR
    | apply readOnly_request | apply readOnly_gets
    | apply readOnly_bind; [ | intros ? ]
    | split_cases (@readOnly) ].

Lemma respects_verifyShop s : respects (verifyShop s).
Proof. unfold verifyShop. respects_tac. Qed.

Lemma respects_fetchOrders s t d : respects (fetchOrdersForDate s t d).
Proof. unfold fetchOrdersForDate. respects_tac. Qed.

Lemma respects_cogsBatches s batches m : respects (cogsBatches s batches m).
Proof.
  revert m. induction batches as [|b rest IH]; intros m; cbn [cogsBatches].
  - apply respects_ret.
  - apply respects_bind; [unfold cogsBatch; respects_tac | intros m'; apply IH].
Qed.

Lemma respects_getDailyFixedCost s : respects (getDailyFixedCost s).
Proof. unfold getDailyFixedCost. respects_tac. Qed.

Lemma respects_queryAdSpend s d : respects (queryAdSpend s d).
Proof. unfold queryAdSpend. respects_tac. Qed.

Lemma respects_calculateProfit data context :
  respects (calculateProfit data context).
Proof.
  unfold calculateProfit.
  destruct (auth context) as [shopDomain|]; [|apply respects_throw].
  apply respects_bind; [respects_tac|intros now].
  destruct (negb _); [apply respects_throw|].
  apply respects_tryCatch; [|intros e; apply respects_throw].
  apply respects_bind; [apply respects_verifyShop|intros [shopData|]];
    [|apply respects_throw].
  apply respects_bind; [apply respects_fetchOrders|intros orders].
  apply respects_bind; [apply respects_cogsBatches|intros cogsMap].
  apply respects_bind; [apply respects_queryAdSpend|intros docs].
  destruct (sumAdSpend docs) as [byPlatform total].
  apply respects_bind; [apply respects_liftR|intros fees].
  apply respects_bind; [apply respects_getDailyFixedCost|intros fixed].
  apply respects_bind; [apply respects_cacheResult|intros _].
  apply respects_ret.
Qed.

Lemma keeps_cogsBatches s batches m : keepsInputs (cogsBatches s batches m).
Proof.
  revert m. induction batches as [|b rest IH]; intros m; cbn [cogsBatches].
  - apply keeps_ret.
  - apply keeps_bind; [unfold cogsBatch; keeps_tac | intros m'; apply IH].
Qed.

Lemma keeps_calculateProfit data context :
  keepsInputs (calculateProfit data context).
Proof.
  unfold calculateProfit.
  destruct (auth context) as [shopDomain|]; [|apply keeps_throw].
  apply keeps_bind; [keeps_tac|intros now].
  destruct (negb _); [apply keeps_throw|].
  apply keeps_tryCatch; [|intros e; apply keeps_throw].
  apply keeps_bind; [unfold verifyShop; keeps_tac|intros [shopData|]];
    [|apply keeps_throw].
  apply keeps_bind; [unfold fetchOrdersForDate; keeps_tac|intros orders].
  apply keeps_bind; [apply keeps_cogsBatches|intros cogsMap].
  apply keeps_bind; [unfold queryAdSpend; keeps_tac|intros docs].
  destruct (sumAdSpend docs) as [byPlatform total].
  apply keeps_bind; [apply keeps_liftR|intros fees].
  apply keeps_bind; [unfold getDailyFixedCost; keeps_tac|intros fixed].
  apply keeps_bind; [apply keeps_cacheResult|intros _].
  apply keeps_ret.
Qed.

Lemma readOnly_cogsBatches s batches m : readOnly (cogsBatches s batches m).
Proof.
  revert m. induction batches as [|b rest IH]; intros m; cbn [cogsBatches].
  - apply readOnly_ret.
  - apply readOnly_bind; [unfold cogsBatch; readOnly_tac | intros m'; apply IH].
Qed.

Lemma readOnly_verifyShop s : readOnly (verifyShop s).
Proof. unfold verifyShop. readOnly_tac. Qed.

Lemma readOnly_fetchOrders s t d : readOnly (fetchOrdersForDate s t d).
Proof. unfold fetchOrdersForDate. readOnly_tac. Qed.

(** Whatever makes the daily computation throw, the store is as it was. *)
Lemma calculateProfit_writesOnSuccess data context :
  writesOnSuccess (calculateProfit data context).
Proof.
  unfold calculateProfit.
  destruct (auth context) as [shopDomain|];
    [|apply writesOnSuccess_readOnly, readOnly_throw].
  apply writesOnSuccess_bind; [apply readOnly_gets|intros now].
  destruct (negb _); [apply writesOnSuccess_readOnly, readOnly_throw|].
  apply writesOnSuccess_tryCatch; [|intros e; apply readOnly_throw].
  apply writesOnSuccess_bind; [apply readOnly_verifyShop|intros [shopData|]];
    [|apply writesOnSuccess_readOnly, readOnly_throw].
  apply writesOnSuccess_bind; [apply readOnly_fetchOrders|intros orders].
  apply writesOnSuccess_bind; [apply readOnly_cogsBatches|intros cogsMap].
  apply writesOnSuccess_bind; [unfold queryAdSpend; readOnly_tac|intros docs].
  destruct (sumAdSpend docs) as [byPlatform total].
  apply writesOnSuccess_bind; [apply readOnly_liftR|intros fees].
  apply writesOnSuccess_bind; [unfold getDailyFixedCost; readOnly_tac|intros fixed].
  apply writesOnSuccess_cache.
Qed.

Lemma keeps_verifyShop s : keepsInputs (verifyShop s).
Proof. unfold verifyShop. keeps_tac. Qed.

Lemma keeps_fetchOrders s t d : keepsInputs (fetchOrdersForDate s t d).
Proof. unfold fetchOrdersForDate. keeps_tac. Qed.

(** C1.  The report of the daily computation is a function of its inputs:
    run in two worlds that hold the same shop, orders, costs, ad spend and
    fixed costs, whatever their stored reports, clocks and logs, it returns
    the same result, every field and every decimal string of it.  So does a
    second run on the world the first run left, with its report stored. *)
Theorem calculateProfit_deterministic data context (w w' : World) :
  sameInputs w w' ->
  fst (calculateProfit data context w) = fst (calculateProfit data context w')
  /\ fst (calculateProfit data context (snd (calculateProfit data context w)))
     = fst (calculateProfit data context w').
Proof.
  intros H.
  destruct (respects_calculateProfit data context w w' H) as [Hfst _].
  split; [exact Hfst|].
  rewrite <- Hfst. symmetry.
  apply respects_calculateProfit, keeps_calculateProfit.
Qed.

Lemma calculateProfit_deterministic_witness :
  fst (calculateProfit Example.march1 Example.caller Example.world)
  = fst (calculateProfit Example.march1 Example.caller Example.worldLater)
  /\ fst (calculateProfit Example.march1 Example.caller
            (snd (calculateProfit Example.march1 Example.caller Example.world)))
     = fst (calculateProfit Example.march1 Example.caller Example.worldLater).
Proof.
  apply (calculateProfit_deterministic Example.march1 Example.caller
           Example.world Example.worldLater).
  repeat split.
Defined.

(** C4.  When fetching the orders fails, or fetching the COGS lookup fails,
    the daily computation throws an "internal" error that carries the
    message of the failure, and the store is left as it was. *)
Theorem fetch_failure_aborts data context (w : World) shopDomain shopData e :
  auth context = Some shopDomain ->
  Validators.isValidDate (targetDateOf data w) = true ->
  fst (verifyShop shopDomain w) = Ok (Some shopData) ->
  (fst (fetchOrdersForDate shopDomain (shopToken shopData) (targetDateOf data w) w)
   = Throw e
   \/ exists orders,
        fst (fetchOrdersForDate shopDomain (shopToken shopData) (targetDateOf data w) w)
        = Ok orders
        /\ fst (getCogsMap shopDomain
                  (uniqueTruthy []
                     (List.map Orders.variantId (Orders.extractLineItems orders))) w)
           = Throw e) ->
  fst (calculateProfit data context w)
  = Throw (HttpsError "internal" ("Calculation failed: " ++ exnMessage e))
  /\ db (snd (calculateProfit data context w)) = db w.
Proof.
  intros Hauth Hdate Hshop Hfail.
  assert (Hres : fst (calculateProfit data context w)
                 = Throw (HttpsError "internal"
                            ("Calculation failed: " ++ exnMessage e))).
  { unfold calculateProfit. rewrite Hauth. rewrite bind_run. cbn [gets].
    fold (targetDateOf data w). rewrite Hdate. cbn [negb].
    unfold tryCatch. rewrite bind_run.
    pose proof (keeps_verifyShop shopDomain w) as K1.
    destruct (verifyShop shopDomain w) as [r1 w1]. cbn in Hshop, K1. subst r1.
    rewrite bind_run.
    set (date := targetDateOf data w) in *.
    pose proof (respects_fetchOrders shopDomain (shopToken shopData) date w w1 K1)
      as [R2 _].
    pose proof (keeps_fetchOrders shopDomain (shopToken shopData) date w1) as K2.
    destruct (fetchOrdersForDate shopDomain (shopToken shopData) date w1)
      as [r2 w2]. cbn in R2, K2.
    destruct Hfail as [Hf | (orders & Hf & Hc)]; rewrite Hf in R2; subst r2.
    - reflexivity.
    - rewrite bind_run.
      pose proof (respects_cogsBatches shopDomain
                    (batchesOf (uniqueTruthy []
                       (List.map Orders.variantId (Orders.extractLineItems orders))))
                    ∅ w w2 (sameInputs_trans _ _ _ K1 K2)) as [R3 _].
      fold (getCogsMap shopDomain
              (uniqueTruthy []
                 (List.map Orders.variantId (Orders.extractLineItems orders)))) in R3.
      rewrite Hc in R3.
      destruct (getCogsMap shopDomain _ w2) as [r3 w3]. cbn in R3. subst r3.
      reflexivity. }
  split; [exact Hres|].
  apply (calculateProfit_writesOnSuccess data context w _ Hres).
Qed.

Lemma fetch_failure_aborts_witness :
  fst (calculateProfit Example.march1 Example.caller Example.worldOrdersDown)
  = Throw (HttpsError "internal"
             "Calculation failed: Failed to fetch orders: Request failed with status code 503")
  /\ db (snd (calculateProfit Example.march1 Example.caller Example.worldOrdersDown))
     = db Example.worldOrdersDown.
Proof.
  apply (fetch_failure_aborts Example.march1 Example.caller Example.worldOrdersDown
           Example.shopName
           {| shop := Example.shopName; shopToken := "3f9a";
              shopDataCurrency := Some "BRL" |}
           (Error "Failed to fetch orders: Request failed with status code 503")).
  - reflexivity.
  - reflexivity.
  - vm_compute. reflexivity.
  - left. reflexivity.
Defined.

End DailyFacts.

(** ** The range roll-up *)

Section RangeFacts.
Import JS Store Collaborators Calculator Spec.

Lemma leb_trans (a b c : string) :
  String.leb a b = true -> String.leb b c = true -> String.leb a c = true.
Proof.
  intros H1 H2. apply Is_true_true.
  transitivity b; apply Is_true_true; assumption.
Qed.

Lemma ltb_not_leb (a b : string) : String.ltb a b = true -> String.leb b a = false.
Proof.
  unfold String.ltb, String.leb. rewrite (String.compare_antisym a b).
  destruct (String.compare b a); cbn; congruence.
Qed.

(** No date lies in an inverted window. *)
Lemma filter_inverted startDate endDate (docs : list (string * DayDoc)) :
  String.ltb endDate startDate = true ->
  List.filter (inRange startDate endDate) docs = [].
Proof.
  intros Hinv. induction docs as [|d rest IH]; cbn; [reflexivity|].
  unfold inRange at 1.
  destruct (String.leb startDate _) eqn:E1; cbn; [|exact IH].
  destruct (String.leb _ endDate) eqn:E2; cbn; [|exact IH].
  pose proof (ltb_not_leb _ _ Hinv) as F.
  rewrite (leb_trans _ _ _ E1 E2) in F. discriminate.
Qed.

(** C9, as the source has it.  A range whose dates are well formed but
    inverted is not rejected: the store is queried once, and unless the
    store rejects the query the answer is the empty summary: no days and
    totals of zero. *)
Theorem inverted_range_is_queried data context (w : World)
    shopDomain startDate endDate :
  auth context = Some shopDomain ->
  reqStart data = Some startDate ->
  reqEnd data = Some endDate ->
  Validators.isValidDate startDate = true ->
  Validators.isValidDate endDate = true ->
  String.ltb endDate startDate = true ->
  log (snd (calculateProfitRange data context w))
  = (log w ++ [QueryDays shopDomain startDate endDate])%list
  /\ fst (calculateProfitRange data context w)
     = match dbFault w (QueryDays shopDomain startDate endDate) with
       | Some msg => Throw (HttpsError "internal" msg)
       | None =>
           Ok {| startDate := startDate; endDate := endDate;
                 daysCount := 0; days := [];
                 totals :=
                   {| RangeTotals.revenue := "0.00"; RangeTotals.cogs := "0.00";
                      RangeTotals.adSpend := "0.00"; RangeTotals.fees := "0.00";
                      RangeTotals.fixedCosts := "0.00";
                      RangeTotals.netProfit := "0.00";
                      RangeTotals.profitMargin := "0.0";
                      RangeTotals.orderCount := 0;
                      RangeTotals.isProfitable := true |} |}
       end.
Proof.
  intros Hauth Hs He Vs Ve Hinv.
  unfold calculateProfitRange. rewrite Hauth, Hs, He. cbn [Validators.isValidDateOpt].
  rewrite Vs, Ve. cbn [negb orb].
  change (default "" (Some startDate)) with startDate.
  change (default "" (Some endDate)) with endDate.
  unfold tryCatch, queryDays. rewrite !bind_run. unfold request.
  destruct (dbFault w (QueryDays shopDomain startDate endDate)) as [msg|].
  - split; reflexivity.
  - cbn [gets fst snd]. rewrite bind_run. cbn [gets mret M_ret fst snd].
    rewrite (filter_inverted _ _ _ Hinv). split; reflexivity.
Qed.

Lemma inverted_range_is_queried_witness :
  log (snd (calculateProfitRange Example.inverted Example.caller Example.worldTwoDays))
  = [QueryDays Example.shopName "2024-03-10" "2024-03-01"]
  /\ daysCount <$> fst (calculateProfitRange Example.inverted Example.caller
                          Example.worldTwoDays)
     = Ok 0%nat.
Proof.
  destruct (inverted_range_is_queried Example.inverted Example.caller
              Example.worldTwoDays Example.shopName "2024-03-10" "2024-03-01")
    as [Hlog Hres]; try reflexivity.
  split; [exact Hlog | rewrite Hres; reflexivity].
Defined.

(** C9, as the specification has it, fails on the range from 10 March to
    1 March 2024: both dates are well formed and the range is inverted, yet
    the request is answered, not rejected, after a query of the store. *)
Lemma inverted_range_not_rejected :
  Validators.isValidDate "2024-03-10" = true
  /\ Validators.isValidDate "2024-03-01" = true
  /\ String.ltb "2024-03-01" "2024-03-10" = true
  /\ (fun s => (daysCount s, RangeTotals.revenue (totals s)))
       <$> fst (calculateProfitRange Example.inverted Example.caller
                  Example.worldTwoDays)
     = Ok (0%nat, "0.00")
  /\ log (snd (calculateProfitRange Example.inverted Example.caller
                 Example.worldTwoDays))
     = [QueryDays Example.shopName "2024-03-10" "2024-03-01"].
Proof. repeat split; vm_compute; reflexivity. Qed.

(** The sums of the roll-up over two days. *)
Lemma aggregate_two startDate endDate (d1 d2 : DayDoc) (r1 r2 n1 n2 : number) :
  parseFloat (revenue (report d1)) = r1 ->
  parseFloat (revenue (report d2)) = r2 ->
  parseFloat (netProfit (report d1)) = n1 ->
  parseFloat (netProfit (report d2)) = n2 ->
  let s := aggregate startDate endDate [d1; d2] in
  let revenue := (0 + orZero r1 + orZero r2)%float in
  let netProfit := (0 + orZero n1 + orZero n2)%float in
  daysCount s = 2%nat
  /\ RangeTotals.revenue (totals s) = toFixed 2 revenue
  /\ RangeTotals.netProfit (totals s) = toFixed 2 netProfit
  /\ RangeTotals.profitMargin (totals s)
     = toFixed 1 (if gt revenue 0 then netProfit / revenue * 100 else 0)%float.
Proof.
  intros H1 H2 H3 H4 s rev net. subst s rev net.
  unfold aggregate. cbn [fold_left rangeStep accRevenue accNetProfit totals
    daysCount RangeTotals.revenue RangeTotals.netProfit RangeTotals.profitMargin
    List.length].
  rewrite H1, H2, H3, H4. repeat split.
Qed.

(** C3, as the source has it.  When the store holds exactly two daily
    reports of the shop whose date lies inside the requested window, with
    revenue 100 and 200 and net profit 10 and -5, the roll-up returns
    revenue "300.00", net profit "5.00", a profit margin recomputed from
    these sums and written with one fraction digit, "1.7", and a count of 2
    days, however long the window is. *)
Theorem range_of_two_days data context (w : World)
    shopDomain startDate endDate (id1 id2 : string) (d1 d2 : DayDoc) :
  auth context = Some shopDomain ->
  reqStart data = Some startDate ->
  reqEnd data = Some endDate ->
  Validators.isValidDate startDate = true ->
  Validators.isValidDate endDate = true ->
  dbFault w (QueryDays shopDomain startDate endDate) = None ->
  Permutation (Facts.storedInWindow (db w) shopDomain startDate endDate)
    [(id1, d1); (id2, d2)] ->
  parseFloat (revenue (report d1)) = 100%float ->
  parseFloat (netProfit (report d1)) = 10%float ->
  parseFloat (revenue (report d2)) = 200%float ->
  parseFloat (netProfit (report d2)) = (-5)%float ->
  exists summary,
    fst (calculateProfitRange data context w) = Ok summary
    /\ daysCount summary = 2%nat
    /\ RangeTotals.revenue (totals summary) = "300.00"
    /\ RangeTotals.netProfit (totals summary) = "5.00"
    /\ RangeTotals.profitMargin (totals summary) = "1.7".
Proof.
  intros Hauth Hs He Vs Ve Hdb Hstored R1 N1 R2 N2.
  unfold Facts.storedInWindow in Hstored.
  assert (Hrun : fst (calculateProfitRange data context w)
                 = Ok (aggregate startDate endDate
                         (List.map snd
                            (fold_right insertDay []
                               (List.filter (inRange startDate endDate)
                                  (map_to_list (daysOf (db w) shopDomain))))))).
  { unfold calculateProfitRange. rewrite Hauth, Hs, He.
    cbn [Validators.isValidDateOpt]. rewrite Vs, Ve. cbn [negb orb].
    change (default "" (Some startDate)) with startDate.
    change (default "" (Some endDate)) with endDate.
    unfold tryCatch, queryDays. rewrite !bind_run. unfold request. rewrite Hdb.
    cbn [gets fst snd]. rewrite bind_run. reflexivity. }
  rewrite Hrun. eexists. split; [reflexivity|].
  assert (Hsorted :
            List.map snd
              (fold_right insertDay []
                 (List.filter (inRange startDate endDate)
                    (map_to_list (daysOf (db w) shopDomain))))
            = [d1; d2]
            \/ List.map snd
                 (fold_right insertDay []
                    (List.filter (inRange startDate endDate)
                       (map_to_list (daysOf (db w) shopDomain))))
               = [d2; d1]).
  { apply Permutation_sym, Permutation_length_2_inv in Hstored.
    destruct Hstored as [-> | ->]; cbn [fold_right insertDay];
      destruct (dayLe _ _); cbn; auto. }
  destruct Hsorted as [-> | ->].
  - destruct (aggregate_two startDate endDate d1 d2 _ _ _ _ R1 R2 N1 N2)
      as (Hc & Hr & Hn & Hm).
    rewrite Hc, Hr, Hn, Hm. repeat split; vm_compute; reflexivity.
  - destruct (aggregate_two startDate endDate d2 d1 _ _ _ _ R2 R1 N2 N1)
      as (Hc & Hr & Hn & Hm).
    rewrite Hc, Hr, Hn, Hm. repeat split; vm_compute; reflexivity.
Qed.

Lemma range_of_two_days_witness :
  List.length (map_to_list (daysOf (db Example.worldFourDays) Example.shopName))
  = 4%nat
  /\ exists summary,
       fst (calculateProfitRange Example.threeDays Example.caller
              Example.worldFourDays)
       = Ok summary
       /\ daysCount summary = 2%nat
       /\ RangeTotals.revenue (totals summary) = "300.00"
       /\ RangeTotals.netProfit (totals summary) = "5.00"
       /\ RangeTotals.profitMargin (totals summary) = "1.7".
Proof.
  split; [vm_compute; reflexivity|].
  apply (range_of_two_days Example.threeDays Example.caller Example.worldFourDays
           Example.shopName "2024-03-01" "2024-03-03"
           "2024-03-01" "2024-03-03" Example.day1 Example.day3);
    try (vm_compute; reflexivity).
  vm_compute. first [apply Permutation_refl | apply perm_swap].
Defined.

(** C3, as the specification has it, fails on the margin: over the reports
    of 1 and 3 March the roll-up of the three days from 1 to 3 March writes
    the margin as "1.7", with one fraction digit, where the specification
    has "1.67". *)
Lemma range_margin_one_digit :
  (fun s => (daysCount s, RangeTotals.revenue (totals s),
             RangeTotals.netProfit (totals s), RangeTotals.profitMargin (totals s)))
    <$> fst (calculateProfitRange Example.threeDays Example.caller
               Example.worldTwoDays)
  = Ok (2%nat, "300.00", "5.00", "1.7")
  /\ ("1.7" =? "1.67") = false.
Proof. split; vm_compute; reflexivity. Qed.

End RangeFacts.

(** ** Alerts *)

Section AlertFacts.
Import JS Store Collaborators Calculator Spec.

Lemma no_orders_revenue :
  parseFloat (Orders.totalRevenue (Orders.calculateOrderMetrics [])) = 0%float.
Proof. vm_compute. reflexivity. Qed.

(** C2 on a day without orders.  Whatever the costs of the day, the report
    carries no alert at all, while its net profit is what the costs make
    it.  In the example shop, 2 March has no order and a fixed cost of 10.00
    a day: the report says net profit "-10.00", not profitable, and no
    alert. *)
Theorem zero_revenue_never_alerts :
  (forall targetDate shopData c byPlatform totalAdSpend fees dailyFixedCosts,
      alerts (buildReport targetDate shopData [] (Orders.calculateOrderMetrics [])
                [] c byPlatform totalAdSpend fees dailyFixedCosts)
      = [])
  /\ (fun r => (revenue r, fixedCosts r, netProfit r, isProfitable r, alerts r))
       <$> fst (calculateProfit Example.march2 Example.caller Example.world)
     = Ok ("0.00", "10.00", "-10.00", false, []).
Proof.
  split; [|vm_compute; reflexivity].
  intros. unfold buildReport. cbn [alerts].
  rewrite no_orders_revenue.
  unfold Alerts.generateAlerts, Alerts.coverageAlert, Alerts.negativeProfitAlert,
    Alerts.adSpendAlert, Alerts.lowMarginAlert.
  cbn [Alerts.lineItems Alerts.profitMargin Alerts.revenue List.length].
  reflexivity.
Qed.

(** The error alert is raised on the margin, not on the net profit. *)
Lemma losing_money_on_margin (metrics : Alerts.Metrics) :
  existsb (fun a => Alerts.type a =? "error") (Alerts.generateAlerts metrics)
  = lt (Alerts.profitMargin metrics) 0.
Proof.
  unfold Alerts.generateAlerts, Alerts.coverageAlert, Alerts.negativeProfitAlert,
    Alerts.adSpendAlert, Alerts.lowMarginAlert.
  rewrite !existsb_app.
  destruct (0 <? Alerts.lineItems metrics)%nat;
    [destruct (lt (_ * 100) 50)|];
    (destruct (lt (Alerts.profitMargin metrics) 0);
     (destruct (gt (Alerts.revenue metrics) 0);
      [destruct (gt (_ * 100) 30)|]);
     destruct (gt (Alerts.profitMargin metrics) 0 && _); reflexivity).
Qed.

End AlertFacts.

(** * Further properties *)

(** ** Alerts, one by one *)

Section AlertShape.
Import JS Facts.

(** A number is not both below and above zero. *)
Lemma lt_gt_exclusive (x : number) : lt x 0 = true -> gt x 0 = false.
Proof.
  unfold lt, gt. rewrite !FloatAxioms.ltb_spec.
  change (Prim2SF 0) with (S754_zero false).
  destruct (Prim2SF x) as [s | s | | s m e]; try destruct s; cbn; congruence.
Qed.

(** X1.  The alerts come in a fixed order: the warning about COGS coverage,
    the error of a negative margin, the warning about ad spend, the notice
    of a low margin; each occurs at most once.  Every alert is told by its
    [action], which is one of four fixed texts, and carries the type that
    goes with it.  There are never more than three alerts, since the error
    (margin below 0) and the notice (margin above 0 and below 10) exclude
    each other. *)
Theorem generateAlerts_shape (metrics : Alerts.Metrics) :
  sublist
    (List.map (fun a => (Alerts.type a, Alerts.action a))
       (Alerts.generateAlerts metrics))
    [("warning", "Add product costs for accurate profit calculation");
     ("error", "Review your costs and pricing strategy");
     ("warning", "Consider optimizing your ad campaigns");
     ("info", "Consider increasing prices or reducing costs")]
  /\ (List.length (Alerts.generateAlerts metrics) <= 3)%nat
  /\ existsb isErrorAlert (Alerts.generateAlerts metrics)
     && existsb isInfoAlert (Alerts.generateAlerts metrics) = false
  /\ existsb isErrorAlert (Alerts.generateAlerts metrics)
     = lt (Alerts.profitMargin metrics) 0
  /\ existsb isInfoAlert (Alerts.generateAlerts metrics)
     = gt (Alerts.profitMargin metrics) 0 && lt (Alerts.profitMargin metrics) 10.
Proof.
  unfold Alerts.generateAlerts, Alerts.coverageAlert, Alerts.negativeProfitAlert,
    Alerts.adSpendAlert, Alerts.lowMarginAlert.
  pose proof (lt_gt_exclusive (Alerts.profitMargin metrics)) as Hex.
  destruct (lt (Alerts.profitMargin metrics) 0) eqn:Hneg;
    [rewrite (Hex eq_refl)|]; clear Hex;
    (destruct (0 <? Alerts.lineItems metrics)%nat; [destruct (lt (_ * 100) 50)|]);
    (destruct (gt (Alerts.revenue metrics) 0); [destruct (gt (_ * 100) 30)|]);
    try destruct (gt (Alerts.profitMargin metrics) 0);
    try destruct (lt (Alerts.profitMargin metrics) 10);
    cbn; (split; [|split; [lia | repeat split]]);
    repeat first [apply sublist_nil | apply sublist_skip | apply sublist_cons].
Qed.

End AlertShape.

(** ** Gateways, once more *)

Section GatewayMore.
Import JS GatewayFees Spec Facts.

(** X2.  Normalization looks at the lower-cased letters of a name only:
    two non-empty names that spell the same letters, whatever their case,
    spaces, digits and punctuation, normalize alike. *)
Theorem normalize_same_letters (g1 g2 : string) :
  g1 <> "" -> g2 <> "" ->
  stripNonLetters (toLowerCase g1) = stripNonLetters (toLowerCase g2) ->
  normalizeGatewayName (VString g1) = normalizeGatewayName (VString g2).
Proof.
  intros H1 H2 E.
  rewrite (normalize_string g1 H1), (normalize_string g2 H2), E. reflexivity.
Qed.

Lemma normalize_same_letters_witness :
  normalizeGatewayName (VString "PayPal-Express 2")
  = normalizeGatewayName (VString "paypal_express").
Proof.
  apply (normalize_same_letters "PayPal-Express 2" "paypal_express").
  - discriminate.
  - discriminate.
  - reflexivity.
Defined.

(** X3.  On a name that is a string or absent, normalization never throws
    and returns one of six values: a canonical name, "unknown", or the
    inherited constructor. *)
Theorem normalize_range (name : option string) :
  exists v,
    normalizeGatewayName (nameValue name) = Ok v
    /\ In v [VString "shopify_payments"; VString "stripe"; VString "paypal";
             VString "mercadopago"; VString "unknown"; VBuiltin "Object"].
Proof.
  destruct (String.eqb_spec (default "" name) "") as [E|E].
  - exists (VString "unknown"). split; [apply normalize_falsy, E | cbn; tauto].
  - destruct name as [g|]; [|contradiction].
    change (default "" (Some g)) with g in E. cbn [nameValue].
    rewrite (normalize_string g E). eexists. split; [reflexivity|].
    set (lower := stripNonLetters (toLowerCase g)).
    unfold mappings. cbn [ownProperty].
    repeat match goal with
    | |- context [String.eqb ?k lower] =>
        destruct (String.eqb_spec k lower) as [_|_]; [cbn; tauto|]
    end.
    destruct (lower =? "constructor"); cbn; tauto.
Qed.

End GatewayMore.

(** ** The fee breakdown *)

Section FeeBreakdown.
Import JS GatewayFees Spec Facts.

Lemma orderGateway_name (order : Orders.Order) :
  orderGateway order = VString (gatewayName order) /\ gatewayName order <> "".
Proof.
  unfold orderGateway, gatewayName.
  destruct (Orders.gateway order) as [g|]; cbn [truthyValue].
  - destruct (String.eqb_spec g "") as [->|Hg]; cbn [negb].
    + destruct (Orders.payment_gateway_names order) as [[|n ns]|];
        cbn [truthyValue]; try (split; [reflexivity | discriminate]).
      destruct (String.eqb_spec n "") as [->|Hn]; cbn [negb];
        (split; [reflexivity | first [discriminate | assumption]]).
    + split; [reflexivity | assumption].
  - destruct (Orders.payment_gateway_names order) as [[|n ns]|];
      cbn [truthyValue]; try (split; [reflexivity | discriminate]).
    destruct (String.eqb_spec n "") as [->|Hn]; cbn [negb];
      (split; [reflexivity | first [discriminate | assumption]]).
Qed.

Lemma constructor_not_alias : ownProperty mappings "constructor" = None.
Proof. reflexivity. Qed.

Lemma normalize_bucket (order : Orders.Order) :
  exists v,
    normalizeGatewayName (orderGateway order) = Ok v
    /\ propertyKey v = bucketOf order.
Proof.
  destruct (orderGateway_name order) as [-> Hne]. unfold bucketOf.
  destruct (String.eqb_spec (stripNonLetters (toLowerCase (gatewayName order)))
              "constructor") as [E|E].
  - rewrite (normalize_string _ Hne), E, constructor_not_alias.
    eexists. split; reflexivity.
  - rewrite (normalize_canonical _ Hne E). eexists. split; reflexivity.
Qed.

Lemma fee_of_order (order : Orders.Order) :
  calculateOrderFee (amountOf order) (orderGateway order) = Ok (feeOf order).
Proof.
  destruct (orderGateway_name order) as [-> _].
  unfold calculateOrderFee.
  pose proof (getGatewayFees_model (Some (gatewayName order))) as H.
  cbn [nameValue] in H. rewrite H. reflexivity.
Qed.

Lemma feesStep_turn acc order : feesStep acc order = Ok (feesTurn acc order).
Proof.
  destruct acc as [bd total]. unfold feesStep.
  fold (amountOf order). rewrite fee_of_order. cbn [mbind result_bind].
  destruct (normalize_bucket order) as (v & -> & Hk). cbn [mbind result_bind].
  rewrite Hk. reflexivity.
Qed.

Lemma feesLoop_turns orders acc :
  feesLoop orders acc = Ok (fold_left feesTurn orders acc).
Proof.
  revert acc. induction orders as [|o rest IH]; intros acc; cbn [feesLoop fold_left].
  - reflexivity.
  - rewrite feesStep_turn. cbn [mbind result_bind]. apply IH.
Qed.

Lemma ownProperty_set {A} (obj : list (string * A)) k v k' :
  ownProperty (setProperty obj k v) k'
  = if k =? k' then Some v else ownProperty obj k'.
Proof.
  induction obj as [|[k0 v0] rest IH]; cbn.
  - destruct (k =? k'); reflexivity.
  - destruct (String.eqb_spec k0 k) as [->|Hne]; cbn.
    + destruct (k =? k'); reflexivity.
    + rewrite IH. destruct (String.eqb_spec k0 k') as [->|_]; [|reflexivity].
      apply String.eqb_neq in Hne. rewrite String.eqb_sym, Hne. reflexivity.
Qed.

Lemma ownProperty_map {A B} (f : A -> B) (obj : list (string * A)) k :
  ownProperty (List.map (fun '(g, e) => (g, f e)) obj) k
  = f <$> ownProperty obj k.
Proof.
  induction obj as [|[k0 v0] rest IH]; cbn; [reflexivity|].
  destruct (k0 =? k); [reflexivity | exact IH].
Qed.

Lemma turns_bucket orders (acc : Breakdown * number) key :
  ownProperty (fst (fold_left feesTurn orders acc)) key
  = fold_left (addOrder key) orders (ownProperty (fst acc) key).
Proof.
  revert acc. induction orders as [|o rest IH]; intros acc; cbn [fold_left];
    [reflexivity|].
  rewrite IH. f_equal. unfold feesTurn, addOrder. cbn [fst].
  rewrite ownProperty_set.
  destruct (String.eqb_spec (bucketOf o) key) as [->|_]; [|reflexivity].
  destruct (ownProperty (fst acc) key); reflexivity.
Qed.

Lemma turns_total orders (acc : Breakdown * number) :
  snd (fold_left feesTurn orders acc)
  = fold_left (fun t o => (t + feeOf o)%float) orders (snd acc).
Proof.
  revert acc. induction orders as [|o rest IH]; intros acc; cbn [fold_left];
    [reflexivity|].
  rewrite IH. reflexivity.
Qed.

Lemma calculateTotalFees_turns (orders : list Orders.Order) :
  calculateTotalFees orders
  = Ok {| totalFees :=
            round2 (snd (fold_left feesTurn orders ([], 0%float)));
          breakdown :=
            List.map (fun '(g, e) => (g, roundStats e))
              (fst (fold_left feesTurn orders ([], 0%float))) |}.
Proof.
  unfold calculateTotalFees. rewrite feesLoop_turns. cbn [mbind result_bind].
  destruct (fold_left feesTurn orders ([], 0%float)) as [bd total].
  reflexivity.
Qed.

Lemma breakdown_bucket (orders : list Orders.Order) key :
  ownProperty
    (List.map (fun '(g, e) => (g, roundStats e))
       (fst (fold_left feesTurn orders ([], 0%float)))) key
  = roundStats <$> fold_left (addOrder key) orders None.
Proof.
  rewrite ownProperty_map, (turns_bucket orders ([], 0%float) key). reflexivity.
Qed.

(** X4.  [calculateTotalFees] never throws.  Its total is the sum, in order
    and rounded once more, of the rounded fees of the orders; and under
    every key the breakdown holds what the orders of that gateway add up
    to: their number, the sum of their amounts and the sum of their fees,
    the two sums rounded at the end. *)
Theorem calculateTotalFees_sums (orders : list Orders.Order) :
  exists t,
    calculateTotalFees orders = Ok t
    /\ totalFees t
       = round2 (fold_left (fun acc o => (acc + feeOf o)%float) orders 0%float)
    /\ forall key,
         ownProperty (breakdown t) key
         = roundStats <$> fold_left (addOrder key) orders None.
Proof.
  eexists. split; [apply calculateTotalFees_turns|]. cbn [totalFees breakdown].
  split.
  - rewrite (turns_total orders ([], 0%float)). reflexivity.
  - intros key. apply breakdown_bucket.
Qed.

Lemma sumCounts_set (bd : Breakdown) key e :
  List.NoDup (List.map fst bd) ->
  sumCounts (setProperty bd key e) + default 0 (count <$> ownProperty bd key)
  = sumCounts bd + count e
  /\ List.NoDup (List.map fst (setProperty bd key e))
  /\ forall k, In k (List.map fst (setProperty bd key e))
               <-> k = key \/ In k (List.map fst bd).
Proof.
  induction bd as [|[k0 e0] rest IH]; intros Hnd; cbn.
  - split; [lia|]. split.
    + constructor; [intros [] | constructor].
    + intros k. split; intros [H|[]]; auto.
  - inversion Hnd as [|? ? Hnotin Hnd']; subst.
    destruct (String.eqb_spec k0 key) as [->|Hne]; cbn.
    + split; [lia|]. split.
      * constructor; assumption.
      * intros k. split; [intros [H|H]; auto | intros [H|[H|H]]; auto].
    + destruct (IH Hnd') as (Hs & Hn & Hk).
      split; [lia|]. split.
      * constructor; [|exact Hn]. rewrite Hk. intros [H|H]; [auto | contradiction].
      * intros k. rewrite Hk. split; [intros [H|[H|H]]; auto | intros [H|[H|H]]; auto].
Qed.

Lemma bucket_names (order : Orders.Order) :
  In (bucketOf order)
    ["shopify_payments"; "stripe"; "paypal"; "mercadopago";
     "function Object() { [native code] }"].
Proof.
  unfold bucketOf.
  destruct (_ =? "constructor"); [cbn; tauto|].
  destruct (canonicalOf (gatewayName order)); cbn; tauto.
Qed.

Lemma turns_counts orders (acc : Breakdown * number) :
  List.NoDup (List.map fst (fst acc)) ->
  let bd := fst (fold_left feesTurn orders acc) in
  sumCounts bd = sumCounts (fst acc) + List.length orders
  /\ List.NoDup (List.map fst bd)
  /\ forall k, In k (List.map fst bd)
               -> In k (List.map fst (fst acc)) \/ exists o, In o orders /\ k = bucketOf o.
Proof.
  revert acc. induction orders as [|o rest IH]; intros acc Hnd; cbn [fold_left].
  - cbn. repeat split; [lia | assumption | auto].
  - set (entry := match ownProperty (fst acc) (bucketOf o) with
                  | Some e => e
                  | None => {| count := 0; orderTotal := 0; fees := 0 |}
                  end).
    destruct (sumCounts_set (fst acc) (bucketOf o)
                {| count := S (count entry);
                   orderTotal := (orderTotal entry + amountOf o)%float;
                   fees := (fees entry + feeOf o)%float |} Hnd)
      as (Hs & Hn & Hk).
    destruct (IH (feesTurn acc o) Hn) as (IHs & IHn & IHk).
    cbn zeta in IHs, IHn, IHk |- *.
    split; [|split; [exact IHn|]].
    + rewrite IHs. unfold feesTurn at 1. cbn [fst]. fold entry.
      cbn [count] in Hs. cbn [List.length].
      assert (Hm : sumCounts (fst acc) >= default 0 (count <$> ownProperty (fst acc) (bucketOf o))
                   /\ default 0 (count <$> ownProperty (fst acc) (bucketOf o)) = count entry).
      { subst entry. clear. induction (fst acc) as [|[k0 e0] l IHl]; cbn; [lia|].
        destruct (k0 =? bucketOf o); cbn in *; [lia|].
        destruct IHl as [H1 H2]. split; [lia | exact H2]. }
      lia.
    + intros k Hin. destruct (IHk k Hin) as [H|(o' & Ho' & ->)].
      * unfold feesTurn in H. cbn [fst] in H. fold entry in H.
        apply Hk in H. destruct H as [->|H]; [right; exists o; cbn; auto | auto].
      * right. exists o'. cbn. auto.
Qed.

(** X5.  Every order is counted once: the counts of the breakdown add up to
    the number of orders.  The keys of the breakdown are distinct, and each is
    a canonical gateway or the text of the inherited constructor; there is
    never an "unknown" bucket, since an order without a gateway is charged
    under "shopify_payments". *)
Theorem calculateTotalFees_counts (orders : list Orders.Order) :
  exists t,
    calculateTotalFees orders = Ok t
    /\ sumCounts (breakdown t) = List.length orders
    /\ List.NoDup (List.map fst (breakdown t))
    /\ Forall (fun key =>
                 In key ["shopify_payments"; "stripe"; "paypal"; "mercadopago";
                         "function Object() { [native code] }"])
         (List.map fst (breakdown t))
    /\ ownProperty (breakdown t) "unknown" = None.
Proof.
  eexists. split; [apply calculateTotalFees_turns|]. cbn [breakdown].
  destruct (turns_counts orders ([], 0%float)) as (Hs & Hn & Hk);
    [constructor|].
  cbn zeta in Hs, Hn, Hk. cbn [fst sumCounts] in Hs, Hk.
  pose proof (breakdown_bucket orders "unknown") as Hb.
  set (bd := fst (fold_left feesTurn orders ([], 0%float))) in *.
  assert (Hkeys : List.map fst (List.map (fun '(g, e) => (g, roundStats e)) bd)
                  = List.map fst bd).
  { clear. induction bd as [|[k e] l IH]; cbn; [reflexivity | f_equal; exact IH]. }
  assert (Hcnt : sumCounts (List.map (fun '(g, e) => (g, roundStats e)) bd)
                 = sumCounts bd).
  { clear. induction bd as [|[k e] l IH]; cbn; [reflexivity | rewrite IH; reflexivity]. }
  rewrite Hkeys, Hcnt. repeat split.
  - exact Hs.
  - exact Hn.
  - apply List.Forall_forall. intros k Hin.
    destruct (Hk k Hin) as [[]|(o & _ & ->)]. apply bucket_names.
  - rewrite Hb. clear. induction orders as [|o rest IH] using rev_ind;
      [reflexivity|].
    rewrite fold_left_app. cbn [fold_left]. unfold addOrder at 1.
    destruct (String.eqb_spec (bucketOf o) "unknown") as [Hu|_].
    + pose proof (bucket_names o) as Hin. rewrite Hu in Hin. cbn in Hin.
      repeat destruct Hin as [Hin|Hin]; try discriminate; contradiction.
    + exact IH.
Qed.

End FeeBreakdown.

(** ** Orders and their line items *)

Section OrderFacts.
Import JS Spec Facts.

Lemma countItems_extracted (order : Orders.Order) (start : number) :
  Orders.countItems (Orders.lineItemsOf order) start
  = sumQuantities (List.map (Orders.extractItem order) (Orders.lineItemsOf order))
      start.
Proof.
  unfold Orders.countItems, sumQuantities.
  generalize (Orders.lineItemsOf order) as items. intros items.
  revert start. induction items as [|i rest IH]; intros start; cbn;
    [reflexivity | apply IH].
Qed.

Lemma sumItems_extracted (orders : list Orders.Order) (acc : Orders.Sums) :
  Orders.sumItems (fold_left Orders.metricsStep orders acc)
  = sumQuantities (Orders.extractLineItems orders) (Orders.sumItems acc).
Proof.
  revert acc. induction orders as [|o rest IH]; intros acc; cbn [fold_left];
    [reflexivity|].
  rewrite IH. unfold Orders.extractLineItems. cbn [flat_map].
  unfold sumQuantities at 2. rewrite fold_left_app.
  fold (sumQuantities (List.map (Orders.extractItem o) (Orders.lineItemsOf o))
          (Orders.sumItems acc)).
  rewrite <- countItems_extracted. reflexivity.
Qed.

(** X6.  The flat list holds one record per line item, in the order of the
    orders and of their items, each under the id of its order; and the
    [itemsSold] of the metrics is the sum of the quantities of these very
    records, added in that order. *)
Theorem line_items_accounted (orders : list Orders.Order) :
  List.length (Orders.extractLineItems orders)
  = list_sum (List.map (fun o => List.length (Orders.lineItemsOf o)) orders)
  /\ Orders.extractLineItems orders
     = List.concat
         (List.map (fun o => List.map (Orders.extractItem o) (Orders.lineItemsOf o))
            orders)
  /\ Orders.itemsSold (Orders.calculateOrderMetrics orders)
     = sumQuantities (Orders.extractLineItems orders) 0%float
  /\ Orders.orderCount (Orders.calculateOrderMetrics orders) = List.length orders.
Proof.
  repeat split.
  - unfold Orders.extractLineItems.
    induction orders as [|o rest IH]; cbn; [reflexivity|].
    rewrite List.length_app, List.length_map, IH. reflexivity.
  - unfold Orders.extractLineItems. apply flat_map_concat_map.
  - unfold Orders.calculateOrderMetrics. cbn [Orders.itemsSold].
    apply (sumItems_extracted orders).
Qed.

End OrderFacts.

(** ** The COGS lookup, batch by batch *)

Section CogsLookup.
Import JS Store Collaborators Calculator Spec Facts.

Lemma existsb_eqb_In (n : N) (seen : list N) :
  existsb (N.eqb n) seen = true <-> In n seen.
Proof.
  rewrite existsb_exists. split.
  - intros (x & Hin & E). apply N.eqb_eq in E. subst. exact Hin.
  - intros Hin. exists n. split; [exact Hin | apply N.eqb_refl].
Qed.

Lemma uniqueTruthy_spec (seen : list N) (ids : list (option N)) :
  List.NoDup (uniqueTruthy seen ids)
  /\ forall n, In n (uniqueTruthy seen ids)
               <-> In (Some n) ids /\ n <> 0%N /\ ~ In n seen.
Proof.
  revert seen. induction ids as [|[n0|] rest IH]; intros seen; cbn [uniqueTruthy].
  - split; [constructor | intros n; cbn; tauto].
  - destruct (N.eqb_spec n0 0) as [->|Hnz]; cbn [orb].
    + destruct (IH seen) as [Hnd Hin]. split; [exact Hnd|].
      intros n. rewrite Hin. cbn. split; [tauto|].
      intros ([E|H] & Hn & Hs); [congruence | tauto].
    + destruct (existsb (N.eqb n0) seen) eqn:Hseen.
      * apply existsb_eqb_In in Hseen.
        destruct (IH seen) as [Hnd Hin]. split; [exact Hnd|].
        intros n. rewrite Hin. cbn. split; [tauto|].
        intros ([E|H] & Hn & Hs); [inversion E; subst; contradiction | tauto].
      * assert (Hns : ~ In n0 seen).
        { intros H. apply existsb_eqb_In in H. congruence. }
        destruct (IH (n0 :: seen)) as [Hnd Hin]. split.
        -- constructor; [|exact Hnd]. rewrite Hin. cbn. tauto.
        -- intros n. cbn [In]. rewrite Hin. cbn [In].
           destruct (N.eq_dec n0 n) as [->|Hne].
           ++ split; [intros _; repeat split; auto | auto].
           ++ split.
              ** intros [E|(H & Hn & Hs)]; [contradiction|]. tauto.
              ** intros ([E|H] & Hn & Hs); [inversion E; contradiction|].
                 right. tauto.
  - destruct (IH seen) as [Hnd Hin]. split; [exact Hnd|].
    intros n. rewrite Hin. cbn. split; [tauto|].
    intros ([E|H] & Hn & Hs); [discriminate | tauto].
Qed.

(** X7.  The variant ids asked for are the non-zero ids of the line items,
    each once: items without a variant and repeated variants cost no
    lookup. *)
Theorem variantIds_distinct (ids : list (option N)) :
  List.NoDup (uniqueTruthy [] ids)
  /\ forall n, In n (uniqueTruthy [] ids) <-> In (Some n) ids /\ n <> 0%N.
Proof.
  destruct (uniqueTruthy_spec [] ids) as [Hnd Hin]. split; [exact Hnd|].
  intros n. rewrite Hin. cbn. tauto.
Qed.

Lemma slices_cover {A} (fuel : nat) (l : list A) :
  (List.length l <= fuel)%nat ->
  List.concat (slices fuel l) = l
  /\ Forall (fun b => (1 <= List.length b <= 10)%nat) (slices fuel l).
Proof.
  revert l. induction fuel as [|fuel IH]; intros l Hlen.
  - destruct l; [split; [reflexivity | constructor] | cbn in Hlen; lia].
  - destruct l as [|x rest]; [split; [reflexivity | constructor]|].
    cbn [slices].
    assert (Hs : (List.length (skipn 10 (x :: rest)) <= fuel)%nat).
    { rewrite List.length_skipn. cbn in Hlen |- *. lia. }
    destruct (IH _ Hs) as [Hc Hf]. split.
    + cbn [List.concat]. rewrite Hc. apply firstn_skipn.
    + constructor; [|exact Hf].
      rewrite List.length_firstn. cbn [List.length]. lia.
Qed.

(** X8.  The ids are looked up in batches that respect the limit of an "in"
    query: put end to end the batches are the ids, in order, and every
    batch holds between one and ten of them. *)
Theorem batches_cover {A} (variantIds : list A) :
  List.concat (batchesOf variantIds) = variantIds
  /\ Forall (fun b => (1 <= List.length b <= 10)%nat) (batchesOf variantIds).
Proof. apply slices_cover. lia. Qed.

(** The costs a run of batches adds to a map. *)
Lemma batch_lookup (products : gmap string CostDoc) (ids : list string)
    (m0 : CogsMap) (k : string) :
  fold_left (fun (m : CogsMap) '(i, d) => <[i := orZero (docCogs d)]> m)
    (omap (fun i => (fun d => (i, d)) <$> products !! i) ids) m0 !! k
  = match (if bool_decide (k ∈ ids) then products !! k else None) with
    | Some d => Some (orZero (docCogs d))
    | None => m0 !! k
    end.
Proof.
  unfold CogsMap in *.
  revert m0. induction ids as [|i rest IH]; intros m0; cbn.
  - rewrite bool_decide_eq_false_2 by apply not_elem_of_nil. reflexivity.
  - destruct (decide (i = k)) as [->|Hne].
    + rewrite (bool_decide_eq_true_2 (k ∈ k :: rest)) by (apply elem_of_cons; left; reflexivity).
      destruct (products !! k) as [d|] eqn:Ei; cbn; rewrite IH;
        destruct (bool_decide (k ∈ rest)); rewrite ?Ei; try reflexivity.
      apply lookup_insert_eq.
    + assert (Hk : bool_decide (k ∈ i :: rest) = bool_decide (k ∈ rest)).
      { apply bool_decide_ext. rewrite elem_of_cons. split; [|auto].
        intros [E|H]; [congruence | exact H]. }
      rewrite Hk.
      destruct (products !! i) as [d|]; cbn; rewrite IH; [|reflexivity].
      rewrite lookup_insert_ne by exact Hne. reflexivity.
Qed.

Lemma cogsBatches_run (shopDomain : string) (batches : list (list N))
    (m0 : CogsMap) (w : World) :
  (forall ids, dbFault w (QueryProductCosts shopDomain ids) = None) ->
  exists m,
    cogsBatches shopDomain batches m0 w
    = (Ok m,
       setLog w (log w ++ List.map
                   (fun b => QueryProductCosts shopDomain (List.map idString b))
                   batches)%list)
    /\ forall k,
         m !! k
         = match (if bool_decide (k ∈ List.map idString (List.concat batches))
                  then default ∅ (productCosts (db w) !! shopDomain) !! k
                  else None) with
           | Some d => Some (orZero (docCogs d))
           | None => m0 !! k
           end.
Proof.
  intros Hok. revert m0 w Hok.
  induction batches as [|b rest IH]; intros m0 w Hok; cbn [cogsBatches].
  - exists m0. split.
    + cbn. rewrite app_nil_r. destruct w; reflexivity.
    + intros k. cbn. rewrite bool_decide_eq_false_2 by apply not_elem_of_nil.
      reflexivity.
  - rewrite bind_run. unfold cogsBatch at 1. rewrite !bind_run.
    unfold request. rewrite Hok. cbn [gets fst snd]. rewrite bind_run.
    cbn [gets mret M_ret db setLog].
    set (w1 := setLog w _).
    set (m1 := fold_left _ _ m0).
    destruct (IH m1 w1) as (m & Hrun & Hm); [intros ids; apply Hok|].
    exists m. split.
    + rewrite Hrun. subst w1. cbn [setLog log db today clock decrypt shopify dbFault].
      cbn [List.map]. rewrite <- app_assoc. reflexivity.
    + intros k. rewrite Hm. subst w1 m1. cbn [db setLog].
      cbn [List.concat]. rewrite List.map_app.
      set (products := default ∅ (productCosts (db w) !! shopDomain)).
      rewrite (batch_lookup products (List.map idString b) m0 k).
      destruct (decide (k ∈ List.map idString (List.concat rest))) as [Hr|Hr].
      * rewrite (bool_decide_eq_true_2 _ Hr).
        rewrite (bool_decide_eq_true_2 (k ∈ (_ ++ _)%list))
          by (apply elem_of_app; right; exact Hr).
        destruct (products !! k); [reflexivity|].
        destruct (bool_decide (k ∈ List.map idString b)); reflexivity.
      * rewrite (bool_decide_eq_false_2 _ Hr).
        destruct (decide (k ∈ List.map idString b)) as [Hb|Hb].
        -- rewrite (bool_decide_eq_true_2 _ Hb).
           rewrite (bool_decide_eq_true_2 (k ∈ (_ ++ _)%list))
             by (apply elem_of_app; left; exact Hb).
           reflexivity.
        -- rewrite (bool_decide_eq_false_2 _ Hb).
           rewrite (bool_decide_eq_false_2 (k ∈ (_ ++ _)%list)); [reflexivity|].
           intros H. apply elem_of_app in H. tauto.
Qed.

(** X9.  While the store answers, [getCogsMap] returns exactly the stored
    costs of the variants asked for: under the id of each variant that has a
    cost document, its cost (0 when the document holds none); nothing under
    any other key.  It sends one query per batch and leaves the store as it
    was. *)
Theorem getCogsMap_lookup (shopDomain : string) (variantIds : list N) (w : World) :
  (forall ids, dbFault w (QueryProductCosts shopDomain ids) = None) ->
  exists m,
    getCogsMap shopDomain variantIds w
    = (Ok m,
       setLog w (log w ++ List.map
                   (fun b => QueryProductCosts shopDomain (List.map idString b))
                   (batchesOf variantIds))%list)
    /\ forall k,
         m !! k
         = if bool_decide (k ∈ List.map idString variantIds)
           then (fun d => orZero (docCogs d))
                  <$> default ∅ (productCosts (db w) !! shopDomain) !! k
           else None.
Proof.
  intros Hok. unfold getCogsMap.
  destruct (cogsBatches_run shopDomain (batchesOf variantIds) ∅ w Hok)
    as (m & Hrun & Hm).
  exists m. split; [exact Hrun|].
  intros k. rewrite Hm.
  destruct (slices_cover (List.length variantIds) variantIds (Nat.le_refl _))
    as [Hc _].
  fold (batchesOf variantIds) in Hc. rewrite Hc.
  destruct (bool_decide (k ∈ List.map idString variantIds));
    [|apply lookup_empty].
  destruct (default ∅ (productCosts (db w) !! shopDomain) !! k);
    [reflexivity | apply lookup_empty].
Qed.

Lemma getCogsMap_lookup_witness :
  exists m,
    getCogsMap Example.shopName [41001%N; 41002%N] Example.world
    = (Ok m,
       setLog Example.world
         [QueryProductCosts Example.shopName ["41001"; "41002"]])
    /\ m !! "41001" = Some 10%float
    /\ m !! "41002" = None.
Proof.
  destruct (getCogsMap_lookup Example.shopName [41001%N; 41002%N] Example.world)
    as (m & Hrun & Hm); [reflexivity|].
  exists m. split; [exact Hrun|].
  split; rewrite Hm; vm_compute; reflexivity.
Defined.

End CogsLookup.

(** ** What a caller of the two functions can observe *)

Section CallerFacts.
Import JS Store Collaborators Calculator Spec Facts.

(** X10.  A daily request without authentication, or about a date that is
    not well formed, is refused at once: the world is the very same after
    the call, so nothing was fetched, queried or written. *)
Theorem calculateProfit_refuses_early data context (w : World) :
  auth context = None
  \/ Validators.isValidDate (targetDateOf data w) = false ->
  snd (calculateProfit data context w) = w
  /\ fst (calculateProfit data context w)
     = Throw (match auth context with
              | None => HttpsError "unauthenticated" "Must be authenticated"
              | Some _ =>
                  HttpsError "invalid-argument" "Invalid date format. Use YYYY-MM-DD"
              end).
Proof.
  intros H. unfold calculateProfit.
  destruct (auth context) as [shopDomain|]; [|split; reflexivity].
  destruct H as [H|H]; [discriminate|].
  rewrite bind_run. cbn [gets]. fold (targetDateOf data w). rewrite H.
  split; reflexivity.
Qed.

Lemma calculateProfit_refuses_early_witness :
  snd (calculateProfit {| reqDate := Some "2024-3-1" |} Example.caller Example.world)
  = Example.world
  /\ fst (calculateProfit {| reqDate := Some "2024-3-1" |} Example.caller
            Example.world)
     = Throw (HttpsError "invalid-argument" "Invalid date format. Use YYYY-MM-DD").
Proof.
  apply (calculateProfit_refuses_early {| reqDate := Some "2024-3-1" |}
           Example.caller Example.world).
  right. reflexivity.
Defined.

(** X11.  The same holds for a range request: without authentication, or
    with a start or an end that is absent or not well formed, it is refused
    before any query of the store. *)
Theorem calculateProfitRange_refuses_early data context (w : World) :
  auth context = None
  \/ Validators.isValidDateOpt (reqStart data) = false
  \/ Validators.isValidDateOpt (reqEnd data) = false ->
  snd (calculateProfitRange data context w) = w
  /\ fst (calculateProfitRange data context w)
     = Throw (match auth context with
              | None => HttpsError "unauthenticated" "Must be authenticated"
              | Some _ => HttpsError "invalid-argument" "Invalid date format"
              end).
Proof.
  intros H. unfold calculateProfitRange.
  destruct (auth context) as [shopDomain|]; [|split; reflexivity].
  destruct H as [H|[H|H]]; [discriminate| |]; rewrite H;
    rewrite ?orb_true_r; split; reflexivity.
Qed.

Lemma calculateProfitRange_refuses_early_witness :
  snd (calculateProfitRange {| reqStart := Some "2024-03-01"; reqEnd := None |}
         Example.caller Example.worldTwoDays)
  = Example.worldTwoDays
  /\ fst (calculateProfitRange {| reqStart := Some "2024-03-01"; reqEnd := None |}
            Example.caller Example.worldTwoDays)
     = Throw (HttpsError "invalid-argument" "Invalid date format").
Proof.
  apply (calculateProfitRange_refuses_early
           {| reqStart := Some "2024-03-01"; reqEnd := None |}
           Example.caller Example.worldTwoDays).
  right. right. reflexivity.
Defined.

(** X12.  Whatever goes wrong, the caller of the daily computation receives
    an [HttpsError] whose code is "unauthenticated", "invalid-argument" or
    "internal": every failure inside the [try] block, the "not-found" of a
    missing shop included, is rethrown as "internal".  The one exception
    is an authenticated call that carries no payload: the destructuring of
    [data], which stands outside the [try] block, throws a [TypeError], and
    nothing has been read or written by then. *)
Theorem calculateProfit_error_codes (data : option ProfitRequest) context
    (w : World) :
  match fst (Callable.calculateProfit data context w) with
  | Ok _ => is_Some data /\ is_Some (auth context)
  | Throw (HttpsError code _) =>
      In code ["unauthenticated"; "invalid-argument"; "internal"]
  | Throw (TypeError _) =>
      data = None /\ is_Some (auth context)
      /\ snd (Callable.calculateProfit data context w) = w
  | Throw (Error _) => False
  end.
Proof.
  unfold Callable.calculateProfit.
  destruct (auth context) as [shopDomain|] eqn:Hauth; [|cbn; auto].
  destruct data as [data|]; [|cbn; eauto].
  unfold calculateProfit. rewrite Hauth.
  rewrite bind_run. cbn [gets].
  destruct (negb _); [cbn; auto|].
  unfold tryCatch.
  match goal with |- context [match ?body w with _ => _ end] =>
    destruct (body w) as [[r|e] w1] end.
  - cbn. split; eauto.
  - cbn. auto.
Qed.

(** X13.  For a shop that has no document the daily computation stops
    after that one read: it fetches no orders, writes nothing, and reports
    "internal" with the text of the "not-found" error. *)
Theorem missing_shop_is_internal data context (w : World) shopDomain :
  auth context = Some shopDomain ->
  Validators.isValidDate (targetDateOf data w) = true ->
  dbFault w (GetShop (Validators.sanitizeShopDomain shopDomain)) = None ->
  shops (db w) !! Validators.sanitizeShopDomain shopDomain = None ->
  calculateProfit data context w
  = (Throw (HttpsError "internal"
              "Calculation failed: Shop not found or not authenticated"),
     setLog w (log w ++ [GetShop (Validators.sanitizeShopDomain shopDomain)])%list).
Proof.
  intros Hauth Hdate Hfault Hshop.
  unfold calculateProfit. rewrite Hauth, bind_run. cbn [gets].
  fold (targetDateOf data w). rewrite Hdate. cbn [negb].
  unfold tryCatch, verifyShop. rewrite !bind_run. unfold request.
  rewrite Hfault. cbn [gets fst snd]. rewrite bind_run. cbn [gets setLog db].
  rewrite Hshop. reflexivity.
Qed.

Lemma missing_shop_is_internal_witness :
  calculateProfit Example.march1 {| auth := Some "other-shop.myshopify.com" |}
    Example.world
  = (Throw (HttpsError "internal"
              "Calculation failed: Shop not found or not authenticated"),
     setLog Example.world [GetShop "other-shop.myshopify.com"]).
Proof.
  apply (missing_shop_is_internal Example.march1
           {| auth := Some "other-shop.myshopify.com" |} Example.world
           "other-shop.myshopify.com"); reflexivity.
Defined.

(** X14.  A range request never changes the world but for the log, which
    grows by at most the one query of the window. *)
Theorem calculateProfitRange_reads_only data context (w : World) :
  snd (calculateProfitRange data context w) = w
  \/ exists shopDomain startDate endDate,
       snd (calculateProfitRange data context w)
       = setLog w (log w ++ [QueryDays shopDomain startDate endDate])%list.
Proof.
  unfold calculateProfitRange.
  destruct (auth context) as [shopDomain|]; [|left; reflexivity].
  destruct (_ || _); [left; reflexivity|].
  right. exists shopDomain, (default "" (reqStart data)), (default "" (reqEnd data)).
  unfold tryCatch, queryDays. rewrite !bind_run. unfold request.
  destruct (dbFault w _); reflexivity.
Qed.

End CallerFacts.

(** ** The answer of a range request *)

Section RangeAnswer.
Import JS Store Collaborators Calculator Spec Facts.

Lemma insertDay_perm x l : Permutation (insertDay x l) (x :: l).
Proof.
  induction l as [|y rest IH]; cbn; [reflexivity|].
  destruct (dayLe x y); [reflexivity|].
  rewrite IH. apply perm_swap.
Qed.

Lemma sortDays_perm l : Permutation (fold_right insertDay [] l) l.
Proof.
  induction l as [|x rest IH]; cbn; [reflexivity|].
  rewrite insertDay_perm, IH. reflexivity.
Qed.

Lemma dayLe_notAfter x y : dayLe x y = true -> notAfter (snd x) (snd y).
Proof.
  unfold dayLe, notAfter, String.leb.
  destruct (String.compare _ _); [reflexivity | reflexivity | discriminate].
Qed.

Lemma dayLe_total x y : dayLe x y = false -> notAfter (snd y) (snd x).
Proof.
  unfold dayLe, notAfter, String.leb.
  rewrite (String.compare_antisym (date (report (snd x))) (date (report (snd y)))).
  destruct (String.compare (date (report (snd y))) (date (report (snd x)))) eqn:E;
    cbn; try reflexivity; try discriminate.
Qed.

Lemma notAfter_trans x y z : notAfter x y -> notAfter y z -> notAfter x z.
Proof. unfold notAfter. apply leb_trans. Qed.

Lemma insertDay_sorted x l :
  StronglySorted (fun a b => notAfter (snd a) (snd b)) l ->
  StronglySorted (fun a b => notAfter (snd a) (snd b)) (insertDay x l).
Proof.
  induction 1 as [|y rest Hs IH Hall]; cbn.
  - constructor; constructor.
  - destruct (dayLe x y) eqn:E.
    + constructor; [constructor; assumption|].
      constructor; [apply dayLe_notAfter, E|].
      eapply List.Forall_impl; [|exact Hall].
      intros z Hyz. eapply notAfter_trans; [apply dayLe_notAfter, E | exact Hyz].
    + constructor; [exact IH|].
      rewrite (insertDay_perm x rest).
      constructor; [apply dayLe_total, E | exact Hall].
Qed.

Lemma sortDays_sorted l :
  StronglySorted (fun a b => notAfter (snd a) (snd b)) (fold_right insertDay [] l).
Proof.
  induction l as [|x rest IH]; cbn; [constructor | apply insertDay_sorted, IH].
Qed.

Lemma sorted_map_snd (l : list (string * DayDoc)) :
  StronglySorted (fun a b => notAfter (snd a) (snd b)) l ->
  StronglySorted notAfter (List.map snd l).
Proof.
  induction 1 as [|y rest Hs IH Hall]; cbn; constructor; [exact IH|].
  apply List.Forall_map. exact Hall.
Qed.

(** What a range request returns when it returns. *)
Lemma range_success data context (w : World) shopDomain startDate endDate summary :
  auth context = Some shopDomain ->
  reqStart data = Some startDate ->
  reqEnd data = Some endDate ->
  fst (calculateProfitRange data context w) = Ok summary ->
  summary
  = aggregate startDate endDate
      (List.map snd
         (fold_right insertDay []
            (storedInWindow (db w) shopDomain startDate endDate))).
Proof.
  intros Hauth Hs He. unfold calculateProfitRange. rewrite Hauth, Hs, He.
  destruct (_ || _); [discriminate|].
  change (default "" (Some startDate)) with startDate.
  change (default "" (Some endDate)) with endDate.
  unfold tryCatch, queryDays. rewrite !bind_run. unfold request.
  destruct (dbFault w _); [discriminate|].
  cbn [gets fst snd]. rewrite bind_run. cbn [gets mret M_ret fst snd setLog db].
  intros H. inversion H. reflexivity.
Qed.

(** X15.  When a range request returns, its days are the stored reports of
    the shop whose date lies in the window, all of them and no other, in
    the order of their dates; [daysCount] is their number, whatever the
    length of the window. *)
Theorem range_days data context (w : World) shopDomain startDate endDate summary :
  auth context = Some shopDomain ->
  reqStart data = Some startDate ->
  reqEnd data = Some endDate ->
  fst (calculateProfitRange data context w) = Ok summary ->
  Permutation (days summary)
    (List.map snd (storedInWindow (db w) shopDomain startDate endDate))
  /\ daysCount summary
     = List.length (storedInWindow (db w) shopDomain startDate endDate)
  /\ StronglySorted notAfter (days summary)
  /\ Forall (inWindow startDate endDate) (days summary).
Proof.
  intros Hauth Hs He Hok.
  rewrite (range_success _ _ _ _ _ _ _ Hauth Hs He Hok).
  cbn [days daysCount aggregate].
  set (stored := storedInWindow (db w) shopDomain startDate endDate).
  assert (Hperm : Permutation (List.map snd (fold_right insertDay [] stored))
                    (List.map snd stored)).
  { apply Permutation_map, sortDays_perm. }
  repeat split.
  - exact Hperm.
  - rewrite (Permutation_length Hperm). apply List.length_map.
  - apply sorted_map_snd, sortDays_sorted.
  - rewrite Hperm. apply List.Forall_map. subst stored. unfold storedInWindow.
    apply List.Forall_forall. intros x Hin.
    apply List.filter_In in Hin. destruct Hin as [_ Hin].
    unfold inRange in Hin. apply andb_true_iff in Hin. exact Hin.
Qed.

Lemma range_days_witness :
  exists summary,
    fst (calculateProfitRange Example.threeDays Example.caller Example.worldTwoDays)
    = Ok summary
    /\ daysCount summary = 2%nat
    /\ StronglySorted notAfter (days summary)
    /\ Forall (inWindow "2024-03-01" "2024-03-03") (days summary).
Proof.
  destruct (fst (calculateProfitRange Example.threeDays Example.caller
                   Example.worldTwoDays)) as [summary|e] eqn:E;
    [|vm_compute in E; discriminate].
  destruct (range_days Example.threeDays Example.caller Example.worldTwoDays
              Example.shopName "2024-03-01" "2024-03-03" summary)
    as (_ & Hc & Hs & Hw); try reflexivity; [exact E|].
  exists summary. repeat split; try assumption.
Defined.

End RangeAnswer.

(** ** What the daily computation stores *)

Section StoredReport.
Import JS Store Collaborators Calculator Spec Facts.

Lemma quiet_ret {A} (a : A) : quiet (mret a : M A).
Proof. intros w. split; reflexivity. Qed.

Lemma quiet_throw {A} (e : exn) : quiet (throw e : M A).
Proof. intros w. split; reflexivity. Qed.

Lemma quiet_liftR {A} (r : result A) : quiet (liftR r).
Proof. intros w. split; reflexivity. Qed.

Lemma quiet_gets {A} (f : World -> A) : quiet (gets f).
Proof. intros w. split; reflexivity. Qed.

Lemma quiet_request (op : DbOp) : quiet (request op).
Proof. intros w. unfold request. destruct (dbFault w op); split; reflexivity. Qed.

Lemma quiet_bind {A B} (m : M A) (f : A -> M B) :
  quiet m -> (forall a, quiet (f a)) -> quiet (m ≫= f).
Proof.
  intros Hm Hf w. rewrite bind_run. specialize (Hm w).
  destruct (m w) as [[a|e] w1]; cbn in Hm |- *; [|exact Hm].
  destruct (Hf a w1) as [H1 H2]. destruct Hm as [H3 H4].
  split; congruence.
Qed.

Ltac quiet_tac :=
  repeat first
    [ apply quiet_ret | apply quiet_throw | apply quiet_liftR
    | apply quiet_request | apply quiet_gets
    | apply quiet_bind; [ | intros ? ]
    | match goal with
      | |- quiet (match ?x with _ => _ end) => destruct x
      end ].

Lemma quiet_cogsBatches s batches m : quiet (cogsBatches s batches m).
Proof.
  revert m. induction batches as [|b rest IH]; intros m; cbn [cogsBatches].
  - apply quiet_ret.
  - apply quiet_bind; [unfold cogsBatch; quiet_tac | intros m'; apply IH].
Qed.

Lemma storesReport_bind {A} s d (m : M A) (f : A -> M ProfitReport) :
  quiet m -> (forall a, storesReport s d (f a)) -> storesReport s d (m ≫= f).
Proof.
  intros Hm Hf w r w'. rewrite bind_run. destruct (Hm w) as [Hdb Hclock].
  destruct (m w) as [[a|e] w1]; cbn in Hdb, Hclock; [|discriminate].
  intros H. rewrite (Hf a w1 r w' H), Hdb, Hclock. reflexivity.
Qed.

Lemma storesReport_cache s d r :
  storesReport s d (cacheResult s d r ≫= fun _ => mret r).
Proof.
  intros w r' w'. unfold cacheResult. rewrite !bind_run. unfold request.
  destruct (dbFault w _); [discriminate|].
  cbn. intros H. inversion H. reflexivity.
Qed.

Lemma returnsDated_bind {A} d (m : M A) (f : A -> M ProfitReport) :
  (forall a, returnsDated d (f a)) -> returnsDated d (m ≫= f).
Proof.
  intros Hf w r w'. rewrite bind_run.
  destruct (m w) as [[a|e] w1]; [apply Hf | discriminate].
Qed.

(** The [try] block of the daily computation. *)
Lemma tryBlock_success data context (w : World) shopDomain r w' :
  auth context = Some shopDomain ->
  calculateProfit data context w = (Ok r, w') ->
  Validators.isValidDate (targetDateOf data w) = true
  /\ db w' = writeDay shopDomain (targetDateOf data w) r (clock w) (db w)
  /\ date r = targetDateOf data w.
Proof.
  intros Hauth. unfold calculateProfit. rewrite Hauth, bind_run. cbn [gets].
  fold (targetDateOf data w). set (d := targetDateOf data w).
  destruct (Validators.isValidDate d); [|discriminate]. cbn [negb].
  unfold tryCatch.
  match goal with |- context [match ?body w with _ => _ end] =>
    set (block := body) end.
  destruct (block w) as [[r0|e] w0] eqn:E; [|discriminate].
  intros H. inversion H; subst r0 w0. clear H.
  split; [reflexivity|]. split.
  - revert E. generalize w r w'. change (storesReport shopDomain d block).
    subst block.
    apply storesReport_bind; [unfold verifyShop; quiet_tac|intros [shopData|]];
      [|intros ? ? ?; discriminate].
    apply storesReport_bind; [unfold fetchOrdersForDate; quiet_tac|intros orders].
    apply storesReport_bind; [apply quiet_cogsBatches|intros cogsMap].
    apply storesReport_bind; [unfold queryAdSpend; quiet_tac|intros docs].
    destruct (sumAdSpend docs) as [byPlatform total].
    apply storesReport_bind; [apply quiet_liftR|intros fees].
    apply storesReport_bind; [unfold getDailyFixedCost; quiet_tac|intros fixed].
    apply storesReport_cache.
  - revert E. generalize w r w'. change (returnsDated d block).
    subst block.
    apply returnsDated_bind. intros [shopData|]; [|intros ? ? ?; discriminate].
    apply returnsDated_bind. intros orders.
    apply returnsDated_bind. intros cogsMap.
    apply returnsDated_bind. intros docs.
    destruct (sumAdSpend docs) as [byPlatform total].
    apply returnsDated_bind. intros fees.
    apply returnsDated_bind. intros fixed.
    intros w1 r1 w1'. rewrite bind_run.
    destruct (cacheResult _ _ _ w1) as [[[]|e] w2]; [|discriminate].
    cbn. intros H. inversion H. reflexivity.
Qed.

Lemma writeDay_lookup s d r now (fs : Firestore) :
  daysOf (writeDay s d r now fs) s !! d
  = Some {| report := mergeReport (daysOf fs s !! d) r; calculatedAt := now |}.
Proof.
  unfold writeDay, daysOf. cbn [dailyMetrics setDailyMetrics].
  rewrite lookup_insert_eq. cbn. apply lookup_insert_eq.
Qed.

Lemma writeDay_frame s d r now (fs : Firestore) s' d' :
  (s', d') <> (s, d) ->
  daysOf (writeDay s d r now fs) s' !! d' = daysOf fs s' !! d'.
Proof.
  intros Hne. unfold writeDay, daysOf. cbn [dailyMetrics setDailyMetrics].
  destruct (decide (s = s')) as [<-|Hs].
  - rewrite lookup_insert_eq. cbn.
    rewrite lookup_insert_ne; [reflexivity | congruence].
  - rewrite lookup_insert_ne by exact Hs. reflexivity.
Qed.

(** X16.  When the daily computation returns a report, the store holds it
    under the shop and the date, stamped with the time of the call: its
    date and its figures are those returned.  The reports of other dates and
    of other shops are what they were, and so are the other collections. *)
Theorem calculateProfit_stores data context (w : World) shopDomain r w' :
  auth context = Some shopDomain ->
  calculateProfit data context w = (Ok r, w') ->
  (exists doc,
      daysOf (db w') shopDomain !! targetDateOf data w = Some doc
      /\ calculatedAt doc = clock w
      /\ date (report doc) = targetDateOf data w
      /\ (revenue (report doc), cogs (report doc), adSpend (report doc),
          fees (report doc), fixedCosts (report doc), netProfit (report doc),
          profitMargin (report doc), orderCount (report doc), alerts (report doc))
         = (revenue r, cogs r, adSpend r, fees r, fixedCosts r, netProfit r,
            profitMargin r, orderCount r, alerts r))
  /\ (forall s d, (s, d) <> (shopDomain, targetDateOf data w) ->
        daysOf (db w') s !! d = daysOf (db w) s !! d)
  /\ (shops (db w'), productCosts (db w'), adSpendDocs (db w'), fixedCostDocs (db w'))
     = (shops (db w), productCosts (db w), adSpendDocs (db w), fixedCostDocs (db w)).
Proof.
  intros Hauth Hrun.
  destruct (tryBlock_success data context w shopDomain r w' Hauth Hrun)
    as (_ & Hdb & Hdate).
  rewrite Hdb. split; [|split].
  - eexists. split; [apply writeDay_lookup|].
    cbn [calculatedAt report]. split; [reflexivity|].
    destruct (daysOf (db w) shopDomain !! targetDateOf data w);
      cbn; (split; [exact Hdate | reflexivity]).
  - intros s d Hne. apply writeDay_frame, Hne.
  - reflexivity.
Qed.

Lemma calculateProfit_stores_witness :
  exists doc,
    daysOf (db (snd (calculateProfit Example.march1 Example.caller Example.world)))
      Example.shopName !! "2024-03-01" = Some doc
    /\ netProfit (report doc) = "54.30".
Proof.
  destruct (calculateProfit Example.march1 Example.caller Example.world)
    as [[r|e] w'] eqn:E; [|vm_compute in E; discriminate].
  destruct (calculateProfit_stores Example.march1 Example.caller Example.world
              Example.shopName r w' eq_refl E)
    as ((doc & Hdoc & _ & _ & Hfig) & _ & _).
  exists doc. split; [exact Hdoc|].
  assert (Hr : netProfit <$> fst (calculateProfit Example.march1 Example.caller
                                    Example.world)
               = Ok (netProfit r)) by (rewrite E; reflexivity).
  vm_compute in Hr. injection Hr as Hr.
  injection Hfig as _ _ _ _ _ Hn _ _ _.
  rewrite Hn. symmetry. exact Hr.
Defined.

Lemma leb_refl (s : string) : String.leb s s = true.
Proof.
  unfold String.leb.
  assert (H : String.compare s s = Eq).
  { induction s as [|c r IH]; cbn; [reflexivity|].
    unfold Ascii.compare. rewrite N.compare_refl. exact IH. }
  rewrite H. reflexivity.
Qed.

(** X17.  A day that has just been computed is seen by the roll-up: a range
    request of the same caller for that one date, unless the store rejects
    its query, returns at least one day, and among its days the report just
    stored, with the figures just returned. *)
Theorem computed_day_in_range data context (w : World) shopDomain r w' :
  auth context = Some shopDomain ->
  calculateProfit data context w = (Ok r, w') ->
  dbFault w' (QueryDays shopDomain (targetDateOf data w) (targetDateOf data w))
  = None ->
  exists summary doc,
    fst (calculateProfitRange
           {| reqStart := Some (targetDateOf data w);
              reqEnd := Some (targetDateOf data w) |} context w')
    = Ok summary
    /\ In doc (days summary)
    /\ (1 <= daysCount summary)%nat
    /\ (date (report doc), revenue (report doc), netProfit (report doc),
        profitMargin (report doc))
       = (targetDateOf data w, revenue r, netProfit r, profitMargin r).
Proof.
  intros Hauth Hrun Hfault.
  destruct (tryBlock_success data context w shopDomain r w' Hauth Hrun)
    as (Hvalid & Hdb & Hdate).
  set (d := targetDateOf data w) in *.
  set (doc := {| report := mergeReport (daysOf (db w) shopDomain !! d) r;
                 calculatedAt := clock w |}).
  assert (Hfields : (date (report doc), revenue (report doc),
                     netProfit (report doc), profitMargin (report doc))
                    = (d, revenue r, netProfit r, profitMargin r)).
  { subst doc. cbn [report].
    destruct (daysOf (db w) shopDomain !! d); cbn; rewrite Hdate; reflexivity. }
  assert (Hstored : In (d, doc) (storedInWindow (db w') shopDomain d d)).
  { unfold storedInWindow. apply List.filter_In. split.
    - apply list_elem_of_In, elem_of_map_to_list.
      rewrite Hdb. apply writeDay_lookup.
    - unfold inRange. cbn [snd].
      pose proof (f_equal (fun t => fst (fst (fst t))) Hfields) as Hd.
      cbn [fst] in Hd. rewrite Hd, leb_refl. reflexivity. }
  assert (Hin : In doc (List.map snd
                          (fold_right insertDay []
                             (storedInWindow (db w') shopDomain d d)))).
  { apply List.in_map_iff. exists (d, doc). split; [reflexivity|].
    apply (Permutation_in _ (Permutation_sym (sortDays_perm _))). exact Hstored. }
  exists (aggregate d d
            (List.map snd (fold_right insertDay []
                             (storedInWindow (db w') shopDomain d d)))), doc.
  split; [|split; [exact Hin | split; [|exact Hfields]]].
  - unfold calculateProfitRange. rewrite Hauth. cbn [reqStart reqEnd].
    cbn [Validators.isValidDateOpt]. rewrite Hvalid. cbn [negb orb].
    change (default "" (Some d)) with d.
    unfold tryCatch, queryDays. rewrite !bind_run. unfold request.
    rewrite Hfault. cbn [gets fst snd]. rewrite bind_run.
    cbn [gets mret M_ret fst snd setLog db]. reflexivity.
  - cbn [daysCount aggregate].
    destruct (List.map snd _) as [|x l]; [destruct Hin | cbn; lia].
Qed.

Lemma computed_day_in_range_witness :
  exists summary doc,
    fst (calculateProfitRange
           {| reqStart := Some "2024-03-01"; reqEnd := Some "2024-03-01" |}
           Example.caller
           (snd (calculateProfit Example.march1 Example.caller Example.world)))
    = Ok summary
    /\ In doc (days summary)
    /\ (1 <= daysCount summary)%nat
    /\ date (report doc) = "2024-03-01".
Proof.
  destruct (calculateProfit Example.march1 Example.caller Example.world)
    as [[r|e] w'] eqn:E; [|vm_compute in E; discriminate].
  assert (Hf : dbFault w' (QueryDays Example.shopName "2024-03-01" "2024-03-01")
               = None).
  { change w' with (snd (Ok r, w')). rewrite <- E. reflexivity. }
  destruct (computed_day_in_range Example.march1 Example.caller Example.world
              Example.shopName r w' eq_refl E Hf)
    as (summary & doc & Hs & Hin & Hc & Hfig).
  exists summary, doc. cbn [snd].
  repeat split; try assumption.
  injection Hfig as Hd _ _ _. exact Hd.
Defined.

End StoredReport.

(** ** Dates *)

Section DateOrder.
Import JS Validators Facts.

Lemma ascii_compare_Z (c c' : ascii) :
  Ascii.compare c c'
  = Z.compare (Z.of_nat (nat_of_ascii c)) (Z.of_nat (nat_of_ascii c')).
Proof.
  unfold Ascii.compare, nat_of_ascii.
  rewrite !N_nat_Z. symmetry. apply N2Z.inj_compare.
Qed.

Lemma isDigit_bounds (c : ascii) :
  isDigit c = true -> (48 <= Z.of_nat (nat_of_ascii c) <= 57)%Z.
Proof.
  unfold isDigit. intros H. apply andb_true_iff in H. destruct H as [H1 H2].
  apply Nat.leb_le in H1, H2. lia.
Qed.

Lemma hyphen_only (c : ascii) (X : bool) :
  match c with
  | "-"%char => X
  | _ => false
  end = true ->
  c = "-"%char /\ X = true.
Proof.
  destruct c as [[] [] [] [] [] [] [] []]; cbn; intros H;
    first [discriminate | split; [reflexivity | exact H]].
Qed.

(** A well-formed date spells ten characters: digits around two hyphens. *)
Lemma isValidDate_shape (s : string) :
  isValidDate s = true ->
  exists y1 y2 y3 y4 m1 m2 d1 d2,
    s = String y1 (String y2 (String y3 (String y4 (String "-"
          (String m1 (String m2 (String "-" (String d1 (String d2 "")))))))))
    /\ Forall (fun c => isDigit c = true) [y1; y2; y3; y4; m1; m2; d1; d2]
    /\ (1 <= twoDigits m1 m2 <= 12)%nat
    /\ (1 <= twoDigits d1 d2 <= 31)%nat.
Proof.
  unfold isValidDate. intros H.
  destruct s as [|y1 s]; [discriminate|].
  destruct s as [|y2 s]; [discriminate|].
  destruct s as [|y3 s]; [discriminate|].
  destruct s as [|y4 s]; [discriminate|].
  destruct s as [|h1 s]; [discriminate|].
  destruct s as [|m1 s]; [destruct h1 as [[] [] [] [] [] [] [] []]; discriminate|].
  destruct s as [|m2 s]; [destruct h1 as [[] [] [] [] [] [] [] []]; discriminate|].
  destruct s as [|h2 s]; [destruct h1 as [[] [] [] [] [] [] [] []]; discriminate|].
  destruct s as [|d1 s];
    [destruct h1 as [[] [] [] [] [] [] [] []]; try discriminate;
     destruct h2 as [[] [] [] [] [] [] [] []]; discriminate|].
  destruct s as [|d2 s];
    [destruct h1 as [[] [] [] [] [] [] [] []]; try discriminate;
     destruct h2 as [[] [] [] [] [] [] [] []]; discriminate|].
  cbn [list_ascii_of_string] in H.
  apply hyphen_only in H. destruct H as [-> H].
  apply hyphen_only in H. destruct H as [-> H].
  destruct s as [|extra s]; [|discriminate].
  apply andb_true_iff in H. destruct H as [H D2].
  apply andb_true_iff in H. destruct H as [H D1].
  apply andb_true_iff in H. destruct H as [H M2].
  apply andb_true_iff in H. destruct H as [H M1].
  apply Nat.leb_le in D2, D1, M2, M1.
  exists y1, y2, y3, y4, m1, m2, d1, d2.
  split; [reflexivity|]. split; [|lia].
  apply List.Forall_forall. intros c Hc.
  apply (proj1 (forallb_forall _ _) H c Hc).
Qed.

(** X18.  On well-formed dates the order of the strings, which the range
    query compares by, is the order of the calendar: comparing two dates as
    strings is comparing the numbers yyyymmdd they spell, with a month from
    1 to 12 and a day from 1 to 31. *)
Theorem valid_dates_ordered (a b : string) :
  isValidDate a = true ->
  isValidDate b = true ->
  String.compare a b = Z.compare (dateNumber a) (dateNumber b)
  /\ String.leb a b = (dateNumber a <=? dateNumber b)%Z
  /\ (1 <= monthOf a <= 12)%Z /\ (1 <= dayOf a <= 31)%Z.
Proof.
  intros Ha Hb.
  destruct (isValidDate_shape a Ha)
    as (y1 & y2 & y3 & y4 & m1 & m2 & d1 & d2 & -> & Fa & Ma & Da).
  destruct (isValidDate_shape b Hb)
    as (z1 & z2 & z3 & z4 & n1 & n2 & e1 & e2 & -> & Fb & _ & _).
  repeat match goal with
  | H : Forall _ (_ :: _) |- _ => inversion H; subst; clear H
  | H : Forall _ [] |- _ => clear H
  end.
  repeat match goal with
  | H : isDigit _ = true |- _ => apply isDigit_bounds in H
  end.
  match goal with
  | |- String.compare ?A ?B = _ /\ _ =>
      assert (Hcmp : String.compare A B = Z.compare (dateNumber A) (dateNumber B))
  end.
  { unfold dateNumber, yearOf, monthOf, dayOf, digitAt. cbn [String.get Nat.eqb].
    cbn [String.compare]. rewrite !ascii_compare_Z.
    change (Z.of_nat (nat_of_ascii "-")) with 45%Z. cbn [Z.compare Pos.compare Pos.compare_cont].
    repeat match goal with
    | |- context [Z.compare (Z.of_nat (nat_of_ascii ?c)) (Z.of_nat (nat_of_ascii ?c'))] =>
        destruct (Z.compare_spec (Z.of_nat (nat_of_ascii c)) (Z.of_nat (nat_of_ascii c')))
    end;
    symmetry;
    first [ apply Z.compare_eq_iff; lia
          | apply Z.compare_lt_iff; lia
          | apply Z.compare_gt_iff; lia ]. }
  split; [exact Hcmp|]. split.
  - unfold String.leb, Z.leb. rewrite Hcmp. reflexivity.
  - unfold monthOf, dayOf, digitAt. cbn [String.get Nat.eqb].
    unfold twoDigits in Ma, Da. lia.
Qed.

Lemma valid_dates_ordered_witness :
  String.compare "2024-02-29" "2024-03-01" = Z.compare 20240229 20240301
  /\ String.leb "2024-02-29" "2024-03-01" = (20240229 <=? 20240301)%Z
  /\ (1 <= 2 <= 12)%Z /\ (1 <= 29 <= 31)%Z.
Proof.
  apply (valid_dates_ordered "2024-02-29" "2024-03-01"); reflexivity.
Defined.

End DateOrder.

(** ** The two roll-ups *)

Section RollUps.
Import JS Store Calculator Spec Facts.

Lemma steps_agree (days : list DayDoc) (t : Calculator.Running) :
  fold_left Dashboard.aggregateStep days (asRunning t)
  = asRunning (fold_left rangeStep days t).
Proof.
  revert t. induction days as [|d rest IH]; intros t; cbn [fold_left];
    [reflexivity|].
  rewrite <- IH. reflexivity.
Qed.

(** X19.  The roll-up of the dashboard and the roll-up of a range request
    agree: over the same days they return the same count, the same eight
    figures and the same verdict. *)
Theorem aggregateDays_agrees (days : list DayDoc) (startDate endDate : string) :
  Dashboard.aggregateDays days = asSummary (aggregate startDate endDate days).
Proof.
  unfold Dashboard.aggregateDays, aggregate, asSummary.
  cbn [daysCount totals RangeTotals.revenue RangeTotals.cogs RangeTotals.adSpend
       RangeTotals.fees RangeTotals.fixedCosts RangeTotals.netProfit
       RangeTotals.profitMargin RangeTotals.orderCount RangeTotals.isProfitable].
  change {| Dashboard.runRevenue := 0; Dashboard.runCogs := 0;
            Dashboard.runAdSpend := 0; Dashboard.runFees := 0;
            Dashboard.runFixedCosts := 0; Dashboard.runNetProfit := 0;
            Dashboard.runOrderCount := 0 |}
    with (asRunning {| accRevenue := 0; accCogs := 0; accAdSpend := 0;
                       accFees := 0; accFixedCosts := 0; accNetProfit := 0;
                       accOrderCount := 0 |}).
  rewrite steps_agree. reflexivity.
Qed.

End RollUps.

(** ** A day without orders *)

Section QuietDays.
Import JS Store Collaborators Calculator Spec Facts.

(** X20.  On a day without orders the report shows revenue, COGS, fees and
    gross profit of "0.00", both margins as "0.0" (no division by the zero
    revenue) and a match rate of "100", whatever the ad spend and the fixed
    costs of the day. *)
Theorem no_orders_report targetDate shopData (cogsMap : CogsMap) byPlatform
    totalAdSpend dailyFixedCosts :
  exists feeTotals,
    GatewayFees.calculateTotalFees [] = Ok feeTotals
    /\ let r := buildReport targetDate shopData [] (Orders.calculateOrderMetrics [])
                  (Orders.extractLineItems []) (matchCogs cogsMap [])
                  byPlatform totalAdSpend feeTotals dailyFixedCosts in
       (revenue r, orderCount r, averageOrderValue r, cogs r, cogsMatchRate r,
        fees r, grossProfit r, grossMargin r, profitMargin r)
       = ("0.00", 0%nat, "0.00", "0.00", "100", "0.00", "0.00", "0.0", "0.0")
       /\ netProfit r
          = toFixed 2 (0 - 0 - totalAdSpend - 0 - dailyFixedCosts)%float.
Proof.
  eexists. split; [reflexivity|].
  cbn zeta. unfold buildReport.
  cbn [revenue orderCount averageOrderValue cogs cogsMatchRate fees grossProfit
       grossMargin profitMargin netProfit GatewayFees.totalFees].
  rewrite no_orders_revenue. split; reflexivity.
Qed.

End QuietDays.

(** ** Shop domains and amounts *)

Section DomainFacts.
Import JS Validators ShopDomain Facts Collaborators Calculator.

Lemma substring_all (s : string) : substring 0 (String.length s) s = s.
Proof. induction s as [|c r IH]; cbn; [reflexivity | f_equal; exact IH]. Qed.

Lemma substring_split (s : string) (i : nat) :
  (i <= String.length s)%nat ->
  s = String.append (substring 0 i s) (substring i (String.length s - i) s).
Proof.
  revert i. induction s as [|c r IH]; intros i Hi.
  - destruct i; [reflexivity | cbn in Hi; lia].
  - destruct i as [|i].
    + rewrite Nat.sub_0_r, substring_all. reflexivity.
    + cbn [substring String.length Nat.sub].
      change (String c r = String c (String.append (substring 0 i r)
                (substring i (String.length r - i) r))).
      f_equal. apply IH. cbn in Hi. lia.
Qed.

Lemma chars_append (a b : string) :
  list_ascii_of_string (String.append a b)
  = (list_ascii_of_string a ++ list_ascii_of_string b)%list.
Proof.
  induction a as [|c r IH]; [reflexivity|].
  change (list_ascii_of_string (String c (String.append r b))
          = (c :: list_ascii_of_string r ++ list_ascii_of_string b)%list).
  cbn [list_ascii_of_string]. f_equal. exact IH.
Qed.

Lemma lowerChar_domain (c : ascii) :
  domainChar c = true ->
  domainChar (lowerChar c) = true
  /\ isLabelChar (lowerChar c) = isLabelChar c
  /\ isAlnum (lowerChar c) = isAlnum c
  /\ isSpace (lowerChar c) = false
  /\ (lowerChar c =? "/")%char = false
  /\ (lowerChar c =? ":")%char = false.
Proof.
  destruct c as [[] [] [] [] [] [] [] []]; vm_compute; intros H;
    first [discriminate | repeat split].
Qed.

Lemma toLowerCase_chars (s : string) :
  list_ascii_of_string (toLowerCase s) = List.map lowerChar (list_ascii_of_string s).
Proof. induction s as [|c r IH]; cbn; [reflexivity | f_equal; exact IH]. Qed.

Lemma toLowerCase_length (s : string) :
  String.length (toLowerCase s) = String.length s.
Proof. induction s as [|c r IH]; cbn; [reflexivity | f_equal; exact IH]. Qed.

Lemma toLowerCase_substring (s : string) (i j : nat) :
  substring i j (toLowerCase s) = toLowerCase (substring i j s).
Proof.
  revert i j. induction s as [|c r IH]; intros i j.
  - destruct i, j; reflexivity.
  - destruct i as [|i]; [destruct j as [|j]|]; cbn; [reflexivity | f_equal; apply IH | apply IH].
Qed.

(** The characters of a valid domain are letters, digits, hyphens and dots. *)
Lemma valid_domain_chars (shop : string) :
  isValidShopDomain shop = true ->
  Forall (fun c => domainChar c = true) (list_ascii_of_string shop).
Proof.
  unfold isValidShopDomain. intros H.
  apply andb_true_iff in H. destruct H as [H Hhead].
  apply andb_true_iff in H. destruct H as [Hlen Hsuf].
  apply Nat.ltb_lt in Hlen. apply String.eqb_eq in Hsuf.
  rewrite (substring_split shop (String.length shop - String.length suffix))
    by lia.
  replace (String.length shop - (String.length shop - String.length suffix))%nat
    with (String.length suffix) by lia.
  rewrite Hsuf, chars_append. apply Forall_app. split.
  - destruct (substring 0 _ shop) as [|c rest]; [discriminate|].
    apply andb_true_iff in Hhead. destruct Hhead as [Hc Hrest].
    cbn [list_ascii_of_string]. constructor.
    + unfold domainChar, isLabelChar. rewrite Hc. reflexivity.
    + apply List.Forall_forall. intros x Hx.
      unfold domainChar. rewrite (proj1 (forallb_forall _ _) Hrest x Hx).
      reflexivity.
  - vm_compute. repeat constructor.
Qed.

Lemma no_protocol (t : string) :
  Forall (fun c => (c =? ":")%char = false) (list_ascii_of_string t) ->
  dropProtocol t = t.
Proof.
  intros H. unfold dropProtocol.
  destruct (String.prefix "http://" t) eqn:P1.
  - apply String.prefix_correct in P1. cbn [String.length] in P1.
    rewrite (substring_split t 7) in H.
    + rewrite P1, chars_append in H. apply Forall_app in H. destruct H as [H _].
      cbn in H. repeat (inversion H as [|? ? ?Hc H']; subst; clear H; rename H' into H;
                        try discriminate).
    + destruct (le_lt_dec 7 (String.length t)) as [Hl|Hl]; [exact Hl|].
      exfalso. assert (Hlen : String.length (substring 0 7 t) = 7%nat)
        by (rewrite P1; reflexivity).
      clear P1 H. revert Hlen Hl. generalize 7%nat as n.
      induction t as [|c r IH]; intros n Hlen Hl.
      * destruct n; cbn in *; lia.
      * destruct n as [|n]; cbn in *; [lia|].
        apply (IH n); [congruence | lia].
  - destruct (String.prefix "https://" t) eqn:P2; [|reflexivity].
    apply String.prefix_correct in P2. cbn [String.length] in P2.
    exfalso.
    assert (Hl : (8 <= String.length t)%nat).
    { destruct (le_lt_dec 8 (String.length t)) as [Hl|Hl]; [exact Hl|].
      exfalso. assert (Hlen : String.length (substring 0 8 t) = 8%nat)
        by (rewrite P2; reflexivity).
      clear P1 P2 H. revert Hlen Hl. generalize 8%nat as n.
      induction t as [|c r IH]; intros n Hlen Hl.
      * destruct n; cbn in *; lia.
      * destruct n as [|n]; cbn in *; [lia|].
        apply (IH n); [congruence | lia]. }
    rewrite (substring_split t 8 Hl) in H.
    rewrite P2, chars_append in H. apply Forall_app in H. destruct H as [H _].
    cbn in H. repeat (inversion H as [|? ? ?Hc H']; subst; clear H; rename H' into H;
                      try discriminate).
Qed.

Lemma no_trailing_slash (t : string) :
  Forall (fun c => (c =? "/")%char = false) (list_ascii_of_string t) ->
  dropTrailingSlash t = t.
Proof.
  induction t as [|c r IH]; intros H; [reflexivity|].
  cbn [list_ascii_of_string] in H. inversion H as [|? ? Hc Hr]; subst.
  cbn [dropTrailingSlash]. destruct r as [|c' r'].
  - rewrite Hc. reflexivity.
  - f_equal. apply IH, Hr.
Qed.

Lemma trimStart_none (l : list ascii) :
  Forall (fun c => isSpace c = false) l ->
  trimStart (string_of_list_ascii l) = string_of_list_ascii l.
Proof.
  intros H. destruct H as [|c r Hc Hr]; cbn; [reflexivity|].
  rewrite Hc. reflexivity.
Qed.

Lemma no_spaces (t : string) :
  Forall (fun c => isSpace c = false) (list_ascii_of_string t) ->
  trim t = t.
Proof.
  intros H. unfold trim.
  rewrite <- (string_of_list_ascii_of_string t) at 1.
  rewrite (trimStart_none _ H), list_ascii_of_string_of_list_ascii.
  rewrite (trimStart_none (rev (list_ascii_of_string t))).
  - rewrite list_ascii_of_string_of_list_ascii, rev_involutive.
    apply string_of_list_ascii_of_string.
  - apply List.Forall_rev. exact H.
Qed.

(** X22.  Sanitizing a valid shop domain only lower-cases it, and the
    result is a valid shop domain again; so the shop document of a valid
    domain is looked up under its lower-case spelling. *)
Theorem sanitize_valid_domain (shop : string) :
  isValidShopDomain shop = true ->
  sanitizeShopDomain shop = toLowerCase shop
  /\ isValidShopDomain (toLowerCase shop) = true.
Proof.
  intros Hv. pose proof (valid_domain_chars shop Hv) as Hchars.
  assert (Hlow : Forall (fun c => domainChar c = true /\ isSpace c = false
                                  /\ (c =? "/")%char = false
                                  /\ (c =? ":")%char = false)
                   (list_ascii_of_string (toLowerCase shop))).
  { rewrite toLowerCase_chars. apply List.Forall_map.
    eapply List.Forall_impl; [|exact Hchars].
    intros c Hc. destruct (lowerChar_domain c Hc) as (H1 & _ & _ & H2 & H3 & H4).
    auto. }
  split.
  - unfold sanitizeShopDomain.
    destruct (String.eqb_spec shop "") as [->|_]; [discriminate|].
    rewrite no_protocol, no_trailing_slash, no_spaces; try reflexivity;
      (eapply List.Forall_impl; [|exact Hlow]); cbn; intros c Hc; tauto.
  - unfold isValidShopDomain in Hv |- *.
    rewrite toLowerCase_length, !toLowerCase_substring.
    apply andb_true_iff in Hv. destruct Hv as [Hv Hhead].
    apply andb_true_iff in Hv. destruct Hv as [Hlen Hsuf].
    rewrite Hlen. apply String.eqb_eq in Hsuf. rewrite Hsuf.
    change (toLowerCase suffix =? suffix) with true. cbn [andb].
    destruct (substring 0 _ shop) as [|c rest]; [discriminate|].
    apply andb_true_iff in Hhead. destruct Hhead as [Hc Hrest].
    cbn [toLowerCase].
    assert (Hdc : domainChar c = true)
      by (unfold domainChar, isLabelChar; rewrite Hc; reflexivity).
    destruct (lowerChar_domain c Hdc) as (_ & _ & -> & _). rewrite Hc. cbn [andb].
    rewrite toLowerCase_chars. apply forallb_forall. intros x Hx.
    apply List.in_map_iff in Hx. destruct Hx as (y & <- & Hy).
    pose proof (proj1 (forallb_forall _ _) Hrest y Hy) as Hl.
    assert (Hdy : domainChar y = true) by (unfold domainChar; rewrite Hl; reflexivity).
    destruct (lowerChar_domain y Hdy) as (_ & -> & _). exact Hl.
Qed.

Lemma sanitize_valid_domain_witness :
  sanitizeShopDomain "Lens-Demo.myshopify.com" = "lens-demo.myshopify.com"
  /\ isValidShopDomain "lens-demo.myshopify.com" = true.
Proof.
  apply (sanitize_valid_domain "Lens-Demo.myshopify.com"). reflexivity.
Defined.

(** X23.  Among the costs the validator of amounts accepts, which are the
    numbers from zero upwards, zero is the one the calculator does not
    count: an item whose stored cost was accepted is matched exactly when
    that cost is not zero. *)
Theorem accepted_cost_matches (cogsMap : CogsMap) (item : Orders.LineItem)
    (cost : number) :
  cogsMap !! variantKey (Orders.variantId item) = Some cost ->
  isPositiveNumber cost = true ->
  gt (lookupCogs cogsMap item) 0 = negb (PrimFloat.eqb cost 0)
  /\ cogsMatchedItems (matchCogs cogsMap [item])
     = (if PrimFloat.eqb cost 0 then 0 else 1)%nat.
Proof.
  intros Hk H.
  assert (Hgt : gt (lookupCogs cogsMap item) 0 = negb (PrimFloat.eqb cost 0)).
  { unfold lookupCogs. rewrite Hk, gt_orZero. revert H.
    unfold isPositiveNumber, is_nan, ge, gt.
    rewrite FloatAxioms.leb_spec, FloatAxioms.ltb_spec, !FloatAxioms.eqb_spec.
    change (Prim2SF 0) with (S754_zero false).
    destruct (Prim2SF cost) as [s | s | | s m e]; try destruct s; cbn;
      rewrite ?Z.compare_refl, ?Pos.compare_cont_refl; cbn; congruence. }
  split; [exact Hgt|].
  unfold matchCogs. cbn [fold_left]. unfold cogsStep. rewrite Hgt.
  destruct (PrimFloat.eqb cost 0); reflexivity.
Qed.

Lemma accepted_cost_matches_witness :
  cogsMatchedItems
    (matchCogs {[ "41001" := 0%float ]}
       [Orders.extractItem Example.order1 Example.mug]) = 0%nat.
Proof.
  apply (accepted_cost_matches {[ "41001" := 0%float ]}
           (Orders.extractItem Example.order1 Example.mug) 0%float);
    reflexivity.
Defined.

End DomainFacts.
